(** * Homey MCP server: request dispatcher and tool-invocation layer

    A shallow embedding of [src/lib/utils.ts] (the three concatenated
    modules [utils], [mcp-server] and [homey-tools]) and of the HTTP entry
    point [api.ts], followed by the properties the specification states
    about them.

    Conventions of the embedding.
    - A JavaScript string is a [string] holding the UTF-8 encoding of its
      text.  White space is the full set of [String.prototype.trim] and of
      the numeric string grammar.  [String.prototype.toLowerCase] and
      [String.prototype.localeCompare] follow Unicode tables of the host
      and are parameters, gathered in [Host].
    - JavaScript numbers are IEEE-754 binary64 values, represented by the
      standard library's [spec_float].
    - A JavaScript object used as a map is an association list holding its
      own properties in creation order; what a plain object inherits from
      [Object.prototype] is [JS.inherited].
    - The values of a request are untyped ([value]); the records of the
      Capability Provider have the fields the program reads, each of the
      type the provider's interface declares, or absent.
    - Whatever is thrown is an instance of [Error]: the program's own, the
      engine's [TypeError] or a rejection of the provider; the program
      reads its [message] only.
    - [Logger] writes to the console; what the embedding keeps of a call
      is the evaluation of its message, which can throw.
    - An [async] method is a tree of Capability Provider invocations whose
      leaves are the settled promise: resolved with a value or rejected
      with an [Error]. *)

From Stdlib Require Import List String Ascii ZArith NArith Bool Lia.
From Stdlib Require Import Sorted Permutation DecimalString SpecFloat.
Import ListNotations.
Local Open Scope string_scope.
Set Warnings "-register-all".

(* ================================================================== *)
(** ** Strings *)

Module JSString.

(** White space recognised by [String.prototype.trim] and by the numeric
    string grammar ([WhiteSpace] and [LineTerminator]), by the bytes of
    its UTF-8 encoding.  One byte: TAB, LF, VT, FF, CR and SPACE. *)
Definition isWhiteSpace (c : ascii) : bool :=
  let n := nat_of_ascii c in
  ((9 <=? n)%nat && (n <=? 13)%nat) || (n =? 32)%nat.

(** Two bytes: U+00A0 (C2 A0). *)
Definition isWhiteSpace2 (a b : ascii) : bool :=
  ((nat_of_ascii a =? 194) && (nat_of_ascii b =? 160))%nat.

(** Three bytes: U+1680 (E1 9A 80), U+2000 to U+200A (E2 80 80 to 8A),
    U+2028, U+2029 (E2 80 A8, A9), U+202F (E2 80 AF), U+205F (E2 81 9F),
    U+3000 (E3 80 80) and U+FEFF (EF BB BF). *)
Definition isWhiteSpace3 (a b c : ascii) : bool :=
  let x := nat_of_ascii a in
  let y := nat_of_ascii b in
  let z := nat_of_ascii c in
  ((x =? 225) && (y =? 154) && (z =? 128)
   || (x =? 226) && (y =? 128)
      && (((128 <=? z) && (z <=? 138)) || (z =? 168) || (z =? 169) || (z =? 175))
   || (x =? 226) && (y =? 129) && (z =? 159)
   || (x =? 227) && (y =? 128) && (z =? 128)
   || (x =? 239) && (y =? 187) && (z =? 191))%nat.

(** Removes the white space [s] starts with; [backwards] reads the bytes
    of each character last to first, for a reversed text. *)
Fixpoint strip (backwards : bool) (s : string) : string :=
  match s with
  | EmptyString => EmptyString
  | String a r1 =>
      if isWhiteSpace a then strip backwards r1
      else
        match r1 with
        | EmptyString => s
        | String b r2 =>
            if (if backwards then isWhiteSpace2 b a else isWhiteSpace2 a b)
            then strip backwards r2
            else
              match r2 with
              | EmptyString => s
              | String c r3 =>
                  if (if backwards then isWhiteSpace3 c b a
                      else isWhiteSpace3 a b c)
                  then strip backwards r3
                  else s
              end
        end
  end.

Fixpoint reverseOnto (s acc : string) : string :=
  match s with
  | EmptyString => acc
  | String c s' => reverseOnto s' (String c acc)
  end.

Definition reverse (s : string) : string := reverseOnto s EmptyString.

Definition trimStart (s : string) : string := strip false s.

Definition trimEnd (s : string) : string := reverse (strip true (reverse s)).

Definition trim (s : string) : string := trimEnd (trimStart s).

(** [s.length === 0] *)
Definition isEmpty (s : string) : bool :=
  match s with EmptyString => true | _ => false end.

(** [s.split(sep)] for a one-character separator. *)
Fixpoint split (sep : ascii) (s : string) : list string :=
  match s with
  | EmptyString => [EmptyString]
  | String c s' =>
      if Ascii.eqb c sep then EmptyString :: split sep s'
      else match split sep s' with
           | piece :: rest => String c piece :: rest
           | [] => [String c EmptyString]
           end
  end.

(** [pieces.join(sep)] *)
Fixpoint join (sep : string) (pieces : list string) : string :=
  match pieces with
  | [] => EmptyString
  | [p] => p
  | p :: rest => p ++ sep ++ join sep rest
  end.

(** The decimal numeral of a natural number: what a template literal
    prints for an array length or an index. *)
Definition ofNat (n : nat) : string := NilEmpty.string_of_uint (Nat.to_uint n).

Definition ofZ (z : Z) : string :=
  match z with
  | Zneg p => "-" ++ NilEmpty.string_of_uint (Pos.to_uint p)
  | _ => NilEmpty.string_of_uint (N.to_uint (Z.to_N z))
  end.

Fixpoint repeat0 (n : nat) : string :=
  match n with O => EmptyString | S n' => String "0" (repeat0 n') end.

End JSString.

(** What the host's Unicode tables decide: [a.localeCompare(b)] in the
    default locale, and [s.toLowerCase()]. *)
Record Host := mkHost {
  localeCompare : string -> string -> Z;
  toLowerCase : string -> string
}.

(* ================================================================== *)
(** ** Numbers *)

Module JSNumber.

Definition number := spec_float.

Definition isNaN (x : number) : bool :=
  match x with S754_nan => true | _ => false end.

Definition isFinite (x : number) : bool :=
  match x with S754_nan | S754_infinity _ => false | _ => true end.

(** The binary64 value nearest to the positive rational [p / q], ties to
    even: 53 significant bits, exponents from -1074 to 971. *)
Definition roundToBinary64 (neg : bool) (p q : Z) : number :=
  let L := (Z.log2 p - Z.log2 q)%Z in
  let fl := if (q * 2 ^ Z.max L 0 <=? p * 2 ^ Z.max (- L) 0)%Z then L else (L - 1)%Z in
  let e := Z.max (fl - 52) (-1074) in
  let num := (p * 2 ^ Z.max (- e) 0)%Z in
  let den := (q * 2 ^ Z.max e 0)%Z in
  let m0 := (num / den)%Z in
  let r := (num mod den)%Z in
  let m1 := if (den <? 2 * r)%Z then (m0 + 1)%Z
            else if (2 * r =? den)%Z then (if Z.odd m0 then m0 + 1 else m0)%Z
            else m0 in
  let m := if (m1 =? 2 ^ 53)%Z then (2 ^ 52)%Z else m1 in
  let e' := if (m1 =? 2 ^ 53)%Z then (e + 1)%Z else e in
  match m with
  | Zpos mp => if (971 <? e')%Z then S754_infinity neg else S754_finite neg mp e'
  | _ => S754_zero neg
  end.

(** *** [StringToNumber]: the [StringNumericLiteral] grammar *)

Inductive StrNumericLiteral :=
| LitInfinity (neg : bool)
| LitDecimal (neg : bool) (mantissa : N) (exp10 : Z)
| LitInteger (n : N).

Definition digitValue (radix : N) (c : ascii) : option N :=
  let n := N_of_ascii c in
  let d := if ((48 <=? n) && (n <=? 57))%N then Some (n - 48)%N
           else if ((97 <=? n) && (n <=? 102))%N then Some (n - 87)%N
           else if ((65 <=? n) && (n <=? 70))%N then Some (n - 55)%N
           else None in
  match d with
  | Some v => if (v <? radix)%N then Some v else None
  | None => None
  end.

(** Reads the longest run of digits: accumulated value, number of digits
    read, and the remaining text. *)
Fixpoint readDigits (radix : N) (s : string) (acc : N) (cnt : nat)
  : N * nat * string :=
  match s with
  | String c s' =>
      match digitValue radix c with
      | Some d => readDigits radix s' (acc * radix + d)%N (S cnt)
      | None => (acc, cnt, s)
      end
  | EmptyString => (acc, cnt, s)
  end.

Definition parseWholeDigits (radix : N) (s : string) : option N :=
  match readDigits radix s 0%N 0%nat with
  | (n, S _, EmptyString) => Some n
  | _ => None
  end.

Definition parseNonDecimal (s : string) : option StrNumericLiteral :=
  match s with
  | String "0" (String c rest) =>
      let radix :=
        if (Ascii.eqb c "x" || Ascii.eqb c "X")%bool then Some 16%N
        else if (Ascii.eqb c "o" || Ascii.eqb c "O")%bool then Some 8%N
        else if (Ascii.eqb c "b" || Ascii.eqb c "B")%bool then Some 2%N
        else None in
      match radix with
      | Some r => option_map LitInteger (parseWholeDigits r rest)
      | None => None
      end
  | _ => None
  end.

Definition parseExponent (s : string) : option Z :=
  match s with
  | String "+" r => option_map Z.of_N (parseWholeDigits 10 r)
  | String "-" r => option_map (fun n => (- Z.of_N n)%Z) (parseWholeDigits 10 r)
  | _ => option_map Z.of_N (parseWholeDigits 10 s)
  end.

Definition parseUnsignedDecimal (neg : bool) (s : string)
  : option StrNumericLiteral :=
  if String.eqb s "Infinity" then Some (LitInfinity neg) else
  let '(ip, ni, r1) := readDigits 10 s 0%N 0%nat in
  let '(mant, nf, r2) :=
    match r1 with
    | String "." r1' => readDigits 10 r1' ip 0%nat
    | _ => (ip, 0%nat, r1)
    end in
  match (ni + nf)%nat with
  | O => None
  | S _ =>
      match r2 with
      | EmptyString => Some (LitDecimal neg mant (- Z.of_nat nf))
      | String c r3 =>
          if (Ascii.eqb c "e" || Ascii.eqb c "E")%bool
          then option_map (fun x => LitDecimal neg mant (x - Z.of_nat nf))
                          (parseExponent r3)
          else None
      end
  end.

Definition parseStrNumericLiteral (s : string) : option StrNumericLiteral :=
  match parseNonDecimal s with
  | Some l => Some l
  | None =>
      match s with
      | String "+" r => parseUnsignedDecimal false r
      | String "-" r => parseUnsignedDecimal true r
      | _ => parseUnsignedDecimal false s
      end
  end.

(** The mathematical value of a literal, rounded to binary64. *)
Definition literalValue (l : StrNumericLiteral) : number :=
  match l with
  | LitInfinity neg => S754_infinity neg
  | LitInteger n => roundToBinary64 false (Z.of_N n) 1
  | LitDecimal neg m e =>
      roundToBinary64 neg (Z.of_N m * 10 ^ Z.max e 0) (10 ^ Z.max (- e) 0)
  end.

(** [Number(s)] for a string [s]. *)
Definition StringToNumber (s : string) : number :=
  match JSString.trim s with
  | EmptyString => S754_zero false
  | t => match parseStrNumericLiteral t with
         | Some l => literalValue l
         | None => S754_nan
         end
  end.

(** *** [Number::toString]: the shortest decimal that reads back *)

(** Compares [a * 2^ea * 10^pa] with [b * 2^eb * 10^pb]. *)
Definition cmpScaled (a ea pa b eb pb : Z) : comparison :=
  let e0 := Z.min ea eb in
  let p0 := Z.min pa pb in
  (a * 2 ^ (ea - e0) * 10 ^ (pa - p0) ?= b * 2 ^ (eb - e0) * 10 ^ (pb - p0))%Z.

(** Does [s * 10^p] round to the number whose rounding interval is
    [LO * 2^E .. HI * 2^E] (bounds included when the mantissa is even)? *)
Definition inInterval (even : bool) (LO HI E s p : Z) : bool :=
  match cmpScaled s 0 p LO E 0, cmpScaled s 0 p HI E 0 with
  | Gt, Lt => true
  | Eq, Lt => even
  | Gt, Eq => even
  | _, _ => false
  end.

(** The least [P] from [P0] upwards with [X * 2^E < 10^P]. *)
Fixpoint decimalExponent (fuel : nat) (X E P : Z) : Z :=
  match fuel with
  | O => P
  | S f => match cmpScaled X E 0 1 0 P with
           | Lt => P
           | _ => decimalExponent f X E (P + 1)%Z
           end
  end.

(** Digits [s] and exponent [p] with [s * 10^p] reading back as the
    number, trying [k = 1, 2, ...] digits. *)
Fixpoint shortestDigits (fuel : nat) (even : bool) (X LO HI E P k : Z) : Z * Z :=
  let p := (P - k)%Z in
  let num := (X * 2 ^ Z.max E 0 * 10 ^ Z.max (- p) 0)%Z in
  let den := (2 ^ Z.max (- E) 0 * 10 ^ Z.max p 0)%Z in
  let slo := (num / den)%Z in
  let shi := (slo + 1)%Z in
  let nearest := if (2 * num <=? (2 * slo + 1) * den)%Z then slo else shi in
  match fuel with
  | O => (nearest, p)
  | S f =>
      match inInterval even LO HI E slo p, inInterval even LO HI E shi p with
      | true, true => (nearest, p)
      | true, false => (slo, p)
      | false, true => (shi, p)
      | false, false => shortestDigits f even X LO HI E P (k + 1)%Z
      end
  end.

Fixpoint stripZeros (fuel : nat) (s p : Z) : Z * Z :=
  match fuel with
  | O => (s, p)
  | S f => if ((s mod 10 =? 0) && (0 <? s))%Z%bool
           then stripZeros f (s / 10)%Z (p + 1)%Z else (s, p)
  end.

Definition formatDigits (D : string) (n : Z) : string :=
  let k := Z.of_nat (String.length D) in
  if ((k <=? n) && (n <=? 21))%Z%bool then
    D ++ JSString.repeat0 (Z.to_nat (n - k))
  else if ((0 <? n) && (n <=? 21))%Z%bool then
    String.substring 0 (Z.to_nat n) D ++ "." ++
    String.substring (Z.to_nat n) (Z.to_nat (k - n)) D
  else if ((-6 <? n) && (n <=? 0))%Z%bool then
    "0." ++ JSString.repeat0 (Z.to_nat (- n)) ++ D
  else
    let e := (n - 1)%Z in
    let es := (if (0 <=? e)%Z then "+" else "-") ++ JSString.ofZ (Z.abs e) in
    if (k =? 1)%Z then D ++ "e" ++ es
    else String.substring 0 1 D ++ "." ++
         String.substring 1 (Z.to_nat (k - 1)) D ++ "e" ++ es.

Definition positiveToString (m : positive) (e : Z) : string :=
  let M := Zpos m in
  let E := (e - 2)%Z in
  let X := (4 * M)%Z in
  let HI := (4 * M + 2)%Z in
  let LO := if ((M =? 2 ^ 52) && (-1074 <? e))%Z%bool
            then (4 * M - 1)%Z else (4 * M - 2)%Z in
  let bits := (Z.log2 X + E)%Z in
  let P := decimalExponent 6 X E (bits * 30103 / 100000)%Z in
  let '(s0, p0) := shortestDigits 17 (Z.even M) X LO HI E P 1 in
  let '(s, p) := stripZeros 400 s0 p0 in
  let D := JSString.ofZ s in
  formatDigits D (p + Z.of_nat (String.length D)).

Definition NumberToString (x : number) : string :=
  match x with
  | S754_nan => "NaN"
  | S754_zero _ => "0"
  | S754_infinity neg => if neg then "-Infinity" else "Infinity"
  | S754_finite neg m e =>
      (if neg then "-" else "") ++ positiveToString m e
  end.

(** The number denoted by an integer, as the language reads a literal. *)
Definition ofZ (z : Z) : number :=
  match z with
  | Z0 => S754_zero false
  | Zpos _ => roundToBinary64 false z 1
  | Zneg p => roundToBinary64 true (Zpos p) 1
  end.

End JSNumber.

(* ================================================================== *)
(** ** Values, objects and thrown errors *)

(** The values a parsed request body, an absent property or a provider
    reading can hold.  [VObj] lists the own properties of a plain object in
    enumeration order. *)
Inductive value :=
| VUndefined
| VNull
| VBool (b : bool)
| VNum (x : JSNumber.number)
| VStr (s : string)
| VArr (items : list value)
| VObj (props : list (string * value)).

(** A map from property names to [A]: own properties in creation order. *)
Definition obj (A : Type) := list (string * A).

Definition nl : string := String "010" EmptyString.
Definition dquote : string := String "034" EmptyString.
Definition backslash : string := String "092" EmptyString.

Record Error := mkError { message : string }.

(** How a call ends: it returns (an awaited promise resolves) or it throws
    (the promise is rejected). *)
Inductive outcome (A : Type) :=
| Returns (a : A)
| Throws (e : Error).
Arguments Returns {A} a.
Arguments Throws {A} e.

Definition throwError {A : Type} (msg : string) : outcome A := Throws (mkError msg).

(** The engine's [TypeError]. *)
Definition typeError {A : Type} (msg : string) : outcome A := Throws (mkError msg).

Module JS.

Definition typeof (v : value) : string :=
  match v with
  | VUndefined => "undefined"
  | VBool _ => "boolean"
  | VNum _ => "number"
  | VStr _ => "string"
  | VNull | VArr _ | VObj _ => "object"
  end.

(** [ToBoolean] *)
Definition truthy (v : value) : bool :=
  match v with
  | VUndefined | VNull => false
  | VBool b => b
  | VNum (S754_zero _) | VNum S754_nan => false
  | VNum _ => true
  | VStr s => negb (JSString.isEmpty s)
  | VArr _ | VObj _ => true
  end.

(** [s || d] on strings *)
Definition orElse (s d : string) : string :=
  if JSString.isEmpty s then d else s.

(** [o || d] on a possibly absent string *)
Definition orDefault (o : option string) (d : string) : string :=
  match o with Some s => orElse s d | None => d end.

Fixpoint lookup {A : Type} (o : obj A) (k : string) : option A :=
  match o with
  | [] => None
  | (k', a) :: o' => if String.eqb k' k then Some a else lookup o' k
  end.

(** [v.k] (or [v?.k]) for a receiver that is neither [null] nor
    [undefined]; primitives and arrays have none of the property names
    this program reads. *)
Definition get (v : value) (k : string) : value :=
  match v with
  | VObj props => match lookup props k with Some x => x | None => VUndefined end
  | _ => VUndefined
  end.

(** [l || r] *)
Definition or (l r : value) : value := if truthy l then l else r.

(** [ToString], as a template literal applies it.  An object is
    converted by the [toString] it has: a plain object that has an own
    property [toString] - of a parsed body, never a function - cannot be
    converted, and the conversion throws; any other plain object prints as
    "[object Object]".  An array joins the conversions of its elements. *)
Fixpoint ToString (v : value) : outcome string :=
  match v with
  | VUndefined => Returns "undefined"
  | VNull => Returns "null"
  | VBool b => Returns (if b then "true" else "false")
  | VNum x => Returns (JSNumber.NumberToString x)
  | VStr s => Returns s
  | VArr items =>
      match
        (fix each (l : list value) : outcome (list string) :=
           match l with
           | [] => Returns []
           | x :: l' =>
               match
                 match x with
                 | VUndefined | VNull => Returns EmptyString
                 | _ => ToString x
                 end
               with
               | Throws e => Throws e
               | Returns piece =>
                   match each l' with
                   | Throws e => Throws e
                   | Returns pieces => Returns (piece :: pieces)
                   end
               end
           end) items
      with
      | Throws e => Throws e
      | Returns pieces => Returns (JSString.join "," pieces)
      end
  | VObj props =>
      match lookup props "toString" with
      | Some _ => typeError "Cannot convert object to primitive value"
      | None => Returns "[object Object]"
      end
  end.

(** The template literal [`before${v}after`]. *)
Definition interpolate (before : string) (v : value) (after : string)
  : outcome string :=
  match ToString v with
  | Returns text => Returns (before ++ text ++ after)
  | Throws e => Throws e
  end.

(** What a plain object inherits from [Object.prototype], by property
    name, and the [name] of what it inherits: the constructor [Object],
    the methods, each named as its property, and, under [__proto__], the
    prototype itself, which has no [name]. *)
Definition inherited (k : string) : option (option string) :=
  if String.eqb k "constructor" then Some (Some "Object")
  else if String.eqb k "__proto__" then Some None
  else if existsb (String.eqb k)
            [ "hasOwnProperty"; "isPrototypeOf"; "propertyIsEnumerable";
              "toLocaleString"; "toString"; "valueOf";
              "__defineGetter__"; "__defineSetter__";
              "__lookupGetter__"; "__lookupSetter__" ]
  then Some (Some k)
  else None.

Definition hexDigit (n : nat) : ascii :=
  if (n <? 10)%nat then ascii_of_nat (48 + n) else ascii_of_nat (87 + n).

Definition quoteChar (c : ascii) : string :=
  let n := nat_of_ascii c in
  if (n =? 34)%nat then backslash ++ dquote
  else if (n =? 92)%nat then backslash ++ backslash
  else if (n =? 8)%nat then backslash ++ "b"
  else if (n =? 12)%nat then backslash ++ "f"
  else if (n =? 10)%nat then backslash ++ "n"
  else if (n =? 13)%nat then backslash ++ "r"
  else if (n =? 9)%nat then backslash ++ "t"
  else if (n <? 32)%nat then
    backslash ++ "u00" ++
    String (hexDigit (n / 16)) (String (hexDigit (n mod 16)) EmptyString)
  else String c EmptyString.

Fixpoint quoteBody (s : string) : string :=
  match s with
  | EmptyString => EmptyString
  | String c s' => quoteChar c ++ quoteBody s'
  end.

(** [QuoteJSONString] *)
Definition quote (s : string) : string := dquote ++ quoteBody s ++ dquote.

(** [JSON.stringify(v)]; [None] stands for the result [undefined]. *)
Fixpoint JSON_stringify (v : value) : option string :=
  match v with
  | VUndefined => None
  | VNull => Some "null"
  | VBool b => Some (if b then "true" else "false")
  | VNum x => Some (if JSNumber.isFinite x then JSNumber.NumberToString x else "null")
  | VStr s => Some (quote s)
  | VArr items =>
      Some ("[" ++ JSString.join ","
        ((fix each (l : list value) : list string :=
            match l with
            | [] => []
            | x :: l' =>
                match JSON_stringify x with
                | Some t => t
                | None => "null"
                end :: each l'
            end) items) ++ "]")
  | VObj props =>
      Some ("{" ++ JSString.join ","
        ((fix each (l : list (string * value)) : list string :=
            match l with
            | [] => []
            | (k, x) :: l' =>
                match JSON_stringify x with
                | Some t => (quote k ++ ":" ++ t) :: each l'
                | None => each l'
                end
            end) props) ++ "}")
  end.

(** What a template literal prints for [JSON.stringify(v)]. *)
Definition JSON_text (v : value) : string :=
  match JSON_stringify v with Some t => t | None => "undefined" end.

(** [xs.sort(cmp)]: the sort is stable; for a consistent comparator it
    is the insertion sort below. *)
Fixpoint insert {A : Type} (cmp : A -> A -> Z) (x : A) (l : list A) : list A :=
  match l with
  | [] => [x]
  | y :: l' => if (cmp x y <=? 0)%Z then x :: y :: l' else y :: insert cmp x l'
  end.

Fixpoint sort {A : Type} (cmp : A -> A -> Z) (l : list A) : list A :=
  match l with
  | [] => []
  | x :: l' => insert cmp x (sort cmp l')
  end.

(** An array index: the canonical numeral of an integer below 2^32 - 1. *)
Definition arrayIndex (k : string) : option N :=
  match k with
  | String "0" EmptyString => Some 0%N
  | String "0" _ => None
  | _ => match JSNumber.parseWholeDigits 10 k with
         | Some n => if (n <=? 4294967294)%N then Some n else None
         | None => None
         end
  end.

Definition indexKeyed {A : Type} (o : obj A) : list (N * (string * A)) :=
  flat_map (fun kv => match arrayIndex (fst kv) with
                      | Some n => [(n, kv)]
                      | None => []
                      end) o.

Definition isNamed {A : Type} (kv : string * A) : bool :=
  match arrayIndex (fst kv) with Some _ => false | None => true end.

(** [Object.entries(o)]: array-index keys in ascending order, then the
    other keys in creation order. *)
Definition entries {A : Type} (o : obj A) : list (string * A) :=
  map snd (sort (fun a b => (Z.of_N (fst a) - Z.of_N (fst b))%Z) (indexKeyed o))
  ++ filter isNamed o.

Fixpoint upsert {A : Type} (o : obj A) (k : string) (a : A) : obj A :=
  match o with
  | [] => [(k, a)]
  | (k', a') :: o' =>
      if String.eqb k' k then (k', a) :: o' else (k', a') :: upsert o' k a
  end.

(** [o[k] = a] on an object literal: the key [__proto__] reaches the
    prototype setter and creates no own property. *)
Definition assign {A : Type} (o : obj A) (k : string) (a : A) : obj A :=
  if String.eqb k "__proto__" then o else upsert o k a.

End JS.


(* ================================================================== *)
(** ** [utils]: ValidationHelper and MCPHelper *)

Module ValidationHelper.

Definition validateDeviceId (deviceId : value) : outcome string :=
  match deviceId with
  | VStr s =>
      if JSString.isEmpty s
      then throwError "Device ID must be a non-empty string"
      else Returns s
  | _ => throwError "Device ID must be a non-empty string"
  end.

Definition validateCapability (capability : value) : outcome string :=
  match capability with
  | VStr s =>
      if JSString.isEmpty s
      then throwError "Capability must be a non-empty string"
      else Returns s
  | _ => throwError "Capability must be a non-empty string"
  end.

Definition validateCapabilityValue (v : value) : outcome value :=
  match v with
  | VNull | VUndefined =>
      throwError "Capability value cannot be null or undefined"
  | VBool _ => Returns v
  | VNum x =>
      if negb (JSNumber.isFinite x)
      then throwError "Capability value cannot be NaN or Infinity"
      else Returns v
  | VStr s =>
      if JSString.isEmpty s
      then throwError "Capability value cannot be an empty string"
      else if String.eqb s "true" then Returns (VBool true)
      else if String.eqb s "false" then Returns (VBool false)
      else
        let trimmed := JSString.trim s in
        if (negb (JSString.isEmpty trimmed)
            && negb (JSNumber.isNaN (JSNumber.StringToNumber trimmed)))%bool
        then Returns (VNum (JSNumber.StringToNumber trimmed))
        else Returns v
  | _ =>
      throwError
        ("Invalid capability value type: expected string, number, or boolean, got "
           ++ JS.typeof v)
  end.

Definition validateFlowId (flowId : value) : outcome string :=
  match flowId with
  | VStr s =>
      if JSString.isEmpty s
      then throwError "Flow ID must be a non-empty string"
      else Returns s
  | _ => throwError "Flow ID must be a non-empty string"
  end.

(** [None] is the result [undefined]. *)
Definition sanitizeZoneName (zoneName : value) : outcome (option string) :=
  match zoneName with
  | VNull | VUndefined => Returns None
  | VStr s => Returns (Some (JSString.trim s))
  | _ => throwError "Zone name must be a string"
  end.

End ValidationHelper.

Record DeviceInfo := mkDeviceInfo {
  di_id : string;
  di_name : string;
  di_zone : string;
  di_class : string;
  di_available : bool;
  di_capabilities : list string;
  di_capabilityValues : obj value;
  di_driver : string;
  di_app : string
}.

Record ZoneInfo := mkZoneInfo {
  zi_id : string;
  zi_name : string
}.

Record FlowInfo := mkFlowInfo {
  fi_id : string;
  fi_name : string;
  fi_enabled : bool;
  fi_folder : option string;
  fi_triggerable : bool
}.

Module MCPHelper.

(** [xs.forEach((x, index) => { output += block(index, x) })] *)
Fixpoint forEachBlock {A : Type} (block : nat -> A -> string) (index : nat)
         (xs : list A) : string :=
  match xs with
  | [] => EmptyString
  | x :: xs' => block index x ++ forEachBlock block (S index) xs'
  end.

Definition yesNo (b : bool) : string := if b then "Yes" else "No".

Definition deviceBlock (index : nat) (device : DeviceInfo) : string :=
  JSString.ofNat (index + 1) ++ ". "
    ++ JS.orElse (di_name device) "Unknown Device" ++ nl
  ++ "   ID: " ++ JS.orElse (di_id device) "N/A" ++ nl
  ++ "   Zone: " ++ JS.orElse (di_zone device) "N/A" ++ nl
  ++ "   Class: " ++ JS.orElse (di_class device) "N/A" ++ nl
  ++ "   Available: " ++ yesNo (di_available device) ++ nl
  ++ match di_capabilities device with
     | [] => EmptyString
     | caps => "   Capabilities: " ++ JSString.join ", " caps ++ nl
     end
  ++ nl.

Definition formatDeviceList (devices : list DeviceInfo) : string :=
  match devices with
  | [] => "No devices found."
  | _ =>
      "Found " ++ JSString.ofNat (List.length devices) ++ " device(s):" ++ nl ++ nl
      ++ forEachBlock deviceBlock 0 devices
  end.

Definition zoneBlock (index : nat) (zone : ZoneInfo) : string :=
  JSString.ofNat (index + 1) ++ ". "
    ++ JS.orElse (zi_name zone) "Unknown Zone" ++ nl
  ++ "   ID: " ++ JS.orElse (zi_id zone) "N/A" ++ nl ++ nl.

Definition formatZoneList (zones : list ZoneInfo) : string :=
  match zones with
  | [] => "No zones found."
  | _ =>
      "Found " ++ JSString.ofNat (List.length zones) ++ " zone(s):" ++ nl ++ nl
      ++ forEachBlock zoneBlock 0 zones
  end.

Definition flowBlock (index : nat) (flow : FlowInfo) : string :=
  JSString.ofNat (index + 1) ++ ". "
    ++ JS.orElse (fi_name flow) "Unknown Flow" ++ nl
  ++ "   ID: " ++ JS.orElse (fi_id flow) "N/A" ++ nl
  ++ "   Enabled: " ++ yesNo (fi_enabled flow) ++ nl ++ nl.

Definition formatFlowList (flows : list FlowInfo) : string :=
  match flows with
  | [] => "No flows found."
  | _ =>
      "Found " ++ JSString.ofNat (List.length flows) ++ " flow(s):" ++ nl ++ nl
      ++ forEachBlock flowBlock 0 flows
  end.

End MCPHelper.

(* ================================================================== *)
(** ** The Capability Provider: data and operations *)

(** A device's [zone]: absent, a zone id, or a zone object with an [id]. *)
Inductive ZoneRef :=
| ZoneAbsent
| ZoneId (id : string)
| ZoneObject (id : option string).

(** A value the provider may leave out: present, [null] or
    [undefined]. *)
Inductive nullable (A : Type) :=
| Present (a : A)
| Null
| Undefined.
Arguments Present {A} a.
Arguments Null {A}.
Arguments Undefined {A}.

Record Manager := mkManager { manager_uri : option string }.

(** The fields of a provider device that the program reads; [None] is an
    absent ([undefined]) field. *)
Record Device := mkDevice {
  dev_name : option string;
  dev_zone : ZoneRef;
  dev_class : option string;
  dev_available : option bool;
  dev_capabilities : option (list string);
  dev_capabilitiesObj : option (obj value);
  dev_driverId : option string;
  dev_manager : nullable Manager
}.

Record Zone := mkZone { zone_name : option string }.

Record Trigger := mkTrigger {
  trigger_id : option string;
  trigger_uri : option string
}.

Record Card := mkCard { card_id : option string }.

Record Flow := mkFlow {
  flow_name : option string;
  flow_enabled : option bool;
  flow_folder : option string;
  flow_triggerable : option bool;
  flow_trigger : option Trigger;
  flow_conditions : option (list Card);
  flow_actions : option (list Card)
}.

(** The handle [HomeyAPI.createAppAPI] resolves to. *)
Inductive HomeyAppAPI := AppAPI.

(** The operations the program awaits on the provider. *)
Inductive op :=
| CreateAppAPI
| GetDevices
| GetZones
| GetFlows
| GetDevice (id : string)
| GetFlow (id : string)
| SetCapabilityValue (deviceId capabilityId : string) (v : value)
| GetCapabilityValue (deviceId capabilityId : string).

(** What each operation resolves to. *)
Definition resp (o : op) : Type :=
  match o with
  | CreateAppAPI => HomeyAppAPI
  | GetDevices => obj Device
  | GetZones => obj Zone
  | GetFlows => obj Flow
  | GetDevice _ => nullable Device
  | GetFlow _ => nullable Flow
  | SetCapabilityValue _ _ _ => unit
  | GetCapabilityValue _ _ => value
  end.

(** The one operation that changes the platform. *)
Definition isMutation (o : op) : bool :=
  match o with SetCapabilityValue _ _ _ => true | _ => false end.

(** A computation that awaits provider operations and ends with an [A]. *)
Inductive prog (A : Type) : Type :=
| Ret (a : A)
| Invoke (o : op) (k : outcome (resp o) -> prog A).
Arguments Ret {A} a.
Arguments Invoke {A} o k.

Fixpoint bind {A B : Type} (m : prog A) (f : A -> prog B) : prog B :=
  match m with
  | Ret a => f a
  | Invoke o k => Invoke o (fun r => bind (k r) f)
  end.

(** An [async] function body: it may await, and it returns or throws. *)
Definition async (A : Type) : Type := prog (outcome A).

Definition ret {A : Type} (a : A) : async A := Ret (Returns a).
Definition throw {A : Type} (e : Error) : async A := Ret (Throws e).
Definition lift {A : Type} (r : outcome A) : async A := Ret r.
Definition await (o : op) : async (resp o) := Invoke o (fun r => Ret r).

Definition bindAsync {A B : Type} (m : async A) (f : A -> async B) : async B :=
  bind m (fun r => match r with
                   | Returns a => f a
                   | Throws e => Ret (Throws e)
                   end).

(** [try { m } catch (error) { h error }] *)
Definition tryCatch {A : Type} (m : async A) (h : Error -> async A) : async A :=
  bind m (fun r => match r with
                   | Returns a => Ret (Returns a)
                   | Throws e => h e
                   end).

Declare Scope async_scope.
Delimit Scope async_scope with async.
Notation "x <- m ;; k" := (bindAsync m (fun x => k))
  (at level 61, m at next level, right associativity) : async_scope.
Notation "m ;;; k" := (bindAsync m (fun _ => k))
  (at level 61, right associativity) : async_scope.

(** [o] is awaited somewhere in [p], whatever the provider answers. *)
Fixpoint invokes {A : Type} (p : prog A) (o : op) : Prop :=
  match p with
  | Ret _ => False
  | Invoke o' k => o' = o \/ exists r, invokes (k r) o
  end.

(** A provider: how the platform, in state [W], settles each operation. *)
Record Provider (W : Type) := mkProvider {
  settle : forall o : op, W -> outcome (resp o) * W
}.
Arguments mkProvider {W} settle.
Arguments settle {W} _ o _.

(** Runs [p] against a provider from state [w]: the result, the platform's
    final state and the operations awaited, in order. *)
Fixpoint run {W A : Type} (P : Provider W) (p : prog A) (w : W)
  : A * W * list op :=
  match p with
  | Ret a => (a, w, [])
  | Invoke o k =>
      let '(r, w1) := settle P o w in
      let '(a, w2, log) := run P (k r) w1 in
      (a, w2, o :: log)
  end.

Definition result {W A : Type} (x : A * W * list op) : A := fst (fst x).
Definition calls {W A : Type} (x : A * W * list op) : list op := snd x.

(* ================================================================== *)
(** ** [utils]: Logger *)

Module Logger.

(** [Logger.log(level, message, data)] writes the message to the console
    and, when there are data, what [JSON.stringify] prints for them.  The
    data this program logs are an [Error] or an object holding a request
    id, which [JSON.stringify] prints without throwing.  The message is
    evaluated before the call: a template literal in it throws when it
    interpolates a value that cannot be converted to a string.  A call is
    embedded by how the evaluation of its message ends. *)
Definition log (message : outcome string) : outcome unit :=
  match message with
  | Returns _ => Returns tt
  | Throws e => Throws e
  end.

Definition info := log.
Definition error := log.
Definition warn := log.

End Logger.

(* ================================================================== *)
(** ** [homey-tools]: HomeyTools *)

Module HomeyTools.

Local Open Scope async_scope.

(** The instance: [homeyApi] is [null] until [initialize] has created
    the provider handle. *)
Record t := mk { homeyApi : option HomeyAppAPI }.

(** [new HomeyTools(homey)] *)
Definition create : t := mk None.

(** [initialize()]: how it ends, and the instance it leaves behind. *)
Definition initialize (this : t) : prog (outcome unit * t) :=
  Invoke CreateAppAPI (fun created =>
    match created with
    | Throws error => Ret (Throws error, this)
    | Returns api =>
        let this' := mk (Some api) in
        Invoke GetDevices (fun devices =>
          match devices with
          | Throws error => Ret (Throws error, this')
          | Returns _ => Ret (Returns tt, this')
          end)
    end).

Definition ensureInitialized (this : t) : outcome unit :=
  match homeyApi this with
  | None => throwError "HomeyAPI not initialized. Call initialize() first."
  | Some _ => Returns tt
  end.

Definition formatErrorMessage (context : string) (error : Error) : string :=
  "Failed to " ++ context ++ ": " ++ message error.

(** [allZones[zoneId]] reads the zone of that id or, when there is none,
    what the collection - a plain object - inherits under that name. *)
Definition getZoneName (deviceZone : ZoneRef) (allZones : obj Zone) : string :=
  let resolve (zoneId : option string) :=
    match zoneId with
    | Some z =>
        if JSString.isEmpty z then "Unknown"
        else match JS.lookup allZones z with
             | Some zone => JS.orDefault (zone_name zone) "Unknown"
             | None =>
                 match JS.inherited z with
                 | Some name => JS.orDefault name "Unknown"
                 | None => "Unknown"
                 end
             end
    | None => "Unknown"
    end in
  match deviceZone with
  | ZoneAbsent => "Unknown"
  | ZoneId id => if JSString.isEmpty id then "Unknown" else resolve (Some id)
  | ZoneObject id => resolve id
  end.

Definition extractCapabilityValues (capabilitiesObj : option (obj value))
  : obj value :=
  match capabilitiesObj with
  | None => []
  | Some o =>
      fold_left
        (fun capabilityValues entry =>
           match snd entry with
           | VObj props =>
               match JS.lookup props "value" with
               | Some v => JS.assign capabilityValues (fst entry) v
               | None => capabilityValues
               end
           | _ => capabilityValues
           end)
        (JS.entries o) []
  end.

Section Host.

Variable host : Host.

(** The test [zone && zoneName.toLowerCase() !== zone.toLowerCase()]:
    [true] skips the device. *)
Definition zoneFilterSkips (zone : value) (zoneName : string) : outcome bool :=
  if JS.truthy zone then
    match zone with
    | VStr z =>
        Returns (negb (String.eqb (toLowerCase host zoneName)
                                  (toLowerCase host z)))
    | _ => typeError "zone.toLowerCase is not a function"
    end
  else Returns false.

Definition deviceInfo (deviceId : string) (deviceData : Device)
           (zoneName : string) : DeviceInfo :=
  {| di_id := deviceId;
     di_name := JS.orDefault (dev_name deviceData) "Unknown Device";
     di_zone := zoneName;
     di_class := JS.orDefault (dev_class deviceData) "unknown";
     di_available :=
       match dev_available deviceData with Some b => b | None => true end;
     di_capabilities :=
       match dev_capabilities deviceData with Some l => l | None => [] end;
     di_capabilityValues :=
       extractCapabilityValues (dev_capabilitiesObj deviceData);
     di_driver := JS.orDefault (dev_driverId deviceData) "unknown";
     di_app :=
       match dev_driverId deviceData with
       | Some driverId =>
           JS.orDefault (nth_error (JSString.split ":" driverId) 1) "unknown"
       | None => "unknown"
       end |}.

(** The [for ... of Object.entries(allDevices)] loop. *)
Fixpoint collectDevices (zone : value) (allZones : obj Zone)
         (devices : list (string * Device)) : outcome (list DeviceInfo) :=
  match devices with
  | [] => Returns []
  | (deviceId, deviceData) :: rest =>
      let zoneName := getZoneName (dev_zone deviceData) allZones in
      match zoneFilterSkips zone zoneName with
      | Throws error => Throws error
      | Returns true => collectDevices zone allZones rest
      | Returns false =>
          match collectDevices zone allZones rest with
          | Returns deviceList =>
              Returns (deviceInfo deviceId deviceData zoneName :: deviceList)
          | Throws error => Throws error
          end
      end
  end.

(** [await Promise.all([getDevices(), getZones()])]: both operations are
    started; the first rejection is thrown. *)
Definition getDevicesAndZones : async (obj Device * obj Zone) :=
  Invoke GetDevices (fun devices =>
    Invoke GetZones (fun zones =>
      match devices, zones with
      | Returns d, Returns z => ret (d, z)
      | Throws error, _ => throw error
      | _, Throws error => throw error
      end)).

Definition listDevices (this : t) (zone : value) : async string :=
  tryCatch
    (lift (ensureInitialized this) ;;;
     both <- getDevicesAndZones ;;
     deviceList <- lift (collectDevices zone (snd both) (JS.entries (fst both))) ;;
     ret (MCPHelper.formatDeviceList deviceList))
    (fun error => throw (mkError (formatErrorMessage "list devices" error))).

(** [device.name] on the device [getDevice] resolved to. *)
Definition nameOf (device : nullable Device) : outcome (option string) :=
  match device with
  | Present d => Returns (dev_name d)
  | Null => typeError "Cannot read properties of null (reading 'name')"
  | Undefined => typeError "Cannot read properties of undefined (reading 'name')"
  end.

Definition controlDevice (this : t) (deviceId capability v : value)
  : async string :=
  tryCatch
    (id <- lift (ValidationHelper.validateDeviceId deviceId) ;;
     cap <- lift (ValidationHelper.validateCapability capability) ;;
     lift (Logger.info
             (JS.interpolate ("Controlling device " ++ id ++ ": " ++ cap ++ " = ")
                             v "")) ;;;
     lift (ensureInitialized this) ;;;
     await (SetCapabilityValue id cap v) ;;;
     device <- await (GetDevice id) ;;
     name <- lift (nameOf device) ;;
     let deviceName := JS.orDefault name id in
     lift (JS.interpolate ("Successfully set " ++ cap ++ " to ") v
             (" for device " ++ dquote ++ deviceName ++ dquote
              ++ " (" ++ id ++ ")")))
    (fun error => throw (mkError (formatErrorMessage "control device" error))).

(** The placeholder stored when a capability cannot be read. *)
Definition errorReadingValue : value := VStr "Error reading value".

(** The [for (const capability of capabilities)] loop, with its inner
    [try]/[catch]. *)
Fixpoint readCapabilities (deviceId : string) (capabilities : list string)
         (capabilityValues : obj value) : async (obj value) :=
  match capabilities with
  | [] => ret capabilityValues
  | capability :: rest =>
      Invoke (GetCapabilityValue deviceId capability) (fun read =>
        match read with
        | Returns v =>
            readCapabilities deviceId rest
              (JS.assign capabilityValues capability v)
        | Throws _ =>
            lift (Logger.warn
                    (JS.interpolate "Failed to get capability "
                                    (VStr capability) ":")) ;;;
            readCapabilities deviceId rest
              (JS.assign capabilityValues capability errorReadingValue)
        end)
  end.

(** [device.zone || "Unknown"], as the template literal prints it. *)
Definition zoneText (z : ZoneRef) : string :=
  match z with
  | ZoneAbsent => "Unknown"
  | ZoneId id => JS.orElse id "Unknown"
  | ZoneObject _ => "[object Object]"
  end.

Definition capabilityLine (entry : string * value) : string :=
  "  " ++ fst entry ++ ": " ++ JS.JSON_text (snd entry).

(** [device.manager.uri?.split(":")[0] || "unknown"] *)
Definition appOf (device : Device) : outcome string :=
  match dev_manager device with
  | Present manager =>
      Returns match manager_uri manager with
              | Some uri =>
                  JS.orDefault (nth_error (JSString.split ":" uri) 0) "unknown"
              | None => "unknown"
              end
  | Null => typeError "Cannot read properties of null (reading 'uri')"
  | Undefined => typeError "Cannot read properties of undefined (reading 'uri')"
  end.

Definition deviceHeader (deviceId : string) (device : Device) (app : string)
  : list string :=
  [ "Device Information for: " ++ JS.orDefault (dev_name device) "Unknown Device";
    "ID: " ++ deviceId;
    "Zone: " ++ zoneText (dev_zone device);
    "Class: " ++ JS.orDefault (dev_class device) "unknown";
    "Available: " ++ match dev_available device with
                     | Some b => MCPHelper.yesNo b
                     | None => "Unknown"
                     end;
    "Driver: " ++ JS.orDefault (dev_driverId device) "unknown";
    "App: " ++ app;
    "";
    "Capabilities:" ].

Definition getDeviceInfo (this : t) (deviceId : value) : async string :=
  tryCatch
    (id <- lift (ValidationHelper.validateDeviceId deviceId) ;;
     lift (Logger.info (JS.interpolate "Getting device info for: " (VStr id) "")) ;;;
     lift (ensureInitialized this) ;;;
     found <- await (GetDevice id) ;;
     match found with
     | Null | Undefined => throw (mkError ("Device not found: " ++ id))
     | Present device =>
         let capabilities :=
           match dev_capabilities device with Some l => l | None => [] end in
         capabilityValues <- readCapabilities id capabilities [] ;;
         app <- lift (appOf device) ;;
         ret (JSString.join nl
                (deviceHeader id device app
                 ++ map capabilityLine (JS.entries capabilityValues)))
     end)
    (fun error => throw (mkError (formatErrorMessage "get device info" error))).

Definition zoneInfo (entry : string * Zone) : ZoneInfo :=
  {| zi_id := fst entry;
     zi_name := JS.orDefault (zone_name (snd entry)) (fst entry) |}.

Definition compareZones (a b : ZoneInfo) : Z :=
  localeCompare host (zi_name a) (zi_name b).

Definition listZones (this : t) : async string :=
  tryCatch
    (lift (ensureInitialized this) ;;;
     zones <- await GetZones ;;
     let zoneArray := JS.sort compareZones (map zoneInfo (JS.entries zones)) in
     ret (MCPHelper.formatZoneList zoneArray))
    (fun error => throw (mkError (formatErrorMessage "list zones" error))).

End Host.

Definition flowInfo (entry : string * Flow) : FlowInfo :=
  let flowData := snd entry in
  {| fi_id := fst entry;
     fi_name := JS.orDefault (flow_name flowData) "Unknown Flow";
     fi_enabled := match flow_enabled flowData with Some b => b | None => false end;
     fi_folder := match flow_folder flowData with
                  | Some f => if JSString.isEmpty f then None else Some f
                  | None => None
                  end;
     fi_triggerable :=
       match flow_triggerable flowData with Some b => b | None => false end |}.

(** [enabledOnly] defaults to [false] when the argument is [undefined]. *)
Definition listFlows (this : t) (enabledOnlyArg : value) : async string :=
  let enabledOnly :=
    match enabledOnlyArg with VUndefined => VBool false | v => v end in
  tryCatch
    (lift (Logger.info
             (JS.interpolate "Listing flows (enabled only: " enabledOnly ")...")) ;;;
     lift (ensureInitialized this) ;;;
     allFlows <- await GetFlows ;;
     let flowList :=
       filter (fun flow => (negb (JS.truthy enabledOnly) || fi_enabled flow)%bool)
              (map flowInfo (JS.entries allFlows)) in
     ret (MCPHelper.formatFlowList flowList))
    (fun error => throw (mkError (formatErrorMessage "list flows" error))).

Definition flag (b : option bool) : string :=
  match b with Some true => "Yes" | _ => "No" end.

Definition notOperationalNotice : string :=
  "⚠️ Flow triggering is currently not operational due to Homey API limitations.".

Definition manualTriggerAdvice : string :=
  "Please use the Homey app or web interface to manually trigger this flow.".

(** The text [triggerFlow] returns in place of triggering. *)
Definition notOperationalText (flowName flowId : string) (flowData : Flow)
  : string :=
  notOperationalNotice ++ nl ++ nl
  ++ "Flow Details:" ++ nl
  ++ ("- Name: " ++ flowName) ++ nl
  ++ ("- ID: " ++ flowId) ++ nl
  ++ ("- Enabled: " ++ flag (flow_enabled flowData)) ++ nl
  ++ ("- Triggerable: " ++ flag (flow_triggerable flowData)) ++ nl ++ nl
  ++ manualTriggerAdvice.

Definition triggerFlow (this : t) (flowId : value) : async string :=
  tryCatch
    (id <- lift (ValidationHelper.validateFlowId flowId) ;;
     lift (Logger.info (JS.interpolate "Triggering flow: " (VStr id) "")) ;;;
     lift (ensureInitialized this) ;;;
     flow <- await (GetFlow id) ;;
     match flow with
     | Null | Undefined => throw (mkError ("Flow not found: " ++ id))
     | Present flowData =>
         let flowName := JS.orDefault (flow_name flowData) id in
         ret (notOperationalText flowName id flowData)
     end)
    (fun error =>
       throw (mkError (formatErrorMessage "get flow information" error))).

Definition cardLine (index : nat) (card : Card) : string :=
  "  " ++ JSString.ofNat (index + 1) ++ ". "
       ++ JS.orDefault (card_id card) "Unknown".

Fixpoint cardLines (index : nat) (cards : list Card) : list string :=
  match cards with
  | [] => []
  | card :: rest => cardLine index card :: cardLines (S index) rest
  end.

Definition cardSection (title : string) (cards : option (list Card))
  : list string :=
  match cards with
  | Some (c :: cs) =>
      [ ""; title ++ " (" ++ JSString.ofNat (List.length (c :: cs)) ++ "):" ]
      ++ cardLines 0 (c :: cs)
  | _ => []
  end.

Definition triggerSection (trigger : option Trigger) : list string :=
  match trigger with
  | Some tr =>
      [ ""; "Trigger:"; "  ID: " ++ JS.orDefault (trigger_id tr) "N/A" ]
      ++ match trigger_uri tr with
         | Some uri => if JSString.isEmpty uri then [] else [ "  URI: " ++ uri ]
         | None => []
         end
  | None => []
  end.

Definition getFlowInfo (this : t) (flowId : value) : async string :=
  tryCatch
    (id <- lift (ValidationHelper.validateFlowId flowId) ;;
     lift (Logger.info (JS.interpolate "Getting flow info for: " (VStr id) "")) ;;;
     lift (ensureInitialized this) ;;;
     flow <- await (GetFlow id) ;;
     match flow with
     | Null | Undefined => throw (mkError ("Flow not found: " ++ id))
     | Present flowData =>
         ret (JSString.join nl
                ([ "Flow Information for: "
                     ++ JS.orDefault (flow_name flowData) "Unknown Flow";
                   "ID: " ++ id;
                   "Enabled: " ++ flag (flow_enabled flowData);
                   "Triggerable: " ++ flag (flow_triggerable flowData);
                   "Folder: " ++ JS.orDefault (flow_folder flowData) "None" ]
                 ++ triggerSection (flow_trigger flowData)
                 ++ cardSection "Conditions" (flow_conditions flowData)
                 ++ cardSection "Actions" (flow_actions flowData)))
     end)
    (fun error => throw (mkError (formatErrorMessage "get flow info" error))).

End HomeyTools.

(* ================================================================== *)
(** ** [mcp-server]: HomeyMCPServer *)

Record JSONRPCRequest := mkRequest {
  req_id : value;
  req_method : value;
  req_params : value
}.

Record Property := mkProperty {
  prop_name : string;
  prop_type : option string;
  prop_description : string
}.

Record Tool := mkTool {
  tool_name : string;
  tool_description : string;
  tool_properties : list Property;
  tool_required : option (list string)
}.

Inductive ResultPayload :=
| InitializeResult (protocolVersion serverName serverVersion : string)
| ToolsListResult (tools : list Tool)
| ToolCallResult (text : string).

(** A [JSONRPCResponse] or a [JSONRPCError]; [data] is present only when
    an error object was passed on. *)
Inductive Response :=
| JSONRPCResponse (id : value) (result : ResultPayload)
| JSONRPCError (id : value) (code : Z) (msg : string) (data : option string).

Definition response_id (r : Response) : value :=
  match r with
  | JSONRPCResponse id _ => id
  | JSONRPCError id _ _ _ => id
  end.

Module HomeyMCPServer.

Local Open Scope async_scope.

Record t := mk { homeyTools : HomeyTools.t }.

(** [HomeyMCPServer.initialize(homey)], from the static [instance] given:
    the server returned and the static [instance] afterwards.  The
    instance is published before the tools are initialised, and a
    failure of that initialisation is only logged. *)
Definition initialize (instance : option t) : prog (t * option t) :=
  match instance with
  | Some existing => Ret (existing, Some existing)
  | None =>
      bind (HomeyTools.initialize HomeyTools.create)
           (fun settled =>
              let server := mk (snd settled) in
              Ret (server, Some server))
  end.

Definition success (id : value) (result : ResultPayload) : Response :=
  JSONRPCResponse id result.

Definition error (id : value) (code : Z) (msg : string)
           (error : option Error) : Response :=
  JSONRPCError id code msg (option_map message error).

Definition handleInitialize (request : JSONRPCRequest) : Response :=
  success (req_id request)
    (InitializeResult "2024-11-05" "homey-mcp-server" "1.0.0").

Definition getToolDefinitions : list Tool :=
  [ mkTool "list_devices" "List all Homey devices with their current state"
      [ mkProperty "zone" (Some "string") "Filter by zone name (optional)" ]
      None;
    mkTool "control_device" "Control a Homey device capability"
      [ mkProperty "device_id" (Some "string") "Homey device ID";
        mkProperty "capability" (Some "string")
          "Capability (e.g., 'onoff', 'dim')";
        mkProperty "value" None "Value to set" ]
      (Some [ "device_id"; "capability"; "value" ]);
    mkTool "get_device_info" "Get detailed information about a specific device"
      [ mkProperty "device_id" (Some "string") "Homey device ID" ]
      (Some [ "device_id" ]);
    mkTool "list_zones" "List all Homey zones" [] None;
    mkTool "list_flows" "List automation flows"
      [ mkProperty "enabled_only" (Some "boolean")
          "Only show enabled flows (default: false)" ]
      None;
    mkTool "trigger_flow" "Trigger an automation flow"
      [ mkProperty "flow_id" (Some "string") "Flow ID to trigger" ]
      (Some [ "flow_id" ]);
    mkTool "get_flow_info" "Get detailed information about a flow"
      [ mkProperty "flow_id" (Some "string") "Flow ID" ]
      (Some [ "flow_id" ]) ].

Definition handleToolsList (request : JSONRPCRequest) : Response :=
  success (req_id request) (ToolsListResult getToolDefinitions).

(** [name] of [const { name, arguments: args } = request.params || {}] *)
Definition toolName (request : JSONRPCRequest) : value :=
  JS.get (JS.or (req_params request) (VObj [])) "name".

(** [args || {}], for the [args] of the same destructuring *)
Definition toolArgs (request : JSONRPCRequest) : value :=
  JS.or (JS.get (JS.or (req_params request) (VObj [])) "arguments") (VObj []).

Section Host.

Variable host : Host.

(** The [switch (name)]: a case matches a string strictly equal to it. *)
Definition executeTool (this : t) (name args : value) : async string :=
  let tools := homeyTools this in
  let named (tool : string) :=
    match name with VStr n => String.eqb n tool | _ => false end in
  if named "list_devices" then
    HomeyTools.listDevices host tools (JS.get args "zone")
  else if named "control_device" then
    HomeyTools.controlDevice tools (JS.get args "device_id")
      (JS.get args "capability") (JS.get args "value")
  else if named "get_device_info" then
    HomeyTools.getDeviceInfo tools (JS.get args "device_id")
  else if named "list_zones" then
    HomeyTools.listZones host tools
  else if named "list_flows" then
    HomeyTools.listFlows tools (JS.get args "enabled_only")
  else if named "trigger_flow" then
    HomeyTools.triggerFlow tools (JS.get args "flow_id")
  else if named "get_flow_info" then
    HomeyTools.getFlowInfo tools (JS.get args "flow_id")
  else
    message <- lift (JS.interpolate "Unknown tool: " name "") ;;
    throw (mkError message).

Definition handleToolCall (this : t) (request : JSONRPCRequest)
  : async Response :=
  let name := toolName request in
  tryCatch
    (text <- executeTool this name (toolArgs request) ;;
     ret (success (req_id request) (ToolCallResult text)))
    (fun failure =>
       lift (Logger.error (JS.interpolate "Tool execution failed: " name "")) ;;;
       message <- lift (JS.interpolate "Tool failed: " name "") ;;
       ret (error (req_id request) (-32603) message (Some failure))).

Definition methodNotFound (request : JSONRPCRequest) : async Response :=
  message <- lift (JS.interpolate "Method not found: " (req_method request) "") ;;
  ret (error (req_id request) (-32601) message None).

(** The [catch] clause of [handleMCPRequest]. *)
Definition internalError (request : JSONRPCRequest) (failure : Error)
  : Response :=
  error (req_id request) (-32603) "Internal error" (Some failure).

(** The call of [Logger.info] that interpolates the method stands before
    the [try].  The promise of [handleToolCall] is returned without being
    awaited, so the [catch] clause guards the other three branches
    only. *)
Definition handleMCPRequest (this : t) (request : JSONRPCRequest)
  : async Response :=
  let named (method : string) :=
    match req_method request with
    | VStr m => String.eqb m method
    | _ => false
    end in
  lift (Logger.info (JS.interpolate "MCP: " (req_method request) "")) ;;;
  if named "tools/call" then handleToolCall this request
  else
    tryCatch
      (if named "initialize" then ret (handleInitialize request)
       else if named "tools/list" then ret (handleToolsList request)
       else methodNotFound request)
      (fun failure => ret (internalError request failure)).

End Host.

End HomeyMCPServer.

(* ================================================================== *)
(** ** [api]: the HTTP entry point *)

Module Api.

(** Reading [request.method] and [request.id] off the body throws when
    the body is [undefined] or [null]. *)
Definition requestOf (body : value) : outcome JSONRPCRequest :=
  match body with
  | VUndefined =>
      throwError "Cannot read properties of undefined (reading 'method')"
  | VNull => throwError "Cannot read properties of null (reading 'method')"
  | _ => Returns (mkRequest (JS.get body "id") (JS.get body "method")
                            (JS.get body "params"))
  end.

(** [body?.id || null] *)
Definition fallbackId (body : value) : value :=
  match body with
  | VUndefined | VNull => VNull
  | _ => JS.or (JS.get body "id") VNull
  end.

Definition mcp (host : Host)
           (instance : option HomeyMCPServer.t) (body : value)
  : async Response :=
  tryCatch
    (match instance with
     | None => throw (mkError "MCP Server not initialized")
     | Some mcpServer =>
         bindAsync (lift (requestOf body))
           (HomeyMCPServer.handleMCPRequest host mcpServer)
     end)
    (fun failure =>
       ret (JSONRPCError (fallbackId body) (-32603) "Internal error"
              (Some (message failure)))).

End Api.

(** Lexicographic comparison by code point: bytes, left to right; a
    proper prefix comes first. *)
Fixpoint lexCompare (a b : string) : comparison :=
  match a, b with
  | EmptyString, EmptyString => Eq
  | EmptyString, String _ _ => Lt
  | String _ _, EmptyString => Gt
  | String x a', String y b' =>
      match Nat.compare (nat_of_ascii x) (nat_of_ascii y) with
      | Eq => lexCompare a' b'
      | c => c
      end
  end.

(** Case-insensitive lexicographic comparison: that of the lower-cased
    texts. *)
Definition caseInsensitiveCompare (host : Host) (a b : string) : comparison :=
  lexCompare (toLowerCase host a) (toLowerCase host b).

(** [a] comes no later than [b] when case is ignored. *)
Definition caseInsensitiveLe (host : Host) (a b : string) : Prop :=
  caseInsensitiveCompare host a b <> Gt.

(** [a] equals [b] when case is ignored. *)
Definition caseInsensitiveEq (host : Host) (a b : string) : bool :=
  String.eqb (toLowerCase host a) (toLowerCase host b).

(** [a] comes no later than [b] in the host's collation. *)
Definition collatesBefore (host : Host) (a b : string) : Prop :=
  (localeCompare host a b <= 0)%Z.

(** Lower-casing of a text of the ASCII range: A to Z become a to z. *)
Definition asciiLowerChar (c : ascii) : ascii :=
  let n := nat_of_ascii c in
  if ((65 <=? n)%nat && (n <=? 90)%nat)%bool then ascii_of_nat (n + 32) else c.

Fixpoint asciiLowerCase (s : string) : string :=
  match s with
  | EmptyString => EmptyString
  | String c s' => String (asciiLowerChar c) (asciiLowerCase s')
  end.

(** The bytes of [s] are all of the ASCII range. *)
Fixpoint isAscii (s : string) : bool :=
  match s with
  | EmptyString => true
  | String c s' => ((nat_of_ascii c <? 128)%nat && isAscii s')%bool
  end.

(** A host lower-cases a text of the ASCII range letter by letter, as
    [String.prototype.toLowerCase] does. *)
Definition lowerCasesAscii (host : Host) : Prop :=
  forall s, isAscii s = true -> toLowerCase host s = asciiLowerCase s.

(** The collation is a consistent comparator, as [Array.prototype.sort]
    requires: ranking no later is transitive, and of two texts one ranks no
    later than the other. *)
Definition consistentCollation (host : Host) : Prop :=
  (forall a b c,
      collatesBefore host a b -> collatesBefore host b c ->
      collatesBefore host a c)
  /\ (forall a b, collatesBefore host a b \/ collatesBefore host b a).

(** A collation that ranks ASCII texts without regard to case. *)
Definition asciiCollation (a b : string) : Z :=
  match lexCompare (asciiLowerCase a) (asciiLowerCase b) with
  | Lt => (-1)%Z
  | Eq => 0%Z
  | Gt => 1%Z
  end.

(** A host for texts of the ASCII range. *)
Definition asciiHost : Host := mkHost asciiCollation asciiLowerCase.


(** Replaces the letter e with acute accent (C3 A9) by the letter e. *)
Fixpoint unaccented (s : string) : string :=
  match s with
  | EmptyString => EmptyString
  | String a tail =>
      match tail with
      | String b rest =>
          if ((nat_of_ascii a =? 195) && (nat_of_ascii b =? 169))%nat
          then String "e" (unaccented rest)
          else String a (unaccented tail)
      | EmptyString => s
      end
  end.

(** A collation that ranks an accented letter with its base letter, as
    the collation of the default locale does: [localeCompare] places
    "\u00e9curie" before "zoo". *)
Definition accentedCollation (a b : string) : Z :=
  asciiCollation (unaccented a) (unaccented b).

Definition accentedHost : Host := mkHost accentedCollation asciiLowerCase.

(** The names in the Tool Registry. *)
Definition toolNames : list string :=
  map tool_name HomeyMCPServer.getToolDefinitions.

(* ================================================================== *)
(** ** Reference points for the specification's wording *)

(** [needle] occurs in [s]. *)
Definition contains (s needle : string) : Prop :=
  exists before after, s = before ++ needle ++ after.

(** The same, decided. *)
Fixpoint occurs (needle s : string) : bool :=
  (String.prefix needle s
   || match s with
      | EmptyString => false
      | String _ s' => occurs needle s'
      end)%bool.

(** A value has a text form: a template literal can print it. *)
Definition printable (v : value) : Prop :=
  exists text, JS.ToString v = Returns text.

(** The object [{ toString: 1 }], which has none. *)
Definition unprintable : value := VObj [("toString", VNum (JSNumber.ofZ 1))].

(** What C3 says of a request: no provider operation, and an answer that
    is the internal error -32603 with a diagnostic naming the unknown
    tool. *)
Definition rejectedAsUnknownTool (host : Host) (server : HomeyMCPServer.t)
           (request : JSONRPCRequest) : Prop :=
  (forall o, ~ invokes (HomeyMCPServer.handleMCPRequest host server request) o)
  /\ exists id msg diagnostic,
      HomeyMCPServer.handleMCPRequest host server request
      = Ret (Returns (JSONRPCError id (-32603) msg (Some diagnostic)))
      /\ contains diagnostic "Unknown tool: ".

(** What C4 says of a request: it is answered, and the answer carries the
    request's id. *)
Definition answeredWithItsId {W : Type} (P : Provider W) (w : W) (host : Host)
           (server : HomeyMCPServer.t) (request : JSONRPCRequest) : Prop :=
  exists r,
    result (run P (HomeyMCPServer.handleMCPRequest host server request) w)
    = Returns r
    /\ response_id r = req_id request.

(** The method of a request and, for a [tools/call], the name of the tool
    have a text form. *)
Definition wellNamed (request : JSONRPCRequest) : Prop :=
  printable (req_method request)
  /\ (req_method request = VStr "tools/call" ->
      printable (HomeyMCPServer.toolName request)).

(** "Yes" for a flag that is set, "No" for one that is not or is
    absent. *)
Definition yesOrNo (flag : option bool) : string :=
  match flag with
  | Some true => "Yes"
  | Some false | None => "No"
  end.

(** What C5 says of the text returned for the flow [flowId]: the notice
    that triggering is unsupported, and the flow's name (its id when it
    has none), id, enabled flag and triggerable flag. *)
Definition describesUntriggeredFlow (text flowId : string) (flow : Flow) : Prop :=
  text =
    "⚠️ Flow triggering is currently not operational due to Homey API limitations."
    ++ nl ++ nl
    ++ "Flow Details:" ++ nl
    ++ "- Name: "
       ++ match flow_name flow with
          | Some (String c name) => String c name
          | Some EmptyString | None => flowId
          end ++ nl
    ++ "- ID: " ++ flowId ++ nl
    ++ "- Enabled: " ++ yesOrNo (flow_enabled flow) ++ nl
    ++ "- Triggerable: " ++ yesOrNo (flow_triggerable flow) ++ nl ++ nl
    ++ "Please use the Homey app or web interface to manually trigger this flow.".

(** How a tool call ends: the tool is run, and what it returned or threw
    is wrapped, unless the name of the tool has no text form. *)
Definition wrapped (request : JSONRPCRequest) (ended : outcome string)
  : outcome Response :=
  match ended with
  | Returns text =>
      Returns (JSONRPCResponse (req_id request) (ToolCallResult text))
  | Throws failure =>
      match JS.ToString (HomeyMCPServer.toolName request) with
      | Returns label =>
          Returns (JSONRPCError (req_id request) (-32603)
                     ("Tool failed: " ++ label) (Some (message failure)))
      | Throws conversion => Throws conversion
      end
  end.


(** *** Listings

    "A leading count line, then one numbered block per entity showing
    declared fields with placeholders for missing data." *)

(** A field, or the placeholder when it is empty. *)
Definition shownOr (field placeholder : string) : string :=
  match field with
  | EmptyString => placeholder
  | String _ _ => field
  end.

(** The blocks of the entities, numbered from 1. *)
Definition numbered {A : Type} (block : nat -> A -> string) (xs : list A)
  : string :=
  String.concat ""
    (map (fun entry => block (fst entry) (snd entry))
         (combine (seq 1 (List.length xs)) xs)).

Definition listing {A : Type} (kind : string) (block : nat -> A -> string)
           (xs : list A) : string :=
  match xs with
  | [] => "No " ++ kind ++ "s found."
  | _ :: _ =>
      "Found " ++ JSString.ofNat (List.length xs) ++ " " ++ kind ++ "(s):"
      ++ nl ++ nl ++ numbered block xs
  end.

(** A zone as listed: its id and display name. *)
Definition zoneListing (zones : list (string * string)) : string :=
  listing "zone"
    (fun number (zone : string * string) =>
       JSString.ofNat number ++ ". " ++ shownOr (snd zone) "Unknown Zone" ++ nl
       ++ "   ID: " ++ shownOr (fst zone) "N/A" ++ nl ++ nl)
    zones.

(** A device as listed. *)
Record DeviceEntry := mkDeviceEntry {
  entry_id : string;
  entry_name : string;
  entry_zone : string;
  entry_class : string;
  entry_available : bool;
  entry_capabilities : list string
}.

Definition deviceListing (devices : list DeviceEntry) : string :=
  listing "device"
    (fun number device =>
       JSString.ofNat number ++ ". "
         ++ shownOr (entry_name device) "Unknown Device" ++ nl
       ++ "   ID: " ++ shownOr (entry_id device) "N/A" ++ nl
       ++ "   Zone: " ++ shownOr (entry_zone device) "N/A" ++ nl
       ++ "   Class: " ++ shownOr (entry_class device) "N/A" ++ nl
       ++ "   Available: " ++ (if entry_available device then "Yes" else "No") ++ nl
       ++ match entry_capabilities device with
          | [] => ""
          | _ :: _ =>
              "   Capabilities: "
              ++ String.concat ", " (entry_capabilities device) ++ nl
          end
       ++ nl)
    devices.

(** A flow as listed: its id, name and enabled flag. *)
Definition flowListing (flows : list (string * string * bool)) : string :=
  listing "flow"
    (fun number (flow : string * string * bool) =>
       JSString.ofNat number ++ ". "
         ++ shownOr (snd (fst flow)) "Unknown Flow" ++ nl
       ++ "   ID: " ++ shownOr (fst (fst flow)) "N/A" ++ nl
       ++ "   Enabled: " ++ (if snd flow then "Yes" else "No") ++ nl ++ nl)
    flows.

(** What a listing shows of a [DeviceInfo], a [ZoneInfo], a [FlowInfo]. *)
Definition deviceShown (d : DeviceInfo) : DeviceEntry :=
  mkDeviceEntry (di_id d) (di_name d) (di_zone d) (di_class d)
                (di_available d) (di_capabilities d).

Definition zoneShown (z : ZoneInfo) : string * string := (zi_id z, zi_name z).

Definition flowShown (f : FlowInfo) : string * string * bool :=
  (fi_id f, fi_name f, fi_enabled f).

(** The name of a device's zone: the name of the provider's zone with
    the id the device refers to - by the id itself or by an object that
    holds it - and "Unknown" when the device refers to no zone, when the
    provider has no zone of that id, or when that zone has no name.  The
    collection of zones being a plain object, an id the provider has no
    zone for finds what a plain object inherits under that name, if
    anything, and shows its name. *)
Definition resolvedZoneName (zones : obj Zone) (device : Device) : string :=
  let zoneId :=
    match dev_zone device with
    | ZoneAbsent => None
    | ZoneId id => Some id
    | ZoneObject id => id
    end in
  match zoneId with
  | None | Some EmptyString => "Unknown"
  | Some id =>
      match JS.lookup zones id with
      | Some zone =>
          match zone_name zone with
          | Some (String c name) => String c name
          | Some EmptyString | None => "Unknown"
          end
      | None =>
          match JS.inherited id with
          | Some (Some name) => name
          | Some None | None => "Unknown"
          end
      end
  end.

(** The entry of a device of the provider: name, class and availability
    with their defaults. *)
Definition entryOf (zones : obj Zone) (device : string * Device) : DeviceEntry :=
  mkDeviceEntry
    (fst device)
    match dev_name (snd device) with
    | Some (String c name) => String c name
    | _ => "Unknown Device"
    end
    (resolvedZoneName zones (snd device))
    match dev_class (snd device) with
    | Some (String c class) => String c class
    | _ => "unknown"
    end
    match dev_available (snd device) with
    | Some available => available
    | None => true
    end
    match dev_capabilities (snd device) with
    | Some capabilities => capabilities
    | None => []
    end.

(** The resolved zone name of a device equals the filter [zone] when case
    is ignored. *)
Definition zoneMatches (host : Host) (zones : obj Zone) (zone : string)
           (device : string * Device) : bool :=
  caseInsensitiveEq host (resolvedZoneName zones (snd device)) zone.

(** What C7 says of [list_devices] with the zone filter [zone], on a
    platform [P] in state [w]: the listing shows exactly the devices
    whose resolved zone name equals the filter when case is ignored, and
    reads "No devices found." when there is none. *)
Definition listDevicesFiltersBy {W : Type} (P : Provider W) (w : W)
           (host : Host) (this : HomeyTools.t) (zone : string) : Prop :=
  forall devices zones w1 w2,
    settle P GetDevices w = (Returns devices, w1) ->
    settle P GetZones w1 = (Returns zones, w2) ->
    let matching := filter (zoneMatches host zones zone) (JS.entries devices) in
    result (run P (HomeyTools.listDevices host this (VStr zone)) w)
    = Returns (deviceListing (map (entryOf zones) matching))
    /\ (matching = [] ->
        result (run P (HomeyTools.listDevices host this (VStr zone)) w)
        = Returns "No devices found.").


(** The zones of a collection as [list_zones] shows them: each under its
    name, or under its id when it has no name. *)
Definition zonesOf (zones : obj Zone) : list (string * string) :=
  map (fun zone : string * Zone =>
         (fst zone,
          match zone_name (snd zone) with
          | Some (String c name) => String c name
          | _ => fst zone
          end))
      (JS.entries zones).

(** What C6 says of [list_zones] on a platform [P] in state [w]: the
    zones are listed in ascending order of display name under
    case-insensitive lexicographic comparison. *)
Definition listZonesOrdersIgnoringCase {W : Type} (P : Provider W) (w : W)
           (host : Host) (this : HomeyTools.t) : Prop :=
  forall zones w',
    settle P GetZones w = (Returns zones, w') ->
    exists listed,
      result (run P (HomeyTools.listZones host this) w)
      = Returns (zoneListing listed)
      /\ Permutation listed (zonesOf zones)
      /\ StronglySorted (caseInsensitiveLe host) (map snd listed).


(** *** The information on a device *)









(** *** Tool calls *)

Definition isNonEmptyText (v : value) : bool :=
  match v with VStr s => negb (JSString.isEmpty s) | _ => false end.

(** The identifier arguments of a tool call pass validation. *)
Definition identifiersValid (tool : string) (args : value) : bool :=
  if String.eqb tool "control_device" then
    (isNonEmptyText (JS.get args "device_id")
     && isNonEmptyText (JS.get args "capability"))%bool
  else if String.eqb tool "get_device_info" then
    isNonEmptyText (JS.get args "device_id")
  else if (String.eqb tool "trigger_flow" || String.eqb tool "get_flow_info")%bool then
    isNonEmptyText (JS.get args "flow_id")
  else true.

(** The argument a tool writes to its log before it uses the provider:
    the value to set, the flag of the flow listing. *)
Definition loggedArgument (tool : string) (args : value) : value :=
  if String.eqb tool "control_device" then JS.get args "value"
  else if String.eqb tool "list_flows" then JS.get args "enabled_only"
  else VUndefined.

(** A tool call gets as far as the provider handle: its identifiers are
    valid and what it logs has a text form. *)
Definition passesChecks (tool : string) (args : value) : Prop :=
  identifiersValid tool args = true /\ printable (loggedArgument tool args).

(** What C10 says of a failed initialisation of the tools, on a platform
    [P] in state [w]: the failure is swallowed, and every later call of a
    registered tool whose identifiers are valid fails with a diagnostic
    that reads "HomeyAPI not initialized". *)
Definition failedInitializationBlocksTools {W : Type} (P : Provider W) (w : W)
  : Prop :=
  forall failure tools w1 log,
    run P (HomeyTools.initialize HomeyTools.create) w
    = ((Throws failure, tools), w1, log) ->
    forall host request tool w2,
      req_method request = VStr "tools/call" ->
      HomeyMCPServer.toolName request = VStr tool ->
      In tool toolNames ->
      identifiersValid tool (HomeyMCPServer.toolArgs request) = true ->
      exists diagnostic,
        result (run P (HomeyMCPServer.handleMCPRequest host
                         (HomeyMCPServer.mk tools) request) w2)
        = Returns (JSONRPCError (req_id request) (-32603)
                     ("Tool failed: " ++ tool) (Some diagnostic))
        /\ contains diagnostic "HomeyAPI not initialized".

(** The context each tool names when it reports a failure. *)
Definition failureContext (tool : string) : string :=
  if String.eqb tool "list_devices" then "list devices"
  else if String.eqb tool "control_device" then "control device"
  else if String.eqb tool "get_device_info" then "get device info"
  else if String.eqb tool "list_zones" then "list zones"
  else if String.eqb tool "list_flows" then "list flows"
  else if String.eqb tool "trigger_flow" then "get flow information"
  else "get flow info".

(** The flows of a collection as [list_flows] shows them: id, name and
    whether the flow is enabled, a flow without that field counting as
    disabled. *)
Definition flowsOf (flows : obj Flow) : list (string * string * bool) :=
  map (fun flow : string * Flow =>
         (fst flow,
          match flow_name (snd flow) with
          | Some (String c name) => String c name
          | _ => "Unknown Flow"
          end,
          match flow_enabled (snd flow) with
          | Some true => true
          | _ => false
          end))
      (JS.entries flows).

(** A number other than the two infinities. *)
Definition notInfinite (v : value) : Prop :=
  match v with VNum (S754_infinity _) => False | _ => True end.


(* ------------------------------------------------------------------ *)
(** *** The rules of coercion

    "Non-empty text that parses fully as a number": the text, the white
    space around it aside, is one numeric literal of the language - an
    optionally signed [Infinity], an optionally signed decimal with an
    optional fraction and exponent, or an unsigned literal in base 16, 8
    or 2 - and the number is the binary64 value nearest to what the
    literal denotes in positional notation. *)

(** The text of the given UTF-8 bytes. *)
Definition utf8 (bytes : list nat) : string :=
  fold_right (fun byte text => String (ascii_of_nat byte) text) "" bytes.

(** The white space of the language: TAB, LF, VT, FF, CR, SPACE, U+00A0,
    U+1680, U+2000 to U+200A, U+2028, U+2029, U+202F, U+205F, U+3000 and
    U+FEFF. *)
Definition whiteSpaceCharacters : list string :=
  map utf8
    [ [9]; [10]; [11]; [12]; [13]; [32];
      [194; 160];
      [225; 154; 128];
      [226; 128; 128]; [226; 128; 129]; [226; 128; 130]; [226; 128; 131];
      [226; 128; 132]; [226; 128; 133]; [226; 128; 134]; [226; 128; 135];
      [226; 128; 136]; [226; 128; 137]; [226; 128; 138];
      [226; 128; 168]; [226; 128; 169]; [226; 128; 175];
      [226; 129; 159];
      [227; 128; 128];
      [239; 187; 191] ].

(** A run of white space characters. *)
Inductive Blank : string -> Prop :=
| blank_none : Blank ""
| blank_more character rest :
    In character whiteSpaceCharacters -> Blank rest ->
    Blank (character ++ rest).

(** The digits and what each is worth. *)
Definition digitTable : list (ascii * N) :=
  [ ("0", 0); ("1", 1); ("2", 2); ("3", 3); ("4", 4);
    ("5", 5); ("6", 6); ("7", 7); ("8", 8); ("9", 9);
    ("a", 10); ("b", 11); ("c", 12); ("d", 13); ("e", 14); ("f", 15);
    ("A", 10); ("B", 11); ("C", 12); ("D", 13); ("E", 14); ("F", 15)
  ]%char%N.

Definition digit (radix : N) (character : ascii) (worth : N) : Prop :=
  In (character, worth) digitTable /\ (worth < radix)%N.

(** A non-empty run of digits and the natural number it denotes: each
    digit counts for its worth times the radix to the power of the number
    of digits after it. *)
Inductive Numeral (radix : N) : string -> N -> Prop :=
| numeral_digit character worth :
    digit radix character worth ->
    Numeral radix (String character "") worth
| numeral_more character worth rest n :
    digit radix character worth ->
    Numeral radix rest n ->
    Numeral radix (String character rest)
            (worth * radix ^ N.of_nat (String.length rest) + n).

(** A run of decimal digits that may be empty. *)
Inductive DigitsOrNone : string -> N -> Prop :=
| no_digits : DigitsOrNone "" 0
| some_digits text n : Numeral 10 text n -> DigitsOrNone text n.

(** No sign, [+] or [-]; [true] for the negative one. *)
Definition signs : list (string * bool) :=
  [ ("", false); ("+", false); ("-", true) ].

(** An exponent part, if any: [e] or [E], an optional sign, digits. *)
Inductive Exponent : string -> Z -> Prop :=
| no_exponent : Exponent "" 0
| some_exponent marker sign negative digits n :
    In marker ["e"; "E"] ->
    In (sign, negative) signs ->
    Numeral 10 digits n ->
    Exponent (marker ++ sign ++ digits)
             (if negative then - Z.of_N n else Z.of_N n).

(** An unsigned decimal literal [text] denotes [mantissa * 10 ^ exponent]:
    digits, a point and digits, with a digit on one side of the point at
    least; or digits alone; either followed by an exponent part. *)
Inductive UnsignedDecimal : string -> N -> Z -> Prop :=
| decimal_point whole fraction exponent i f e :
    DigitsOrNone whole i ->
    DigitsOrNone fraction f ->
    whole ++ fraction <> "" ->
    Exponent exponent e ->
    UnsignedDecimal (whole ++ "." ++ fraction ++ exponent)
                    (i * 10 ^ N.of_nat (String.length fraction) + f)
                    (e - Z.of_nat (String.length fraction))
| decimal_whole whole exponent i e :
    Numeral 10 whole i ->
    Exponent exponent e ->
    UnsignedDecimal (whole ++ exponent) i e.

(** The binary64 number nearest to [mantissa * 10 ^ exponent], with the
    sign given. *)
Definition nearest (negative : bool) (mantissa : N) (exponent : Z)
  : JSNumber.number :=
  JSNumber.roundToBinary64 negative
    (Z.of_N mantissa * 10 ^ Z.max exponent 0) (10 ^ Z.max (- exponent) 0).

(** The prefixes of the literals in another base. *)
Definition radixPrefixes : list (string * N) :=
  [ ("0x", 16); ("0X", 16); ("0o", 8); ("0O", 8); ("0b", 2); ("0B", 2) ]%N.

(** A numeric literal and the number it denotes. *)
Inductive NumericLiteral : string -> JSNumber.number -> Prop :=
| literal_infinity sign negative :
    In (sign, negative) signs ->
    NumericLiteral (sign ++ "Infinity") (S754_infinity negative)
| literal_decimal sign negative text mantissa exponent :
    In (sign, negative) signs ->
    UnsignedDecimal text mantissa exponent ->
    NumericLiteral (sign ++ text) (nearest negative mantissa exponent)
| literal_radix prefix radix digits n :
    In (prefix, radix) radixPrefixes ->
    Numeral radix digits n ->
    NumericLiteral (prefix ++ digits) (nearest false n 0).

(** The text parses fully as the number: it is a numeric literal with
    white space, if anything, before and after. *)
Definition parsesFullyAs (text : string) (x : JSNumber.number) : Prop :=
  exists before literal after,
    text = before ++ literal ++ after
    /\ Blank before /\ Blank after /\ NumericLiteral literal x.

(** A validation error. *)
Definition validationError (ended : outcome value) : Prop :=
  exists failure, ended = Throws failure.

(** The rules of the coercion, one by one: what they prescribe for a raw
    value. *)
Definition coercionRules (raw : value) (ended : outcome value) : Prop :=
  match raw with
  | VNull | VUndefined => validationError ended
  | VBool b => ended = Returns (VBool b)
  | VNum x =>
      match x with
      | S754_nan | S754_infinity _ => validationError ended
      | S754_zero _ | S754_finite _ _ _ => ended = Returns (VNum x)
      end
  | VStr text =>
      if String.eqb text "" then validationError ended
      else if String.eqb text "true" then ended = Returns (VBool true)
      else if String.eqb text "false" then ended = Returns (VBool false)
      else
        (forall x, parsesFullyAs text x -> ended = Returns (VNum x))
        /\ ((forall x, ~ parsesFullyAs text x) -> ended = Returns (VStr text))
        /\ ((exists x, parsesFullyAs text x)
            \/ (forall x, ~ parsesFullyAs text x))
  | VArr _ | VObj _ =>
      exists failure,
        ended = Throws failure /\ contains (message failure) "got object"
  end.

(** The number [mantissa * 2 ^ exponent], negated when [negative]. *)
Definition binary64 (negative : bool) (mantissa : positive) (exponent : Z)
  : value :=
  VNum (S754_finite negative mantissa exponent).

(** Every character of the text is a visible ASCII character. *)
Definition visibleAscii (text : string) : bool :=
  forallb (fun c => (32 <? nat_of_ascii c)%nat && (nat_of_ascii c <? 127)%nat)
          (list_ascii_of_string text).
(* ================================================================== *)
(** ** A home to evaluate the program on *)

Definition lamp : Device :=
  mkDevice (Some "Lamp") (ZoneId "z-kitchen") (Some "light") (Some true)
           (Some ["onoff"; "dim"; "measure_power"]) None
           (Some "homey:app:com.example.lights")
           (Present (mkManager (Some "homey:manager:devices"))).

(** A flow that is disabled and cannot be triggered. *)
Definition morning : Flow :=
  mkFlow (Some "Morning") (Some false) None (Some false) None None None.

(** An enabled flow with one condition and two actions, the second of
    them without an id. *)
Definition evening : Flow :=
  mkFlow (Some "Evening") (Some true) None (Some true) None
         (Some [mkCard (Some "homey:manager:logic:lt")])
         (Some [mkCard (Some "homey:device:lamp-1:off"); mkCard None]).

(** A flow with a trigger, no name and no [enabled] field. *)
Definition unnamed : Flow :=
  mkFlow None None None None (Some (mkTrigger (Some "homey:manager:cron") None))
         None None.

Definition rooms : obj Zone :=
  [ ("z-kitchen", mkZone (Some "Kitchen"));
    ("z-attic", mkZone (Some "attic"));
    ("z-bedroom", mkZone (Some "Bedroom")) ].

(** What reading each capability of the lamp gives. *)
Definition lampReading (capability : string) : outcome value :=
  if String.eqb capability "dim" then throwError "Timed out"
  else Returns (VBool true).

(** A platform without state: one lamp in the kitchen whose [dim] level
    cannot be read, three zones and one flow. *)
Definition home : Provider unit :=
  mkProvider (fun o w =>
    (match o as o' return outcome (resp o') with
     | CreateAppAPI => Returns AppAPI
     | GetDevices => Returns [("lamp-1", lamp)]
     | GetZones => Returns rooms
     | GetFlows => Returns [("flow-1", morning)]
     | GetDevice id =>
         if String.eqb id "lamp-1" then Returns (Present lamp)
         else throwError "Not Found: Device"
     | GetFlow id =>
         if String.eqb id "flow-1" then Returns (Present morning)
         else throwError "Not Found: Flow"
     | SetCapabilityValue _ _ _ => Returns tt
     | GetCapabilityValue _ capability => lampReading capability
     end, w)).

(** A platform on which the handle can be created but the first listing
    of devices fails. *)
Definition probeFails : Provider unit :=
  mkProvider (fun o w =>
    (match o as o' return outcome (resp o') with
     | GetDevices => throwError "socket hang up"
     | other => fst (settle home other w)
     end, w)).

(** A platform on which the handle cannot be created. *)
Definition unreachable : Provider unit :=
  mkProvider (fun o w =>
    (match o as o' return outcome (resp o') with
     | CreateAppAPI => throwError "connect ECONNREFUSED"
     | other => fst (settle home other w)
     end, w)).

(** A platform like [home] on which no capability can be set. *)
Definition readOnlyHome : Provider unit :=
  mkProvider (fun o w =>
    (match o as o' return outcome (resp o') with
     | SetCapabilityValue _ _ _ => throwError "Missing Scopes"
     | other => fst (settle home other w)
     end, w)).

(** A platform like [home] with three flows, and a device and a flow the
    provider answers [null] and [undefined] for. *)
Definition busyHome : Provider unit :=
  mkProvider (fun o w =>
    (match o as o' return outcome (resp o') with
     | GetFlows =>
         Returns [ ("flow-1", morning); ("flow-2", evening); ("flow-3", unnamed) ]
     | GetDevice id =>
         if String.eqb id "ghost" then Returns Null
         else fst (settle home (GetDevice id) w)
     | GetFlow id =>
         if String.eqb id "ghost" then Returns Undefined
         else if String.eqb id "flow-2" then Returns (Present evening)
         else fst (settle home (GetFlow id) w)
     | other => fst (settle home other w)
     end, w)).




(** A platform like [home] whose zones are the zoo and the stable
    ("\u00e9curie", in UTF-8). *)
Definition stables : obj Zone :=
  [ ("z-1", mkZone (Some "zoo"));
    ("z-2", mkZone (Some (String "195" (String "169" "curie")))) ].

Definition farm : Provider unit :=
  mkProvider (fun o w =>
    (match o as o' return outcome (resp o') with
     | GetZones => Returns stables
     | other => fst (settle home other w)
     end, w)).

(** A server whose tools hold a provider handle, and one whose tools do
    not. *)
Definition ready : HomeyMCPServer.t := HomeyMCPServer.mk (HomeyTools.mk (Some AppAPI)).
Definition notReady : HomeyMCPServer.t := HomeyMCPServer.mk HomeyTools.create.

(** The request [tools/call] of a named tool. *)
Definition toolCall (name : string) (args : list (string * value)) : JSONRPCRequest :=
  mkRequest (VStr "r-1") (VStr "tools/call")
            (VObj [("name", VStr name); ("arguments", VObj args)]).

(** A request naming a tool the registry does not have. *)
Definition setSceneRequest : JSONRPCRequest := toolCall "set_scene" [].

(** A [tools/call] whose tool name has no text form, with the id 0. *)
Definition unprintableCall : JSONRPCRequest :=
  mkRequest (VNum (JSNumber.ofZ 0)) (VStr "tools/call")
            (VObj [("name", unprintable)]).

(** The body of that request. *)
Definition unprintableBody : value :=
  VObj [ ("id", VNum (JSNumber.ofZ 0)); ("method", VStr "tools/call");
         ("params", VObj [("name", unprintable)]) ].


(* ================================================================== *)
(** * Properties *)

(** ** Running programs *)

Lemma run_bind {W A B : Type} (P : Provider W) (m : prog A) (f : A -> prog B) w :
  run P (bind m f) w =
  let '(a, w1, l1) := run P m w in
  let '(b, w2, l2) := run P (f a) w1 in
  (b, w2, (l1 ++ l2)%list).
Proof.
  revert w; induction m as [a | o k IH]; intros w; simpl.
  - destruct (run P (f a) w) as [[b w2] l2]; reflexivity.
  - destruct (settle P o w) as [r w1].
    rewrite IH.
    destruct (run P (k r) w1) as [[a w2] l1].
    destruct (run P (f a) w2) as [[b w3] l2].
    reflexivity.
Qed.

Lemma invokes_bind {A B : Type} (m : prog A) (f : A -> prog B) o :
  invokes (bind m f) o -> invokes m o \/ exists a, invokes (f a) o.
Proof.
  induction m as [a | o' k IH]; simpl; intros H.
  - right; exists a; exact H.
  - destruct H as [H | [r H]].
    + left; left; exact H.
    + destruct (IH r H) as [Hm | Hf].
      * left; right; exists r; exact Hm.
      * right; exact Hf.
Qed.

(** ** Texts *)

Lemma append_empty_r (s : string) : s ++ "" = s.
Proof.
  induction s as [| c s IH]; simpl; [reflexivity | rewrite IH; reflexivity].
Qed.

Lemma append_assoc (a b c : string) : (a ++ b) ++ c = a ++ b ++ c.
Proof.
  induction a as [| x a IH]; simpl; [reflexivity | rewrite IH; reflexivity].
Qed.


Lemma contains_suffix (prefix s : string) : contains (prefix ++ s) s.
Proof. exists prefix, EmptyString. rewrite append_empty_r. reflexivity. Qed.


Lemma contains_middle (before s after : string) : contains (before ++ s ++ after) s.
Proof. exists before, after. reflexivity. Qed.


Lemma contains_app_l (s t needle : string) :
  contains s needle -> contains (s ++ t) needle.
Proof.
  intros [before [after E]]. exists before, (after ++ t).
  rewrite E, !append_assoc. reflexivity.
Qed.

Lemma prefix_append (needle after : string) :
  String.prefix needle (needle ++ after) = true.
Proof.
  induction needle as [| c needle IH]; simpl; [destruct after; reflexivity |].
  destruct (ascii_dec c c) as [_ | H]; [exact IH | congruence].
Qed.

Lemma occurs_unfold (needle s : string) :
  occurs needle s
  = (String.prefix needle s
     || match s with
        | EmptyString => false
        | String _ s' => occurs needle s'
        end)%bool.
Proof. destruct s; reflexivity. Qed.

(** [occurs] finds every occurrence. *)
Lemma contains_occurs (s needle : string) :
  contains s needle -> occurs needle s = true.
Proof.
  intros [before [after ->]].
  induction before as [| c before IH].
  - rewrite occurs_unfold. cbn [append]. rewrite prefix_append. reflexivity.
  - rewrite occurs_unfold. cbn [append]. rewrite IH. apply orb_true_r.
Qed.


(** ** The dispatcher *)

Lemma printable_text s : printable (VStr s).
Proof. exists s. reflexivity. Qed.

Lemma unprintable_throws :
  JS.ToString unprintable
  = Throws (mkError "Cannot convert object to primitive value").
Proof. reflexivity. Qed.

Lemma value_eq_tools_call (v : value) :
  v = VStr "tools/call" \/ v <> VStr "tools/call".
Proof.
  destruct v as [ | | | | m | | ]; try (right; discriminate).
  destruct (String.eqb m "tools/call") eqn:E.
  - apply String.eqb_eq in E. left. rewrite E. reflexivity.
  - apply String.eqb_neq in E. right. intros [= H]. apply E, H.
Qed.

Section Dispatcher.

Variable host : Host.

Lemma handleMCPRequest_tools_call this request :
  req_method request = VStr "tools/call" ->
  HomeyMCPServer.handleMCPRequest host this request =
  HomeyMCPServer.handleToolCall host this request.
Proof.
  intros E. unfold HomeyMCPServer.handleMCPRequest. rewrite E. reflexivity.
Qed.

(** A request whose method has no text form is rejected at once. *)
Lemma handleMCPRequest_unprintable_method this request failure :
  JS.ToString (req_method request) = Throws failure ->
  HomeyMCPServer.handleMCPRequest host this request = Ret (Throws failure).
Proof.
  intros E. unfold HomeyMCPServer.handleMCPRequest, JS.interpolate.
  rewrite E. reflexivity.
Qed.

Lemma run_handleToolCall {W : Type} (P : Provider W) this request w :
  run P (HomeyMCPServer.handleToolCall host this request) w =
  let '(ended, w', log) :=
    run P (HomeyMCPServer.executeTool host this
             (HomeyMCPServer.toolName request)
             (HomeyMCPServer.toolArgs request)) w in
  (wrapped request ended, w', log).
Proof.
  unfold HomeyMCPServer.handleToolCall, tryCatch, bindAsync.
  rewrite !run_bind.
  destruct (run P _ w) as [[ended w'] log].
  destruct ended as [text | failure]; simpl; [rewrite !app_nil_r; reflexivity |].
  unfold JS.interpolate.
  destruct (JS.ToString (HomeyMCPServer.toolName request)); simpl;
    rewrite ?append_empty_r, !app_nil_r; reflexivity.
Qed.

Lemma invokes_handleToolCall this request o :
  invokes (HomeyMCPServer.handleToolCall host this request) o ->
  invokes (HomeyMCPServer.executeTool host this
             (HomeyMCPServer.toolName request)
             (HomeyMCPServer.toolArgs request)) o.
Proof.
  unfold HomeyMCPServer.handleToolCall, tryCatch, bindAsync.
  intros H.
  apply invokes_bind in H. destruct H as [H | [r H]].
  - apply invokes_bind in H. destruct H as [H | [r H]]; [exact H |].
    destruct r; simpl in H; contradiction.
  - destruct r as [response | failure]; simpl in H; [contradiction |].
    unfold JS.interpolate in H.
    destruct (JS.ToString (HomeyMCPServer.toolName request));
      simpl in H; contradiction.
Qed.

(** Outside [tools/call] a request is settled without the provider. *)
Lemma handleMCPRequest_other_methods this request :
  req_method request <> VStr "tools/call" ->
  exists settled,
    HomeyMCPServer.handleMCPRequest host this request = Ret settled
    /\ match settled with
       | Returns r => response_id r = req_id request
       | Throws failure => JS.ToString (req_method request) = Throws failure
       end.
Proof.
  intros Hmethod.
  unfold HomeyMCPServer.handleMCPRequest, HomeyMCPServer.methodNotFound,
    JS.interpolate.
  destruct (JS.ToString (req_method request)) as [label | failure] eqn:E;
    [| eexists; split; reflexivity].
  cbn [Logger.info Logger.log lift bindAsync bind].
  assert (Hcall : match req_method request with
                  | VStr m => String.eqb m "tools/call"
                  | _ => false
                  end = false).
  { destruct (req_method request) as [ | | | | m | | ]; try reflexivity.
    apply String.eqb_neq. intros ->. apply Hmethod. reflexivity. }
  rewrite Hcall.
  destruct (match req_method request with
            | VStr m => String.eqb m "initialize"
            | _ => false
            end);
    [| destruct (match req_method request with
                 | VStr m => String.eqb m "tools/list"
                 | _ => false
                 end)];
    simpl; eexists; split; reflexivity.
Qed.

(** Whatever a request is answered with carries its [id]. *)
Lemma run_handleMCPRequest {W : Type} (P : Provider W) (w : W) this request :
  exists settled w' log,
    run P (HomeyMCPServer.handleMCPRequest host this request) w
    = (settled, w', log)
    /\ match settled with
       | Returns r => response_id r = req_id request
       | Throws _ => ~ wellNamed request
       end.
Proof.
  destruct (value_eq_tools_call (req_method request)) as [Hcall | Hother].
  - rewrite (handleMCPRequest_tools_call this request Hcall).
    rewrite run_handleToolCall.
    destruct (run P _ w) as [[ended w'] log].
    do 3 eexists; split; [reflexivity |].
    unfold wrapped.
    destruct ended as [text | failure]; [reflexivity |].
    destruct (JS.ToString (HomeyMCPServer.toolName request)) eqn:E;
      [reflexivity |].
    intros [_ Hname]. destruct (Hname Hcall) as [text Htext].
    rewrite E in Htext. discriminate Htext.
  - destruct (handleMCPRequest_other_methods this request Hother)
      as [settled [E Hsettled]].
    rewrite E. simpl. do 3 eexists; split; [reflexivity |].
    destruct settled as [r | failure]; [exact Hsettled |].
    intros [[text Htext] _]. rewrite Hsettled in Htext. discriminate Htext.
Qed.

End Dispatcher.

Section DispatcherClaims.

Variable host : Host.

(** C3, as amended.  A [tools/call] whose [name] is none of the seven
    registered tools awaits no provider operation; and when the name has a
    text form, the dispatcher's program is a bare return of the internal
    error -32603 "Tool failed: <name>" whose [data] is "Unknown tool:
    <name>". *)
Theorem unknown_tool_is_rejected_before_the_provider this request :
  req_method request = VStr "tools/call" ->
  (forall tool, In tool toolNames ->
     HomeyMCPServer.toolName request <> VStr tool) ->
  (forall o, ~ invokes (HomeyMCPServer.handleMCPRequest host this request) o)
  /\ forall label,
      JS.ToString (HomeyMCPServer.toolName request) = Returns label ->
      HomeyMCPServer.handleMCPRequest host this request =
        Ret (Returns (JSONRPCError (req_id request) (-32603)
                        ("Tool failed: " ++ label)
                        (Some ("Unknown tool: " ++ label)))).
Proof.
  intros Hmethod Hname.
  set (name := HomeyMCPServer.toolName request) in *.
  assert (Hno : forall tool, In tool toolNames ->
                 match name with VStr n => String.eqb n tool | _ => false end = false).
  { intros tool Hin. specialize (Hname tool Hin).
    destruct name as [ | | | | n | | ]; try reflexivity.
    apply String.eqb_neq. intros ->. apply Hname; reflexivity. }
  assert (E : HomeyMCPServer.handleMCPRequest host this request =
              Ret match JS.ToString name with
                  | Returns label =>
                      Returns (JSONRPCError (req_id request) (-32603)
                                 ("Tool failed: " ++ label)
                                 (Some ("Unknown tool: " ++ label)))
                  | Throws conversion => Throws conversion
                  end).
  { rewrite (handleMCPRequest_tools_call host this request Hmethod).
    unfold HomeyMCPServer.handleToolCall, HomeyMCPServer.executeTool.
    fold name.
    rewrite !Hno by (unfold toolNames; simpl; tauto).
    unfold JS.interpolate.
    destruct (JS.ToString name) as [label | conversion]; simpl;
      rewrite ?append_empty_r; reflexivity. }
  split.
  - intros o. rewrite E. simpl. tauto.
  - intros label Hlabel. rewrite E, Hlabel. reflexivity.
Qed.

(** C4, as amended.  Whatever response or error [handleMCPRequest]
    returns carries the request's [id], be it a string, a number, [null]
    or absent; and it does return one - for [initialize], [tools/list], a
    [tools/call] that succeeds or fails, an unknown method - whenever the
    method and, for a [tools/call], the name of the tool have a text
    form. *)
Theorem response_id_echoes_request_id
    {W : Type} (P : Provider W) (w : W) this request :
  (forall r,
      result (run P (HomeyMCPServer.handleMCPRequest host this request) w)
      = Returns r ->
      response_id r = req_id request)
  /\ (wellNamed request -> answeredWithItsId P w host this request).
Proof.
  destruct (run_handleMCPRequest host P w this request)
    as [settled [w' [log [E Hsettled]]]].
  unfold answeredWithItsId. rewrite E. unfold result. simpl.
  split.
  - intros r ->. exact Hsettled.
  - intros Hnamed. destruct settled as [r | failure].
    + exists r. split; [reflexivity | exact Hsettled].
    + contradiction.
Qed.

End DispatcherClaims.

(** C3, as stated, fails for a tool name that has no text form: the
    handler rejects, and what the entry point answers does not name an
    unknown tool. *)
Lemma unprintable_tool_name_is_not_reported :
  ~ rejectedAsUnknownTool asciiHost ready unprintableCall
  /\ result (run home (Api.mcp asciiHost (Some ready) unprintableBody) tt)
     = Returns (JSONRPCError VNull (-32603) "Internal error"
                  (Some "Cannot convert object to primitive value"))
  /\ occurs "Unknown tool: " "Cannot convert object to primitive value" = false.
Proof.
  split; [| split; reflexivity].
  intros [_ [id [msg [diagnostic [E _]]]]].
  vm_compute in E. discriminate E.
Qed.

(** C4, as stated, fails for the same request: the handler returns no
    response, and the error the entry point answers with carries [null]
    where the request's id is 0. *)
Lemma unprintable_request_is_not_answered_with_its_id :
  ~ answeredWithItsId home tt asciiHost ready unprintableCall
  /\ req_id unprintableCall = VNum (JSNumber.ofZ 0)
  /\ exists r,
      result (run home (Api.mcp asciiHost (Some ready) unprintableBody) tt)
      = Returns r
      /\ response_id r = VNull.
Proof.
  split; [| split; [reflexivity | eexists; split; reflexivity]].
  intros [r [E _]]. vm_compute in E. discriminate E.
Qed.

(** ** Listings *)

Lemma join_concat sep (pieces : list string) :
  JSString.join sep pieces = String.concat sep pieces.
Proof.
  induction pieces as [| p rest IH]; [reflexivity |].
  destruct rest as [| q rest]; [reflexivity |].
  change (JSString.join sep (p :: q :: rest))
    with (p ++ sep ++ JSString.join sep (q :: rest)).
  rewrite IH. reflexivity.
Qed.

Lemma orElse_shownOr s placeholder : JS.orElse s placeholder = shownOr s placeholder.
Proof. destruct s; reflexivity. Qed.

Lemma concat_cons (piece : string) (pieces : list string) :
  String.concat "" (piece :: pieces) = piece ++ String.concat "" pieces.
Proof.
  destruct pieces as [| q rest]; simpl; [rewrite append_empty_r |]; reflexivity.
Qed.

(** The blocks a [forEach] appends are the numbered blocks. *)
Lemma forEachBlock_numbered {A B : Type} (show : A -> B)
      (block : nat -> A -> string) (numberedBlock : nat -> B -> string) :
  (forall index x, block index x = numberedBlock (S index) (show x)) ->
  forall xs first,
    MCPHelper.forEachBlock block first xs
    = String.concat ""
        (map (fun entry => numberedBlock (fst entry) (snd entry))
             (combine (seq (S first) (List.length xs)) (map show xs))).
Proof.
  intros Hblock xs.
  induction xs as [| x xs IH]; intros first; [reflexivity |].
  cbn [MCPHelper.forEachBlock List.length seq map combine fst snd].
  rewrite concat_cons, IH, Hblock. reflexivity.
Qed.

Lemma forEachBlock_listing {A B : Type} (show : A -> B)
      (block : nat -> A -> string) (numberedBlock : nat -> B -> string) xs :
  (forall index x, block index x = numberedBlock (S index) (show x)) ->
  MCPHelper.forEachBlock block 0 xs = numbered numberedBlock (map show xs).
Proof.
  intros Hblock. unfold numbered. rewrite length_map.
  apply forEachBlock_numbered, Hblock.
Qed.

Lemma formatZoneList_listing zones :
  MCPHelper.formatZoneList zones = zoneListing (map zoneShown zones).
Proof.
  destruct zones as [| z zones]; [reflexivity |].
  unfold MCPHelper.formatZoneList, zoneListing, listing.
  cbn [map]. rewrite <- (map_cons zoneShown z zones), length_map.
  rewrite (forEachBlock_listing zoneShown MCPHelper.zoneBlock
             (fun number (zone : string * string) =>
                JSString.ofNat number ++ ". " ++ shownOr (snd zone) "Unknown Zone"
                ++ nl ++ "   ID: " ++ shownOr (fst zone) "N/A" ++ nl ++ nl)).
  - reflexivity.
  - intros index x. unfold MCPHelper.zoneBlock, zoneShown.
    rewrite Nat.add_1_r, !orElse_shownOr. reflexivity.
Qed.

Lemma formatFlowList_listing flows :
  MCPHelper.formatFlowList flows = flowListing (map flowShown flows).
Proof.
  destruct flows as [| f flows]; [reflexivity |].
  unfold MCPHelper.formatFlowList, flowListing, listing.
  cbn [map]. rewrite <- (map_cons flowShown f flows), length_map.
  rewrite (forEachBlock_listing flowShown MCPHelper.flowBlock
             (fun number (flow : string * string * bool) =>
                JSString.ofNat number ++ ". "
                ++ shownOr (snd (fst flow)) "Unknown Flow" ++ nl
                ++ "   ID: " ++ shownOr (fst (fst flow)) "N/A" ++ nl
                ++ "   Enabled: " ++ (if snd flow then "Yes" else "No")
                ++ nl ++ nl)).
  - reflexivity.
  - intros index x. unfold MCPHelper.flowBlock, flowShown, MCPHelper.yesNo.
    rewrite Nat.add_1_r, !orElse_shownOr. reflexivity.
Qed.

Lemma formatDeviceList_listing devices :
  MCPHelper.formatDeviceList devices = deviceListing (map deviceShown devices).
Proof.
  destruct devices as [| d devices]; [reflexivity |].
  unfold MCPHelper.formatDeviceList, deviceListing, listing.
  cbn [map]. rewrite <- (map_cons deviceShown d devices), length_map.
  rewrite (forEachBlock_listing deviceShown MCPHelper.deviceBlock
             (fun number device =>
                JSString.ofNat number ++ ". "
                ++ shownOr (entry_name device) "Unknown Device" ++ nl
                ++ "   ID: " ++ shownOr (entry_id device) "N/A" ++ nl
                ++ "   Zone: " ++ shownOr (entry_zone device) "N/A" ++ nl
                ++ "   Class: " ++ shownOr (entry_class device) "N/A" ++ nl
                ++ "   Available: "
                ++ (if entry_available device then "Yes" else "No") ++ nl
                ++ match entry_capabilities device with
                   | [] => ""
                   | _ :: _ =>
                       "   Capabilities: "
                       ++ String.concat ", " (entry_capabilities device) ++ nl
                   end
                ++ nl)).
  - reflexivity.
  - intros index x. unfold MCPHelper.deviceBlock, deviceShown, MCPHelper.yesNo.
    cbn [entry_name entry_id entry_zone entry_class entry_available
         entry_capabilities].
    rewrite Nat.add_1_r, !orElse_shownOr.
    destruct (di_capabilities x) as [| c caps]; [reflexivity |].
    rewrite join_concat. reflexivity.
Qed.

(** ** The zone of a device *)

Lemma inherited_named z name :
  JS.inherited z = Some (Some name) -> name <> "".
Proof.
  unfold JS.inherited.
  destruct (String.eqb z "constructor"); [intros [= <-]; discriminate |].
  destruct (String.eqb z "__proto__"); [discriminate |].
  destruct (existsb (String.eqb z) _) eqn:E; [| discriminate].
  intros [= <-]. intros ->. discriminate E.
Qed.

Lemma getZoneName_resolved zones device :
  HomeyTools.getZoneName (dev_zone device) zones = resolvedZoneName zones device.
Proof.
  unfold HomeyTools.getZoneName, resolvedZoneName.
  assert (Hid : forall c id,
             (if JSString.isEmpty (String c id) then "Unknown"
              else match JS.lookup zones (String c id) with
                   | Some zone => JS.orDefault (zone_name zone) "Unknown"
                   | None =>
                       match JS.inherited (String c id) with
                       | Some name => JS.orDefault name "Unknown"
                       | None => "Unknown"
                       end
                   end)
             = match JS.lookup zones (String c id) with
               | Some zone =>
                   match zone_name zone with
                   | Some (String c' name) => String c' name
                   | Some EmptyString | None => "Unknown"
                   end
               | None =>
                   match JS.inherited (String c id) with
                   | Some (Some name) => name
                   | Some None | None => "Unknown"
                   end
               end).
  { intros c id. cbn [JSString.isEmpty].
    destruct (JS.lookup zones (String c id)) as [zone |].
    - destruct (zone_name zone) as [[| c' name] |]; reflexivity.
    - destruct (JS.inherited (String c id)) as [[name |] |] eqn:E;
        try reflexivity.
      apply inherited_named in E. destruct name; [congruence | reflexivity]. }
  destruct (dev_zone device) as [| [| c id] | [[| c id] |]]; try reflexivity.
  - cbn [JSString.isEmpty]. apply Hid.
  - apply Hid.
Qed.

(** ** The tools *)

Lemma triggerFlow_invokes this v o :
  invokes (HomeyTools.triggerFlow this v) o -> exists id, o = GetFlow id.
Proof.
  unfold HomeyTools.triggerFlow, tryCatch, bindAsync, lift, await.
  destruct (ValidationHelper.validateFlowId v) as [id | e]; simpl;
    [| contradiction].
  destruct (HomeyTools.ensureInitialized this); simpl; [| contradiction].
  intros [H | [r H]]; [eauto |].
  destruct r as [[f | |] | e]; simpl in H; contradiction.
Qed.

Lemma notOperationalText_describes flowId flow :
  describesUntriggeredFlow
    (HomeyTools.notOperationalText (JS.orDefault (flow_name flow) flowId)
       flowId flow)
    flowId flow.
Proof.
  unfold describesUntriggeredFlow, HomeyTools.notOperationalText,
    HomeyTools.notOperationalNotice, HomeyTools.manualTriggerAdvice,
    HomeyTools.flag, yesOrNo.
  rewrite !append_assoc.
  destruct (flow_name flow) as [[| c name] |];
    destruct (flow_enabled flow) as [[|] |];
    destruct (flow_triggerable flow) as [[|] |]; reflexivity.
Qed.

Lemma run_triggerFlow_found {W : Type} (P : Provider W) w w' this api flowId flow :
  flowId <> "" ->
  HomeyTools.homeyApi this = Some api ->
  settle P (GetFlow flowId) w = (Returns (Present flow), w') ->
  run P (HomeyTools.triggerFlow this (VStr flowId)) w =
  (Returns (HomeyTools.notOperationalText
              (JS.orDefault (flow_name flow) flowId) flowId flow),
   w', [GetFlow flowId]).
Proof.
  intros Hid Hapi Hflow.
  unfold HomeyTools.triggerFlow, tryCatch, bindAsync, lift, await,
    HomeyTools.ensureInitialized.
  rewrite Hapi.
  destruct flowId as [| c s]; [congruence |].
  simpl. rewrite Hflow. reflexivity.
Qed.

Lemma entryOf_deviceInfo zones deviceId device :
  deviceShown (HomeyTools.deviceInfo deviceId device
                 (HomeyTools.getZoneName (dev_zone device) zones))
  = entryOf zones (deviceId, device).
Proof.
  rewrite getZoneName_resolved.
  unfold deviceShown, entryOf, HomeyTools.deviceInfo.
  cbn [di_id di_name di_zone di_class di_available di_capabilities fst snd].
  destruct (dev_name device) as [[| c1 s1] |];
    destruct (dev_class device) as [[| c2 s2] |]; reflexivity.
Qed.

Section Tools.

Variable host : Host.

(** With a non-empty text as filter the loop keeps the devices whose
    zone name matches; with a falsy filter it keeps them all. *)
Lemma collectDevices_filter zone zones entries :
  zone <> "" ->
  exists deviceList,
    HomeyTools.collectDevices host (VStr zone) zones entries = Returns deviceList
    /\ map deviceShown deviceList
       = map (entryOf zones) (filter (zoneMatches host zones zone) entries).
Proof.
  intros Hzone.
  induction entries as [| [deviceId deviceData] rest [deviceList [IH Hshown]]];
    [exists []; split; reflexivity |].
  cbn [HomeyTools.collectDevices filter].
  unfold HomeyTools.zoneFilterSkips, zoneMatches, caseInsensitiveEq.
  destruct zone as [| c s]; [congruence |].
  cbn [JS.truthy JSString.isEmpty negb snd fst].
  rewrite <- (getZoneName_resolved zones deviceData).
  destruct (String.eqb _ _); cbn [negb].
  - rewrite IH. eexists. split; [reflexivity |].
    cbn [map]. rewrite entryOf_deviceInfo, Hshown. reflexivity.
  - exists deviceList. split; [exact IH | exact Hshown].
Qed.

Lemma collectDevices_unfiltered zone zones entries :
  JS.truthy zone = false ->
  exists deviceList,
    HomeyTools.collectDevices host zone zones entries = Returns deviceList
    /\ map deviceShown deviceList = map (entryOf zones) entries.
Proof.
  intros Hzone.
  induction entries as [| [deviceId deviceData] rest [deviceList [IH Hshown]]];
    [exists []; split; reflexivity |].
  cbn [HomeyTools.collectDevices].
  unfold HomeyTools.zoneFilterSkips. rewrite Hzone, IH.
  eexists. split; [reflexivity |].
  cbn [map]. rewrite entryOf_deviceInfo, Hshown. reflexivity.
Qed.

Lemma run_listDevices {W : Type} (P : Provider W) (w w1 w2 : W) this api zone
      devices zones deviceList :
  HomeyTools.homeyApi this = Some api ->
  settle P GetDevices w = (Returns devices, w1) ->
  settle P GetZones w1 = (Returns zones, w2) ->
  HomeyTools.collectDevices host zone zones (JS.entries devices)
  = Returns deviceList ->
  run P (HomeyTools.listDevices host this zone) w
  = (Returns (deviceListing (map deviceShown deviceList)), w2,
     [GetDevices; GetZones]).
Proof.
  intros Hapi Hd Hz Hcollect.
  unfold HomeyTools.listDevices, tryCatch, bindAsync, lift,
    HomeyTools.getDevicesAndZones, HomeyTools.ensureInitialized.
  rewrite Hapi. simpl. rewrite Hd, Hz. simpl.
  rewrite Hcollect. simpl. rewrite formatDeviceList_listing. reflexivity.
Qed.

(** C5.  A [tools/call] of [trigger_flow] for a flow the provider has:
    no mutation is ever awaited - the one operation run is the read of
    the flow - and the text returned is the notice that flow triggering
    is not operational, followed by the flow's name (its id when it has no
    name), id, enabled flag and triggerable flag, each as "Yes" or "No",
    and by the advice to trigger the flow manually; this for every flow,
    disabled and non-triggerable ones included. *)
Theorem trigger_flow_reports_the_flow_and_never_mutates
    {W : Type} (P : Provider W) (w w' : W) this api request flowId flow :
  req_method request = VStr "tools/call" ->
  HomeyMCPServer.toolName request = VStr "trigger_flow" ->
  JS.get (HomeyMCPServer.toolArgs request) "flow_id" = VStr flowId ->
  flowId <> "" ->
  HomeyTools.homeyApi (HomeyMCPServer.homeyTools this) = Some api ->
  settle P (GetFlow flowId) w = (Returns (Present flow), w') ->
  (forall o,
      invokes (HomeyMCPServer.handleMCPRequest host this request) o ->
      isMutation o = false)
  /\ exists text,
      run P (HomeyMCPServer.handleMCPRequest host this request) w
      = (Returns (JSONRPCResponse (req_id request) (ToolCallResult text)),
         w', [GetFlow flowId])
      /\ describesUntriggeredFlow text flowId flow.
Proof.
  intros Hmethod Hname Hargs Hid Hapi Hflow.
  rewrite (handleMCPRequest_tools_call host this request Hmethod).
  split.
  - intros o Ho. apply invokes_handleToolCall in Ho.
    rewrite Hname in Ho.
    change (HomeyMCPServer.executeTool host this (VStr "trigger_flow")
              (HomeyMCPServer.toolArgs request))
      with (HomeyTools.triggerFlow (HomeyMCPServer.homeyTools this)
              (JS.get (HomeyMCPServer.toolArgs request) "flow_id")) in Ho.
    apply triggerFlow_invokes in Ho. destruct Ho as [id ->]. reflexivity.
  - rewrite run_handleToolCall. rewrite Hname.
    change (HomeyMCPServer.executeTool host this (VStr "trigger_flow")
              (HomeyMCPServer.toolArgs request))
      with (HomeyTools.triggerFlow (HomeyMCPServer.homeyTools this)
              (JS.get (HomeyMCPServer.toolArgs request) "flow_id")).
    rewrite Hargs.
    rewrite (run_triggerFlow_found P w w' _ api flowId flow Hid Hapi Hflow).
    eexists; split; [reflexivity |].
    apply notOperationalText_describes.
Qed.

(** C7, as amended.  With a non-empty zone filter, [list_devices] shows
    exactly the devices whose resolved zone name equals the filter when
    case is ignored, and reads "No devices found." when none does; with
    the empty filter it shows every device. *)
Theorem list_devices_filters_by_non_empty_zone
    {W : Type} (P : Provider W) (w : W) this api zone :
  HomeyTools.homeyApi this = Some api ->
  (zone <> "" -> listDevicesFiltersBy P w host this zone)
  /\ (zone = "" ->
      forall devices zones w1 w2,
        settle P GetDevices w = (Returns devices, w1) ->
        settle P GetZones w1 = (Returns zones, w2) ->
        result (run P (HomeyTools.listDevices host this (VStr zone)) w)
        = Returns (deviceListing (map (entryOf zones) (JS.entries devices)))).
Proof.
  intros Hapi. split.
  - intros Hzone devices zones w1 w2 Hd Hz matching.
    destruct (collectDevices_filter zone zones (JS.entries devices) Hzone)
      as [deviceList [Hcollect Hshown]].
    rewrite (run_listDevices P w w1 w2 this api (VStr zone) devices zones
               deviceList Hapi Hd Hz Hcollect).
    unfold result. cbn [fst]. rewrite Hshown. fold matching.
    split; [reflexivity |].
    intros ->. reflexivity.
  - intros -> devices zones w1 w2 Hd Hz.
    destruct (collectDevices_unfiltered (VStr "") zones (JS.entries devices)
                eq_refl)
      as [deviceList [Hcollect Hshown]].
    rewrite (run_listDevices P w w1 w2 this api (VStr "") devices zones
               deviceList Hapi Hd Hz Hcollect).
    unfold result. cbn [fst]. rewrite Hshown. reflexivity.
Qed.

(** C1.  The coercion is not applied by [control_device]: the text "true"
    reaches [setCapabilityValue] as a text although the coercion turns it
    into the boolean, and an absent value reaches it although the coercion
    rejects it. *)
Theorem control_device_sends_the_raw_value :
  calls (run home
           (HomeyMCPServer.handleMCPRequest host ready
              (toolCall "control_device"
                 [("device_id", VStr "lamp-1"); ("capability", VStr "onoff");
                  ("value", VStr "true")])) tt)
  = [SetCapabilityValue "lamp-1" "onoff" (VStr "true"); GetDevice "lamp-1"]
  /\ ValidationHelper.validateCapabilityValue (VStr "true") = Returns (VBool true)
  /\ calls (run home
              (HomeyMCPServer.handleMCPRequest host ready
                 (toolCall "control_device"
                    [("device_id", VStr "lamp-1"); ("capability", VStr "onoff")])) tt)
     = [SetCapabilityValue "lamp-1" "onoff" VUndefined; GetDevice "lamp-1"]
  /\ ValidationHelper.validateCapabilityValue VUndefined
     = Throws (mkError "Capability value cannot be null or undefined").
Proof. repeat split; vm_compute; reflexivity. Qed.

(** C9.  The zone filter of [list_devices] is compared as it was given:
    [sanitizeZoneName] would trim " Kitchen " to "Kitchen", a filter that
    lists the lamp, but the untrimmed filter lists nothing.  An absent
    filter does list every device. *)
Theorem list_devices_compares_the_untrimmed_filter :
  lowerCasesAscii host ->
  ValidationHelper.sanitizeZoneName (VStr " Kitchen ") = Returns (Some "Kitchen")
  /\ result (run home
               (HomeyMCPServer.handleMCPRequest host ready
                  (toolCall "list_devices" [("zone", VStr " Kitchen ")])) tt)
     = Returns (JSONRPCResponse (VStr "r-1") (ToolCallResult "No devices found."))
  /\ result (run home
               (HomeyMCPServer.handleMCPRequest host ready
                  (toolCall "list_devices" [("zone", VStr "Kitchen")])) tt)
     = Returns (JSONRPCResponse (VStr "r-1")
                  (ToolCallResult
                     (MCPHelper.formatDeviceList
                        [HomeyTools.deviceInfo "lamp-1" lamp "Kitchen"])))
  /\ result (run home
               (HomeyMCPServer.handleMCPRequest host ready
                  (toolCall "list_devices" [])) tt)
     = Returns (JSONRPCResponse (VStr "r-1")
                  (ToolCallResult
                     (MCPHelper.formatDeviceList
                        [HomeyTools.deviceInfo "lamp-1" lamp "Kitchen"]))).
Proof.
  intros Hlower.
  split; [reflexivity |].
  repeat split; cbn; rewrite ?(Hlower "Kitchen" eq_refl),
    ?(Hlower " Kitchen " eq_refl); reflexivity.
Qed.

End Tools.

(** C7, as stated, fails for the empty filter: no zone name equals the
    empty text, yet the lamp in the kitchen is listed. *)
Lemma empty_zone_filter_lists_every_device :
  ~ listDevicesFiltersBy home tt asciiHost (HomeyTools.mk (Some AppAPI)) "".
Proof.
  intros H.
  destruct (H [("lamp-1", lamp)] rooms tt tt eq_refl eq_refl) as [_ Hnone].
  specialize (Hnone eq_refl).
  vm_compute in Hnone. discriminate Hnone.
Qed.

(** ** Sorting and collation *)

Lemma insert_Permutation {A : Type} (cmp : A -> A -> Z) x l :
  Permutation (JS.insert cmp x l) (x :: l).
Proof.
  induction l as [| y l IH]; simpl; [apply Permutation_refl |].
  destruct (cmp x y <=? 0)%Z; [apply Permutation_refl |].
  eapply perm_trans; [apply perm_skip, IH | apply perm_swap].
Qed.

Lemma sort_Permutation {A : Type} (cmp : A -> A -> Z) l :
  Permutation (JS.sort cmp l) l.
Proof.
  induction l as [| x l IH]; simpl; [apply perm_nil |].
  eapply perm_trans; [apply insert_Permutation | apply perm_skip, IH].
Qed.

Section SortedByComparator.

(** A comparator of which one of two elements is always no later than
    the other. *)
Context {A : Type} (cmp : A -> A -> Z).

Let R (a b : A) : Prop := (cmp a b <= 0)%Z.

Hypothesis cmp_total : forall a b, R a b \/ R b a.

Lemma insert_Sorted x l : Sorted R l -> Sorted R (JS.insert cmp x l).
Proof.
  induction l as [| y l IH]; intros Hs; simpl.
  - repeat constructor.
  - destruct (cmp x y <=? 0)%Z eqn:E.
    + constructor; [exact Hs |]. constructor. apply Z.leb_le, E.
    + apply Z.leb_gt in E.
      assert (Hyx : R y x).
      { destruct (cmp_total x y) as [H | H]; [unfold R in H; lia | exact H]. }
      inversion Hs as [| y' l' Hsl Hhd]; subst.
      constructor; [apply IH; assumption |].
      destruct l as [| z l]; simpl.
      * constructor. exact Hyx.
      * destruct (cmp x z <=? 0)%Z.
        -- constructor. exact Hyx.
        -- constructor. inversion Hhd; assumption.
Qed.

Lemma sort_Sorted l : Sorted R (JS.sort cmp l).
Proof.
  induction l as [| x l IH]; simpl; [constructor |].
  apply insert_Sorted, IH.
Qed.

End SortedByComparator.

Lemma StronglySorted_map {A B : Type} (f : A -> B) (R : B -> B -> Prop) l :
  StronglySorted (fun a b => R (f a) (f b)) l -> StronglySorted R (map f l).
Proof.
  induction 1 as [| z zones Hs IH Hall]; simpl; constructor; [exact IH |].
  apply Forall_map. exact Hall.
Qed.

Lemma StronglySorted_among {A : Type} (R R' : A -> A -> Prop) l :
  (forall a b, In a l -> In b l -> R a b -> R' a b) ->
  StronglySorted R l -> StronglySorted R' l.
Proof.
  intros Himp Hs. induction Hs as [| x l Hs IH Hall]; constructor.
  - apply IH. intros a b Ha Hb. apply Himp; right; assumption.
  - rewrite Forall_forall in *. intros y Hy.
    apply Himp; [left; reflexivity | right; exact Hy | apply Hall, Hy].
Qed.

Lemma lexCompare_trans a : forall b c,
  lexCompare a b <> Gt -> lexCompare b c <> Gt -> lexCompare a c <> Gt.
Proof.
  induction a as [| x a IH]; intros [| y b] [| z c]; simpl; try congruence.
  destruct (Nat.compare_spec (nat_of_ascii x) (nat_of_ascii y)) as [Exy | Lxy | Gxy];
    destruct (Nat.compare_spec (nat_of_ascii y) (nat_of_ascii z)) as [Eyz | Lyz | Gyz];
    try congruence; intros Hab Hbc.
  - rewrite Exy, Eyz, Nat.compare_refl. apply (IH b c Hab Hbc).
  - assert (L : (nat_of_ascii x < nat_of_ascii z)%nat) by lia.
    apply Nat.compare_lt_iff in L. rewrite L. discriminate.
  - assert (L : (nat_of_ascii x < nat_of_ascii z)%nat) by lia.
    apply Nat.compare_lt_iff in L. rewrite L. discriminate.
  - assert (L : (nat_of_ascii x < nat_of_ascii z)%nat) by lia.
    apply Nat.compare_lt_iff in L. rewrite L. discriminate.
Qed.

Lemma lexCompare_antisym a : forall b, lexCompare b a = CompOpp (lexCompare a b).
Proof.
  induction a as [| x a IH]; intros [| y b]; simpl; try reflexivity.
  rewrite (Nat.compare_antisym (nat_of_ascii x) (nat_of_ascii y)).
  destruct (Nat.compare (nat_of_ascii x) (nat_of_ascii y)); simpl;
    [apply IH | reflexivity | reflexivity].
Qed.

Lemma asciiCollation_le a b :
  (asciiCollation a b <= 0)%Z
  <-> lexCompare (asciiLowerCase a) (asciiLowerCase b) <> Gt.
Proof.
  unfold asciiCollation.
  destruct (lexCompare (asciiLowerCase a) (asciiLowerCase b)); split;
    intros H; try discriminate; try lia; congruence.
Qed.

(** The reference host ranks names as case-insensitive comparison does,
    consistently. *)
Lemma asciiHost_consistent : consistentCollation asciiHost.
Proof.
  split; unfold collatesBefore; cbn [localeCompare asciiHost].
  - intros a b c Hab Hbc. apply asciiCollation_le.
    apply asciiCollation_le in Hab. apply asciiCollation_le in Hbc.
    apply (lexCompare_trans _ _ _ Hab Hbc).
  - intros a b. rewrite !asciiCollation_le.
    rewrite (lexCompare_antisym (asciiLowerCase a) (asciiLowerCase b)).
    destruct (lexCompare (asciiLowerCase a) (asciiLowerCase b)); simpl;
      [left | left | right]; discriminate.
Qed.

Lemma asciiHost_ignores_case a b :
  collatesBefore asciiHost a b -> caseInsensitiveLe asciiHost a b.
Proof. apply asciiCollation_le. Qed.

Lemma zoneShown_zoneInfo (zones : list (string * Zone)) :
  map zoneShown (map HomeyTools.zoneInfo zones)
  = map (fun zone : string * Zone =>
           (fst zone,
            match zone_name (snd zone) with
            | Some (String c name) => String c name
            | _ => fst zone
            end)) zones.
Proof.
  rewrite map_map. apply map_ext. intros [id zone].
  unfold zoneShown, HomeyTools.zoneInfo. cbn [zi_id zi_name fst snd].
  destruct (zone_name zone) as [[| c name] |]; reflexivity.
Qed.

Section ZoneListing.

Variable host : Host.

Lemma run_listZones {W : Type} (P : Provider W) (w w' : W) this api zones :
  HomeyTools.homeyApi this = Some api ->
  settle P GetZones w = (Returns zones, w') ->
  run P (HomeyTools.listZones host this) w
  = (Returns (MCPHelper.formatZoneList
                (JS.sort (HomeyTools.compareZones host)
                         (map HomeyTools.zoneInfo (JS.entries zones)))),
     w', [GetZones]).
Proof.
  intros Hapi Hzones.
  unfold HomeyTools.listZones, tryCatch, bindAsync, lift, await,
    HomeyTools.ensureInitialized.
  rewrite Hapi. simpl. rewrite Hzones. reflexivity.
Qed.

(** C6, as amended.  [list_zones] renders the zones of a collection in
    ascending order of display name under the collation of the host
    ([localeCompare]): what is listed is a rearrangement of the provider's
    zones in which no name ranks after a later one; the order is that of
    case-insensitive lexicographic comparison wherever the host ranks the
    names of the collection as that comparison does.  For the zones named
    Kitchen, attic and Bedroom, on a host that ranks attic before Bedroom
    before Kitchen, the text rendered lists attic, Bedroom, Kitchen. *)
Theorem list_zones_orders_names_by_the_host_collation
    {W : Type} (P : Provider W) (w w' : W) this api zones :
  consistentCollation host ->
  HomeyTools.homeyApi this = Some api ->
  settle P GetZones w = (Returns zones, w') ->
  (exists listed,
      run P (HomeyTools.listZones host this) w
      = (Returns (zoneListing listed), w', [GetZones])
      /\ Permutation listed (zonesOf zones)
      /\ StronglySorted (collatesBefore host) (map snd listed)
      /\ ((forall a b,
              In a (map snd (zonesOf zones)) -> In b (map snd (zonesOf zones)) ->
              collatesBefore host a b -> caseInsensitiveLe host a b) ->
          StronglySorted (caseInsensitiveLe host) (map snd listed)))
  /\ (zones = rooms ->
      ~ collatesBefore host "Bedroom" "attic" ->
      ~ collatesBefore host "Kitchen" "Bedroom" ->
      result (run P (HomeyTools.listZones host this) w)
      = Returns ("Found 3 zone(s):" ++ nl ++ nl
                 ++ "1. attic" ++ nl ++ "   ID: z-attic" ++ nl ++ nl
                 ++ "2. Bedroom" ++ nl ++ "   ID: z-bedroom" ++ nl ++ nl
                 ++ "3. Kitchen" ++ nl ++ "   ID: z-kitchen" ++ nl ++ nl)).
Proof.
  intros [Htrans Htotal] Hapi Hzones.
  rewrite (run_listZones P w w' this api zones Hapi Hzones).
  set (sorted := JS.sort (HomeyTools.compareZones host)
                         (map HomeyTools.zoneInfo (JS.entries zones))).
  assert (Hperm : Permutation (map zoneShown sorted) (zonesOf zones)).
  { unfold zonesOf. rewrite <- zoneShown_zoneInfo.
    apply Permutation_map, sort_Permutation. }
  assert (Hsorted : StronglySorted (collatesBefore host)
                      (map snd (map zoneShown sorted))).
  { rewrite map_map.
    apply (StronglySorted_map (fun z => snd (zoneShown z))).
    apply Sorted_StronglySorted.
    - intros a b c. apply Htrans.
    - apply (sort_Sorted (HomeyTools.compareZones host)).
      intros a b. apply Htotal. }
  split.
  - exists (map zoneShown sorted).
    rewrite formatZoneList_listing.
    split; [reflexivity |]. split; [exact Hperm |]. split; [exact Hsorted |].
    intros Hcase.
    apply (StronglySorted_among (collatesBefore host)); [| exact Hsorted].
    intros a b Ha Hb.
    apply Hcase;
      apply (Permutation_in _ (Permutation_map snd Hperm)); assumption.
  - intros -> Hba Hkb.
    assert (Hab : (localeCompare host "attic" "Bedroom" <=? 0)%Z = true).
    { apply Z.leb_le. destruct (Htotal "attic" "Bedroom") as [H | H];
        [exact H | contradiction]. }
    assert (Hkb' : (localeCompare host "Kitchen" "Bedroom" <=? 0)%Z = false).
    { apply Z.leb_gt. unfold collatesBefore in Hkb. lia. }
    assert (Hka : (localeCompare host "Kitchen" "attic" <=? 0)%Z = false).
    { apply Z.leb_gt.
      destruct (Z.le_gt_cases (localeCompare host "Kitchen" "attic") 0)
        as [H | H]; [| lia].
      exfalso. apply Hkb.
      apply (Htrans "Kitchen" "attic" "Bedroom" H).
      apply Z.leb_le, Hab. }
    unfold sorted. change (JS.entries rooms) with rooms.
    unfold rooms, HomeyTools.compareZones, HomeyTools.zoneInfo.
    cbn [map JS.sort JS.insert fst snd zone_name zi_name
         JS.orDefault JS.orElse JSString.isEmpty].
    rewrite Hab. cbn [JS.insert zi_name]. rewrite Hka, Hkb'. reflexivity.
Qed.

End ZoneListing.

(** C6, as stated, fails where the host's collation departs from
    comparison by code point: the zoo and the stable are listed with the
    stable first, which case-insensitive lexicographic comparison places
    last. *)
Lemma accented_names_are_not_listed_ignoring_case :
  ~ listZonesOrdersIgnoringCase farm tt accentedHost (HomeyTools.mk (Some AppAPI)).
Proof.
  intros H.
  destruct (H stables tt eq_refl) as [listed [E [Hperm Hsorted]]].
  apply Permutation_sym in Hperm.
  change (zonesOf stables)
    with [ ("z-1", "zoo"); ("z-2", String "195" (String "169" "curie")) ]
    in Hperm.
  apply Permutation_length_2_inv in Hperm.
  destruct Hperm as [-> | ->].
  - vm_compute in E. discriminate E.
  - inversion Hsorted as [| x l _ Hall]; subst.
    inversion Hall as [| y l' Hle _]; subst.
    apply Hle. reflexivity.
Qed.

(** ** Objects *)

Lemma named_and_indexed_Permutation {A : Type} (o : obj A) :
  Permutation (map snd (JS.indexKeyed o) ++ filter JS.isNamed o) o.
Proof.
  induction o as [| kv o IH]; simpl; [apply perm_nil |].
  unfold JS.isNamed at 1.
  destruct (JS.arrayIndex (fst kv)) as [n |]; simpl.
  - apply perm_skip, IH.
  - apply Permutation_sym, Permutation_cons_app, Permutation_sym, IH.
Qed.

(** [Object.entries] only rearranges the own properties. *)
Lemma entries_Permutation {A : Type} (o : obj A) : Permutation (JS.entries o) o.
Proof.
  unfold JS.entries.
  eapply perm_trans; [| apply named_and_indexed_Permutation].
  apply Permutation_app_tail, Permutation_map, sort_Permutation.
Qed.

Lemma lookup_In {A : Type} (o : obj A) k a : JS.lookup o k = Some a -> In (k, a) o.
Proof.
  induction o as [| [k' a'] o IH]; simpl; [discriminate |].
  destruct (String.eqb k' k) eqn:E.
  - intros [= ->]. apply String.eqb_eq in E. subst. left; reflexivity.
  - intros H. right. apply IH, H.
Qed.

Lemma lookup_upsert_same {A : Type} (o : obj A) k a :
  JS.lookup (JS.upsert o k a) k = Some a.
Proof.
  induction o as [| [k' a'] o IH]; simpl.
  - rewrite String.eqb_refl. reflexivity.
  - destruct (String.eqb k' k) eqn:E; simpl; rewrite E; [reflexivity | exact IH].
Qed.

Lemma lookup_upsert_other {A : Type} (o : obj A) k a k' :
  k <> k' -> JS.lookup (JS.upsert o k a) k' = JS.lookup o k'.
Proof.
  intros Hne.
  induction o as [| [k0 a0] o IH]; simpl.
  - apply String.eqb_neq in Hne. rewrite Hne. reflexivity.
  - destruct (String.eqb k0 k) eqn:E; simpl.
    + apply String.eqb_eq in E. subst k0.
      apply String.eqb_neq in Hne. rewrite Hne. reflexivity.
    + destruct (String.eqb k0 k'); [reflexivity | exact IH].
Qed.

Lemma upsert_fresh {A : Type} (o : obj A) k a :
  JS.lookup o k = None -> JS.upsert o k a = (o ++ [(k, a)])%list.
Proof.
  induction o as [| [k' a'] o IH]; simpl; [reflexivity |].
  destruct (String.eqb k' k); [discriminate |].
  intros H. rewrite (IH H). reflexivity.
Qed.

Lemma lookup_app_fresh {A : Type} (o : obj A) k a k' :
  k <> k' -> JS.lookup (o ++ [(k, a)])%list k' = JS.lookup o k'.
Proof.
  intros Hne.
  induction o as [| [k0 a0] o IH]; simpl.
  - apply String.eqb_neq in Hne. rewrite Hne. reflexivity.
  - destruct (String.eqb k0 k'); [reflexivity | exact IH].
Qed.

Lemma lookup_assign {A : Type} (o : obj A) k a k' :
  k' <> "__proto__" ->
  JS.lookup (JS.assign o k a) k' = if String.eqb k k' then Some a else JS.lookup o k'.
Proof.
  intros Hproto. unfold JS.assign.
  destruct (String.eqb k k') eqn:E.
  - apply String.eqb_eq in E. subst k'.
    apply String.eqb_neq in Hproto. rewrite Hproto.
    apply lookup_upsert_same.
  - apply String.eqb_neq in E.
    destruct (String.eqb k "__proto__"); [reflexivity |].
    apply lookup_upsert_other, E.
Qed.

Lemma lookup_absent {A : Type} (o : obj A) k :
  ~ In k (map fst o) -> JS.lookup o k = None.
Proof.
  induction o as [| [k' a] o IH]; simpl; intros Hk; [reflexivity |].
  destruct (String.eqb k' k) eqn:E.
  - apply String.eqb_eq in E. exfalso. apply Hk. left. exact E.
  - apply IH. intros Hin. apply Hk. right. exact Hin.
Qed.

Lemma In_lookup {A : Type} (o : obj A) k a :
  NoDup (map fst o) -> In (k, a) o -> JS.lookup o k = Some a.
Proof.
  induction o as [| [k' a'] o IH]; simpl; intros Hnodup Hin; [contradiction |].
  inversion Hnodup as [| ? ? Hfresh Hrest]; subst.
  destruct Hin as [[= -> ->] | Hin].
  - rewrite String.eqb_refl. reflexivity.
  - destruct (String.eqb k' k) eqn:E.
    + apply String.eqb_eq in E. subst k'. exfalso. apply Hfresh.
      apply (in_map fst) in Hin. exact Hin.
    + apply IH; assumption.
Qed.

Lemma lookup_Permutation {A : Type} (o o' : obj A) k :
  NoDup (map fst o) -> Permutation o o' -> JS.lookup o k = JS.lookup o' k.
Proof.
  intros Hnodup Hperm.
  assert (Hnodup' : NoDup (map fst o')).
  { eapply Permutation_NoDup; [apply Permutation_map, Hperm | exact Hnodup]. }
  destruct (JS.lookup o k) as [a |] eqn:E.
  - symmetry. apply In_lookup; [exact Hnodup' |].
    eapply Permutation_in; [exact Hperm | apply lookup_In, E].
  - destruct (JS.lookup o' k) as [a' |] eqn:E'; [| reflexivity].
    apply lookup_In in E'.
    apply (Permutation_in _ (Permutation_sym Hperm)) in E'.
    rewrite (In_lookup o k a' Hnodup E') in E. discriminate E.
Qed.




(** ** Reading the capabilities of a device *)

Section Readings.

(** What the loop stores for each capability. *)
Variable stored : string -> value.






End Readings.








(** ** Initialisation *)

Ltac not_initialized_diagnostic :=
  first
    [ exists "Failed to list devices: ", ". Call initialize() first."; reflexivity
    | exists "Failed to control device: ", ". Call initialize() first."; reflexivity
    | exists "Failed to get device info: ", ". Call initialize() first."; reflexivity
    | exists "Failed to list zones: ", ". Call initialize() first."; reflexivity
    | exists "Failed to list flows: ", ". Call initialize() first."; reflexivity
    | exists "Failed to get flow information: ", ". Call initialize() first.";
      reflexivity
    | exists "Failed to get flow info: ", ". Call initialize() first."; reflexivity ].

Ltac settle_identifier v :=
  let E := fresh "E" in
  destruct v as [ | | ? | ? | [| ? ?] | ? | ? ] eqn:E.

Ltac settle_logged v :=
  let E := fresh "E" in
  let text := fresh "text" in
  let Htext := fresh "Htext" in
  destruct (JS.ToString v) as [? | ?] eqn:E;
  [| eexists; split;
     [reflexivity
     | intros [_ [text Htext]]; rewrite E in Htext; discriminate Htext]].

Section Initialisation.

Variable host : Host.

(** Without a provider handle, a registered tool fails without the
    provider: with the diagnostic that the handle is missing when the
    call passes the checks made before it is looked for. *)
Lemma tool_without_handle this tool args :
  HomeyTools.homeyApi (HomeyMCPServer.homeyTools this) = None ->
  In tool toolNames ->
  exists diagnostic,
    HomeyMCPServer.executeTool host this (VStr tool) args
    = Ret (Throws (mkError diagnostic))
    /\ (passesChecks tool args ->
        contains diagnostic "HomeyAPI not initialized").
Proof.
  intros Hapi Hin. simpl in Hin. unfold passesChecks, identifiersValid,
    loggedArgument.
  destruct Hin as [<- | [<- | [<- | [<- | [<- | [<- | [<- | []]]]]]]];
    cbn [String.eqb Ascii.eqb Bool.eqb orb];
    unfold HomeyMCPServer.executeTool; cbn [String.eqb Ascii.eqb Bool.eqb].
  - unfold HomeyTools.listDevices, HomeyTools.ensureInitialized.
    rewrite Hapi. eexists; split; [reflexivity | intros _; not_initialized_diagnostic].
  - unfold HomeyTools.controlDevice, HomeyTools.ensureInitialized,
      JS.interpolate.
    rewrite Hapi.
    settle_identifier (JS.get args "device_id");
      try (eexists; split; [reflexivity | intros [Hvalid _]; discriminate Hvalid]).
    settle_identifier (JS.get args "capability");
      try (eexists; split; [reflexivity | intros [Hvalid _]; discriminate Hvalid]).
    settle_logged (JS.get args "value").
    eexists; split; [reflexivity | intros _; not_initialized_diagnostic].
  - unfold HomeyTools.getDeviceInfo, HomeyTools.ensureInitialized.
    rewrite Hapi.
    settle_identifier (JS.get args "device_id");
      try (eexists; split; [reflexivity | intros [Hvalid _]; discriminate Hvalid]).
    eexists; split; [reflexivity | intros _; not_initialized_diagnostic].
  - unfold HomeyTools.listZones, HomeyTools.ensureInitialized.
    rewrite Hapi. eexists; split; [reflexivity | intros _; not_initialized_diagnostic].
  - unfold HomeyTools.listFlows, HomeyTools.ensureInitialized, JS.interpolate.
    rewrite Hapi.
    destruct (JS.get args "enabled_only") as [ | | b | x | s | items | props ] eqn:Earg;
      try (eexists; split; [reflexivity | intros _; not_initialized_diagnostic]).
    + settle_logged (VArr items).
      eexists; split; [reflexivity | intros _; not_initialized_diagnostic].
    + settle_logged (VObj props).
      eexists; split; [reflexivity | intros _; not_initialized_diagnostic].
  - unfold HomeyTools.triggerFlow, HomeyTools.ensureInitialized.
    rewrite Hapi.
    settle_identifier (JS.get args "flow_id");
      try (eexists; split; [reflexivity | intros [Hvalid _]; discriminate Hvalid]).
    eexists; split; [reflexivity | intros _; not_initialized_diagnostic].
  - unfold HomeyTools.getFlowInfo, HomeyTools.ensureInitialized.
    rewrite Hapi.
    settle_identifier (JS.get args "flow_id");
      try (eexists; split; [reflexivity | intros [Hvalid _]; discriminate Hvalid]).
    eexists; split; [reflexivity | intros _; not_initialized_diagnostic].
Qed.

Lemma calls_Invoke {W A : Type} (P : Provider W) (w : W) o
      (k : outcome (resp o) -> prog A) :
  calls (run P (Invoke o k) w) <> [].
Proof.
  unfold calls. simpl.
  destruct (settle P o w) as [r w1].
  destruct (run P (k r) w1) as [[a w2] log]. discriminate.
Qed.

Ltac reaches_provider :=
  cbn [bind Logger.info Logger.log]; apply calls_Invoke.

(** With a provider handle, a registered tool whose call passes the
    checks uses the provider. *)
Lemma tool_with_handle {W : Type} (P : Provider W) (w : W) this api tool args :
  HomeyTools.homeyApi (HomeyMCPServer.homeyTools this) = Some api ->
  In tool toolNames ->
  passesChecks tool args ->
  calls (run P (HomeyMCPServer.executeTool host this (VStr tool) args) w) <> [].
Proof.
  intros Hapi Hin. simpl in Hin. unfold passesChecks, identifiersValid,
    loggedArgument.
  destruct Hin as [<- | [<- | [<- | [<- | [<- | [<- | [<- | []]]]]]]];
    cbn [String.eqb Ascii.eqb Bool.eqb orb];
    unfold HomeyMCPServer.executeTool; cbn [String.eqb Ascii.eqb Bool.eqb];
    intros [Hvalid [text Htext]].
  - unfold HomeyTools.listDevices, HomeyTools.ensureInitialized,
      HomeyTools.getDevicesAndZones, tryCatch, bindAsync, lift.
    rewrite Hapi. reaches_provider.
  - unfold HomeyTools.controlDevice, HomeyTools.ensureInitialized,
      JS.interpolate, tryCatch, bindAsync, lift, await.
    rewrite Hapi, Htext.
    settle_identifier (JS.get args "device_id"); try discriminate Hvalid.
    settle_identifier (JS.get args "capability"); try discriminate Hvalid.
    reaches_provider.
  - unfold HomeyTools.getDeviceInfo, HomeyTools.ensureInitialized,
      tryCatch, bindAsync, lift, await.
    rewrite Hapi.
    settle_identifier (JS.get args "device_id"); try discriminate Hvalid.
    reaches_provider.
  - unfold HomeyTools.listZones, HomeyTools.ensureInitialized,
      tryCatch, bindAsync, lift, await.
    rewrite Hapi. reaches_provider.
  - unfold HomeyTools.listFlows, HomeyTools.ensureInitialized, JS.interpolate,
      tryCatch, bindAsync, lift, await.
    rewrite Hapi.
    destruct (JS.get args "enabled_only") as [ | | b | x | s | items | props ];
      try rewrite Htext; reaches_provider.
  - unfold HomeyTools.triggerFlow, HomeyTools.ensureInitialized,
      tryCatch, bindAsync, lift, await.
    rewrite Hapi.
    settle_identifier (JS.get args "flow_id"); try discriminate Hvalid.
    reaches_provider.
  - unfold HomeyTools.getFlowInfo, HomeyTools.ensureInitialized,
      tryCatch, bindAsync, lift, await.
    rewrite Hapi.
    settle_identifier (JS.get args "flow_id"); try discriminate Hvalid.
    reaches_provider.
Qed.

(** C10, as amended.  When the creation of the provider handle fails
    during the server's initialisation, the failure is swallowed: the
    server is published as the singleton and returned, its tools holding
    no handle; a later initialisation returns that server without trying
    again; and every later call of a registered tool is answered, without
    any provider operation, by an internal error "Tool failed: <tool>",
    whose diagnostic reads "HomeyAPI not initialized" whenever the call
    passes the checks that come first: its identifier arguments are valid
    and the argument it logs has a text form.  When the handle is created
    and only the first listing of the devices fails, the failure is
    swallowed as well, but the server published holds the handle, and
    later calls that pass those checks use the provider. *)
Theorem failed_handle_creation_leaves_the_tools_uninitialized
    {W : Type} (P : Provider W) (w w1 : W) created :
  settle P CreateAppAPI w = (created, w1) ->
  match created with
  | Throws failure =>
      run P (HomeyMCPServer.initialize None) w
      = ((notReady, Some notReady), w1, [CreateAppAPI])
      /\ HomeyMCPServer.initialize (Some notReady) = Ret (notReady, Some notReady)
      /\ forall request tool,
          req_method request = VStr "tools/call" ->
          HomeyMCPServer.toolName request = VStr tool ->
          In tool toolNames ->
          exists diagnostic,
            HomeyMCPServer.handleMCPRequest host notReady request
            = Ret (Returns (JSONRPCError (req_id request) (-32603)
                              ("Tool failed: " ++ tool) (Some diagnostic)))
            /\ (passesChecks tool (HomeyMCPServer.toolArgs request) ->
                contains diagnostic "HomeyAPI not initialized")
  | Returns api =>
      forall failure w2,
        settle P GetDevices w1 = (Throws failure, w2) ->
        let server := HomeyMCPServer.mk (HomeyTools.mk (Some api)) in
        run P (HomeyMCPServer.initialize None) w
        = ((server, Some server), w2, [CreateAppAPI; GetDevices])
        /\ forall request tool w3,
            req_method request = VStr "tools/call" ->
            HomeyMCPServer.toolName request = VStr tool ->
            In tool toolNames ->
            passesChecks tool (HomeyMCPServer.toolArgs request) ->
            calls (run P (HomeyMCPServer.handleMCPRequest host server request) w3)
            <> []
  end.
Proof.
  intros Hcreate. destruct created as [api | failure].
  - intros failure w2 Hprobe server. split.
    + simpl. rewrite Hcreate. simpl. rewrite Hprobe. reflexivity.
    + intros request tool w3 Hmethod Hname Hin Hchecks.
      rewrite (handleMCPRequest_tools_call host server request Hmethod).
      rewrite run_handleToolCall, Hname.
      pose proof (tool_with_handle P w3 server api tool
                    (HomeyMCPServer.toolArgs request) eq_refl Hin Hchecks)
        as Hcalls.
      destruct (run P _ w3) as [[ended w'] log]. exact Hcalls.
  - split; [| split; [reflexivity |]].
    + simpl. rewrite Hcreate. reflexivity.
    + intros request tool Hmethod Hname Hin.
      rewrite (handleMCPRequest_tools_call host notReady request Hmethod).
      destruct (tool_without_handle notReady tool
                  (HomeyMCPServer.toolArgs request) eq_refl Hin)
        as [diagnostic [E Hdiagnostic]].
      exists diagnostic. split; [| exact Hdiagnostic].
      unfold HomeyMCPServer.handleToolCall, JS.interpolate. rewrite Hname, E.
      cbn. rewrite append_empty_r. reflexivity.
Qed.

End Initialisation.

(** C10, as stated, fails when the handle is created and only the first
    listing of devices fails: the initialisation of the tools throws, the
    handle stays, and a later [list_zones] reaches the provider and
    succeeds.  It fails as well, the handle missing, for a call whose
    logged argument has no text form: the diagnostic is that of the
    conversion. *)
Lemma failed_probe_keeps_the_handle :
  ~ failedInitializationBlocksTools probeFails tt
  /\ ~ failedInitializationBlocksTools unreachable tt.
Proof.
  split; intros H.
  - destruct (H (mkError "socket hang up") (HomeyTools.mk (Some AppAPI)) tt
                [CreateAppAPI; GetDevices] eq_refl
                asciiHost (toolCall "list_zones" []) "list_zones" tt
                eq_refl eq_refl)
      as [diagnostic [E _]].
    + unfold toolNames; simpl; tauto.
    + reflexivity.
    + vm_compute in E. discriminate E.
  - destruct (H (mkError "connect ECONNREFUSED") HomeyTools.create tt
                [CreateAppAPI] eq_refl
                asciiHost (toolCall "list_flows" [("enabled_only", unprintable)])
                "list_flows" tt eq_refl eq_refl)
      as [diagnostic [E Hcontains]].
    + unfold toolNames; simpl; tauto.
    + reflexivity.
    + vm_compute in E. injection E as <-.
      apply contains_occurs in Hcontains.
      vm_compute in Hcontains. discriminate Hcontains.
Qed.

(* ================================================================== *)
(** * Further properties of the tools and of the dispatcher *)

(** ** How a tool fails *)

(** The [catch] clause every tool ends with rewrites the failure and
    changes nothing else. *)
Lemma run_tool_catch {W A : Type} (P : Provider W) (m : async A) context w :
  run P (tryCatch m (fun error =>
                       throw (mkError (HomeyTools.formatErrorMessage context error)))) w
  = let '(r, w', log) := run P m w in
    (match r with
     | Returns a => Returns a
     | Throws e => Throws (mkError (HomeyTools.formatErrorMessage context e))
     end, w', log).
Proof.
  unfold tryCatch. rewrite run_bind.
  destruct (run P m w) as [[r w'] log].
  destruct r; simpl; rewrite app_nil_r; reflexivity.
Qed.

Lemma run_bindAsync_throws {W A B : Type} (P : Provider W) (e : Error)
      (f : A -> async B) w :
  run P (bindAsync (Ret (Throws e)) f) w = (Throws e, w, []).
Proof. reflexivity. Qed.

Ltac wrapped_failure :=
  rewrite run_tool_catch;
  match goal with
  | |- context [run ?P ?m ?w] => destruct (run P m w) as [[[text | cause] w'] log]
  end;
  unfold result; simpl; intros E; [discriminate E |];
  injection E as <-; eexists; reflexivity.

Section ToolFailures.

Variable host : Host.

(** Whenever a registered tool throws, the message is "Failed to
    <context>: <cause>", with the context of that tool.  The arguments
    are truthy, as the [args || {}] of [handleToolCall] always is. *)
Theorem tool_failures_name_their_context
    {W : Type} (P : Provider W) (w : W) this tool args failure :
  JS.truthy args = true ->
  In tool toolNames ->
  result (run P (HomeyMCPServer.executeTool host this (VStr tool) args) w)
  = Throws failure ->
  exists cause,
    message failure = "Failed to " ++ failureContext tool ++ ": " ++ cause.
Proof.
  intros _ Hin. simpl in Hin.
  destruct Hin as [<- | [<- | [<- | [<- | [<- | [<- | [<- | []]]]]]]].
  - change (HomeyMCPServer.executeTool host this (VStr "list_devices") args)
      with (HomeyTools.listDevices host (HomeyMCPServer.homeyTools this)
              (JS.get args "zone")).
    unfold HomeyTools.listDevices. wrapped_failure.
  - change (HomeyMCPServer.executeTool host this (VStr "control_device") args)
      with (HomeyTools.controlDevice (HomeyMCPServer.homeyTools this)
              (JS.get args "device_id") (JS.get args "capability")
              (JS.get args "value")).
    unfold HomeyTools.controlDevice. wrapped_failure.
  - change (HomeyMCPServer.executeTool host this (VStr "get_device_info") args)
      with (HomeyTools.getDeviceInfo (HomeyMCPServer.homeyTools this)
              (JS.get args "device_id")).
    unfold HomeyTools.getDeviceInfo. wrapped_failure.
  - change (HomeyMCPServer.executeTool host this (VStr "list_zones") args)
      with (HomeyTools.listZones host (HomeyMCPServer.homeyTools this)).
    unfold HomeyTools.listZones. wrapped_failure.
  - change (HomeyMCPServer.executeTool host this (VStr "list_flows") args)
      with (HomeyTools.listFlows (HomeyMCPServer.homeyTools this)
              (JS.get args "enabled_only")).
    unfold HomeyTools.listFlows. wrapped_failure.
  - change (HomeyMCPServer.executeTool host this (VStr "trigger_flow") args)
      with (HomeyTools.triggerFlow (HomeyMCPServer.homeyTools this)
              (JS.get args "flow_id")).
    unfold HomeyTools.triggerFlow. wrapped_failure.
  - change (HomeyMCPServer.executeTool host this (VStr "get_flow_info") args)
      with (HomeyTools.getFlowInfo (HomeyMCPServer.homeyTools this)
              (JS.get args "flow_id")).
    unfold HomeyTools.getFlowInfo. wrapped_failure.
Qed.

(** A call whose identifier arguments do not pass validation ends before
    any provider operation, on an initialised server as on any other, with
    a failure that says which identifier must be a non-empty string.  The
    arguments are truthy, as the [args || {}] of [handleToolCall] always
    is. *)
Theorem invalid_identifier_fails_before_the_provider this tool args :
  JS.truthy args = true ->
  In tool toolNames ->
  identifiersValid tool args = false ->
  exists reason,
    HomeyMCPServer.executeTool host this (VStr tool) args
    = Ret (Throws (mkError ("Failed to " ++ failureContext tool ++ ": " ++ reason)))
    /\ contains reason "must be a non-empty string".
Proof.
  intros _ Hin. simpl in Hin. unfold identifiersValid.
  destruct Hin as [<- | [<- | [<- | [<- | [<- | [<- | [<- | []]]]]]]];
    cbn [String.eqb Ascii.eqb Bool.eqb orb]; try discriminate;
    unfold HomeyMCPServer.executeTool; cbn [String.eqb Ascii.eqb Bool.eqb].
  - unfold HomeyTools.controlDevice.
    settle_identifier (JS.get args "device_id");
      try (intros _; exists "Device ID must be a non-empty string";
           split; [reflexivity | exists "Device ID ", ""; reflexivity]).
    settle_identifier (JS.get args "capability");
      try (intros _; exists "Capability must be a non-empty string";
           split; [reflexivity | exists "Capability ", ""; reflexivity]).
    discriminate.
  - unfold HomeyTools.getDeviceInfo.
    settle_identifier (JS.get args "device_id");
      try (intros _; exists "Device ID must be a non-empty string";
           split; [reflexivity | exists "Device ID ", ""; reflexivity]).
    discriminate.
  - unfold HomeyTools.triggerFlow.
    settle_identifier (JS.get args "flow_id");
      try (intros _; exists "Flow ID must be a non-empty string";
           split; [reflexivity | exists "Flow ID ", ""; reflexivity]).
    discriminate.
  - unfold HomeyTools.getFlowInfo.
    settle_identifier (JS.get args "flow_id");
      try (intros _; exists "Flow ID must be a non-empty string";
           split; [reflexivity | exists "Flow ID ", ""; reflexivity]).
    discriminate.
Qed.

(** Truthy arguments that are not an object - a number, a text, an
    array - are read as an empty argument set. *)
Theorem non_object_arguments_read_as_empty this name args :
  JS.truthy args = true ->
  (forall props, args <> VObj props) ->
  HomeyMCPServer.executeTool host this name args
  = HomeyMCPServer.executeTool host this name (VObj []).
Proof.
  intros _ Hargs.
  assert (E : forall k, JS.get args k = JS.get (VObj []) k).
  { intros k. destruct args; try reflexivity. exfalso. apply (Hargs props). reflexivity. }
  unfold HomeyMCPServer.executeTool. rewrite !E. reflexivity.
Qed.

(** A [tools/call] whose [params] is not an object names no tool: it is
    answered "Unknown tool: undefined" without any provider operation. *)
Theorem params_that_are_no_object_name_no_tool this request :
  req_method request = VStr "tools/call" ->
  (forall props, req_params request <> VObj props) ->
  HomeyMCPServer.handleMCPRequest host this request
  = Ret (Returns (JSONRPCError (req_id request) (-32603)
                    "Tool failed: undefined" (Some "Unknown tool: undefined"))).
Proof.
  intros Hmethod Hparams.
  rewrite (handleMCPRequest_tools_call host this request Hmethod).
  unfold HomeyMCPServer.handleToolCall.
  assert (E : HomeyMCPServer.toolName request = VUndefined).
  { unfold HomeyMCPServer.toolName, JS.or.
    destruct (req_params request) as [ | | b | x | s | items | props ];
      try reflexivity.
    - destruct b; reflexivity.
    - destruct (JS.truthy (VNum x)); reflexivity.
    - destruct (JS.truthy (VStr s)); reflexivity.
    - exfalso. apply (Hparams props). reflexivity. }
  rewrite E. reflexivity.
Qed.

End ToolFailures.

(** ** What each tool does with the provider's answers *)

(** [control_device] with valid identifiers and a value that has a text
    form: the capability is set to the value as given, the device is then
    fetched for its name, and the text returned names the capability, the
    value, the device (its id when it has no name) and its id. *)
Theorem control_device_sets_then_names_the_device
    {W : Type} (P : Provider W) (w w1 w2 : W) this api deviceId capability
    raw text device :
  HomeyTools.homeyApi this = Some api ->
  deviceId <> "" -> capability <> "" ->
  JS.ToString raw = Returns text ->
  settle P (SetCapabilityValue deviceId capability raw) w = (Returns tt, w1) ->
  settle P (GetDevice deviceId) w1 = (Returns (Present device), w2) ->
  run P (HomeyTools.controlDevice this (VStr deviceId) (VStr capability) raw) w
  = (Returns ("Successfully set " ++ capability ++ " to " ++ text
              ++ " for device " ++ dquote
              ++ match dev_name device with
                 | Some (String c name) => String c name
                 | _ => deviceId
                 end ++ dquote
              ++ " (" ++ deviceId ++ ")"),
     w2,
     [SetCapabilityValue deviceId capability raw; GetDevice deviceId]).
Proof.
  intros Hapi Hd Hc Htext Hset Hget.
  unfold HomeyTools.controlDevice, tryCatch, bindAsync, lift, await,
    HomeyTools.ensureInitialized, JS.interpolate.
  rewrite Hapi, Htext.
  destruct deviceId as [| c1 s1]; [congruence |].
  destruct capability as [| c2 s2]; [congruence |].
  simpl. rewrite Hset. simpl. rewrite Hget. simpl.
  rewrite !append_assoc.
  destruct (dev_name device) as [[| c name] |]; reflexivity.
Qed.

(** When the provider refuses to set the capability, [control_device]
    stops there: the device is not fetched, and the failure thrown is the
    provider's, under "Failed to control device".  A value without a text
    form does not get that far: the call fails on the conversion, the
    provider unused. *)
Theorem control_device_stops_when_the_set_fails
    {W : Type} (P : Provider W) (w w1 : W) this api deviceId capability raw cause :
  HomeyTools.homeyApi this = Some api ->
  deviceId <> "" -> capability <> "" ->
  settle P (SetCapabilityValue deviceId capability raw) w = (Throws cause, w1) ->
  run P (HomeyTools.controlDevice this (VStr deviceId) (VStr capability) raw) w
  = match JS.ToString raw with
    | Returns _ =>
        (Throws (mkError ("Failed to control device: " ++ message cause)), w1,
         [SetCapabilityValue deviceId capability raw])
    | Throws conversion =>
        (Throws (mkError ("Failed to control device: " ++ message conversion)),
         w, [])
    end.
Proof.
  intros Hapi Hd Hc Hset.
  unfold HomeyTools.controlDevice, tryCatch, bindAsync, lift, await,
    HomeyTools.ensureInitialized, JS.interpolate.
  rewrite Hapi.
  destruct deviceId as [| c1 s1]; [congruence |].
  destruct capability as [| c2 s2]; [congruence |].
  destruct (JS.ToString raw) as [text | conversion]; simpl; [| reflexivity].
  rewrite Hset. reflexivity.
Qed.

(** An answer [null] or [undefined] of the provider to the lookup of a
    device or flow is reported as not found, with the id asked for: by
    [get_device_info], by [trigger_flow] and by [get_flow_info], each after
    that one lookup. *)
Theorem nullish_lookups_are_reported_as_not_found
    {W : Type} (P : Provider W) (w w1 : W) this api id :
  HomeyTools.homeyApi this = Some api ->
  id <> "" ->
  (forall missing : nullable Device,
      (forall device, missing <> Present device) ->
      settle P (GetDevice id) w = (Returns missing, w1) ->
      run P (HomeyTools.getDeviceInfo this (VStr id)) w
      = (Throws (mkError ("Failed to get device info: Device not found: " ++ id)),
         w1, [GetDevice id]))
  /\ (forall missing : nullable Flow,
      (forall flow, missing <> Present flow) ->
      settle P (GetFlow id) w = (Returns missing, w1) ->
      run P (HomeyTools.triggerFlow this (VStr id)) w
      = (Throws (mkError ("Failed to get flow information: Flow not found: " ++ id)),
         w1, [GetFlow id])
      /\ run P (HomeyTools.getFlowInfo this (VStr id)) w
         = (Throws (mkError ("Failed to get flow info: Flow not found: " ++ id)),
            w1, [GetFlow id])).
Proof.
  intros Hapi Hid.
  destruct id as [| c s]; [congruence |].
  split; [intros missing Hmissing H | intros missing Hmissing H; split];
    unfold HomeyTools.getDeviceInfo, HomeyTools.triggerFlow, HomeyTools.getFlowInfo,
      tryCatch, bindAsync, lift, await, HomeyTools.ensureInitialized;
    rewrite Hapi; simpl; rewrite H;
    (destruct missing as [present | |];
       [exfalso; apply (Hmissing present); reflexivity | |]);
    reflexivity.
Qed.

Lemma filter_all {A : Type} (l : list A) : filter (fun _ => true) l = l.
Proof. induction l as [| x l IH]; simpl; [reflexivity | rewrite IH; reflexivity]. Qed.

Lemma filter_map_commute {A B : Type} (f : A -> B) (p : B -> bool) (l : list A) :
  filter p (map f l) = map f (filter (fun x => p (f x)) l).
Proof.
  induction l as [| x l IH]; simpl; [reflexivity |].
  destruct (p (f x)); simpl; rewrite IH; reflexivity.
Qed.

Lemma flowShown_flowInfo (flows : list (string * Flow)) :
  map flowShown (map HomeyTools.flowInfo flows)
  = map (fun flow : string * Flow =>
           (fst flow,
            match flow_name (snd flow) with
            | Some (String c name) => String c name
            | _ => "Unknown Flow"
            end,
            match flow_enabled (snd flow) with
            | Some true => true
            | _ => false
            end)) flows.
Proof.
  rewrite map_map. apply map_ext. intros [id flow].
  unfold flowShown, HomeyTools.flowInfo. cbn [fi_id fi_name fi_enabled fst snd].
  destruct (flow_name flow) as [[| c name] |];
    destruct (flow_enabled flow) as [[|] |]; reflexivity.
Qed.

Lemma run_listFlows {W : Type} (P : Provider W) (w w' : W) this api flows
      enabledOnly :
  HomeyTools.homeyApi this = Some api ->
  settle P GetFlows w = (Returns flows, w') ->
  let flag := match enabledOnly with VUndefined => VBool false | v => v end in
  run P (HomeyTools.listFlows this enabledOnly) w
  = match JS.ToString flag with
    | Returns _ =>
        (Returns (MCPHelper.formatFlowList
                    (filter (fun flow =>
                               (negb (JS.truthy flag) || fi_enabled flow)%bool)
                            (map HomeyTools.flowInfo (JS.entries flows)))),
         w', [GetFlows])
    | Throws conversion =>
        (Throws (mkError ("Failed to list flows: " ++ message conversion)), w, [])
    end.
Proof.
  intros Hapi Hflows flag.
  unfold HomeyTools.listFlows, tryCatch, bindAsync, lift, await,
    HomeyTools.ensureInitialized, JS.interpolate.
  fold flag. rewrite Hapi.
  destruct (JS.ToString flag) as [text | conversion]; [| reflexivity].
  simpl. rewrite Hflows. reflexivity.
Qed.

(** [list_flows]: with [enabled_only] absent, false or otherwise falsy
    every flow of the provider is listed; with a truthy [enabled_only]
    exactly the flows whose [enabled] is [true], a flow without that field
    counting as disabled.  An [enabled_only] without a text form fails the
    call before the provider is asked. *)
Theorem list_flows_keeps_enabled_flows_on_request
    {W : Type} (P : Provider W) (w w' : W) this api flows enabledOnly :
  HomeyTools.homeyApi this = Some api ->
  settle P GetFlows w = (Returns flows, w') ->
  run P (HomeyTools.listFlows this enabledOnly) w
  = match JS.ToString enabledOnly with
    | Returns _ =>
        (Returns (flowListing
                    (if JS.truthy enabledOnly
                     then filter (fun flow => snd flow) (flowsOf flows)
                     else flowsOf flows)),
         w', [GetFlows])
    | Throws conversion =>
        (Throws (mkError ("Failed to list flows: " ++ message conversion)), w, [])
    end.
Proof.
  intros Hapi Hflows.
  rewrite (run_listFlows P w w' this api flows enabledOnly Hapi Hflows).
  assert (Hlisted : forall flag : bool,
            MCPHelper.formatFlowList
              (filter (fun flow => (negb flag || fi_enabled flow)%bool)
                      (map HomeyTools.flowInfo (JS.entries flows)))
            = flowListing (if flag
                           then filter (fun flow => snd flow) (flowsOf flows)
                           else flowsOf flows)).
  { intros flag. rewrite formatFlowList_listing.
    unfold flowsOf. rewrite <- flowShown_flowInfo.
    destruct flag; simpl.
    - rewrite (filter_map_commute flowShown). reflexivity.
    - rewrite filter_all. reflexivity. }
  cbv zeta.
  destruct enabledOnly as [ | | b | x | s | items | props ];
    cbn [JS.ToString]; rewrite Hlisted; reflexivity.
Qed.

Section DeviceListing.

Variable host : Host.

Lemma collectDevices_not_text zone zones entry entries :
  JS.truthy zone = true ->
  (forall z, zone <> VStr z) ->
  HomeyTools.collectDevices host zone zones (entry :: entries)
  = Throws (mkError "zone.toLowerCase is not a function").
Proof.
  intros Htruthy Htext. destruct entry as [deviceId deviceData].
  cbn [HomeyTools.collectDevices]. unfold HomeyTools.zoneFilterSkips.
  rewrite Htruthy.
  destruct zone as [ | | b | x | s | items | props ]; try reflexivity.
  exfalso. apply (Htext s). reflexivity.
Qed.

(** [list_devices] with a filter that is no text: a falsy one - absent,
    [null], [false], 0 - lists every device; a truthy one fails the call
    on the first device, and lists nothing when there is no device. *)
Theorem list_devices_without_a_text_filter
    {W : Type} (P : Provider W) (w w1 w2 : W) this api zone devices zones :
  HomeyTools.homeyApi this = Some api ->
  settle P GetDevices w = (Returns devices, w1) ->
  settle P GetZones w1 = (Returns zones, w2) ->
  (JS.truthy zone = false ->
   run P (HomeyTools.listDevices host this zone) w
   = (Returns (deviceListing (map (entryOf zones) (JS.entries devices))),
      w2, [GetDevices; GetZones]))
  /\ (JS.truthy zone = true -> (forall z, zone <> VStr z) ->
      run P (HomeyTools.listDevices host this zone) w
      = (match JS.entries devices with
         | [] => Returns "No devices found."
         | _ :: _ =>
             Throws (mkError
                       "Failed to list devices: zone.toLowerCase is not a function")
         end, w2, [GetDevices; GetZones])).
Proof.
  intros Hapi Hd Hz.
  split.
  - intros Hzone.
    destruct (collectDevices_unfiltered host zone zones (JS.entries devices) Hzone)
      as [deviceList [Hcollect Hshown]].
    rewrite (run_listDevices host P w w1 w2 this api zone devices zones
               deviceList Hapi Hd Hz Hcollect).
    rewrite Hshown. reflexivity.
  - intros Hzone Htext.
    unfold HomeyTools.listDevices, tryCatch, bindAsync, lift,
      HomeyTools.getDevicesAndZones, HomeyTools.ensureInitialized.
    rewrite Hapi. simpl. rewrite Hd, Hz. simpl.
    destruct (JS.entries devices) as [| entry entries].
    + reflexivity.
    + rewrite (collectDevices_not_text zone zones entry entries Hzone Htext).
      reflexivity.
Qed.

(** When one of the two listings behind [list_devices] is rejected, both
    have been asked for all the same, and the call fails with that
    rejection. *)
Theorem list_devices_asks_for_devices_and_zones_together
    {W : Type} (P : Provider W) (w w1 w2 : W) this api zone
    (devices : outcome (obj Device)) (zones : outcome (obj Zone)) cause :
  HomeyTools.homeyApi this = Some api ->
  settle P GetDevices w = (devices, w1) ->
  settle P GetZones w1 = (zones, w2) ->
  (devices = Throws cause /\ (exists z, zones = Returns z)
   \/ (exists d, devices = Returns d) /\ zones = Throws cause) ->
  run P (HomeyTools.listDevices host this zone) w
  = (Throws (mkError ("Failed to list devices: " ++ message cause)), w2,
     [GetDevices; GetZones]).
Proof.
  intros Hapi Hd Hz Hfail.
  unfold HomeyTools.listDevices, tryCatch, bindAsync, lift,
    HomeyTools.getDevicesAndZones, HomeyTools.ensureInitialized.
  rewrite Hapi. simpl. rewrite Hd, Hz.
  destruct Hfail as [[-> [z ->]] | [[d ->] ->]]; reflexivity.
Qed.


End DeviceListing.

Lemma orElse_not_empty s d : d <> "" -> JS.orElse s d <> "".
Proof.
  intros Hd. unfold JS.orElse. destruct s; simpl; [exact Hd | discriminate].
Qed.

(** The zone name resolved for a device is never empty.  It is "Unknown",
    or the name of the provider's zone of that id, or - when the provider
    has no zone of that id - the name of what a plain object inherits
    under the id, as "Object" for the id "constructor".  A zone given as an
    object resolves as its id does. *)
Theorem getZoneName_resolves_to_a_zone_or_Unknown deviceZone allZones :
  HomeyTools.getZoneName deviceZone allZones <> ""
  /\ (HomeyTools.getZoneName deviceZone allZones = "Unknown"
      \/ (exists zoneId zone,
             In (zoneId, zone) allZones
             /\ zone_name zone = Some (HomeyTools.getZoneName deviceZone allZones))
      \/ (exists zoneId,
             JS.lookup allZones zoneId = None
             /\ JS.inherited zoneId
                = Some (Some (HomeyTools.getZoneName deviceZone allZones))))
  /\ (forall id,
        HomeyTools.getZoneName (ZoneObject (Some id)) allZones
        = HomeyTools.getZoneName (ZoneId id) allZones)
  /\ HomeyTools.getZoneName (ZoneId "constructor") [] = "Object".
Proof.
  assert (Hresolve : forall z,
            let name := match JS.lookup allZones z with
                        | Some zone => JS.orDefault (zone_name zone) "Unknown"
                        | None =>
                            match JS.inherited z with
                            | Some name => JS.orDefault name "Unknown"
                            | None => "Unknown"
                            end
                        end in
            name <> ""
            /\ (name = "Unknown"
                \/ (exists zoneId zone,
                       In (zoneId, zone) allZones /\ zone_name zone = Some name)
                \/ (exists zoneId,
                       JS.lookup allZones zoneId = None
                       /\ JS.inherited zoneId = Some (Some name)))).
  { intros z. cbv zeta.
    destruct (JS.lookup allZones z) as [zone |] eqn:E.
    - split.
      + unfold JS.orDefault. destruct (zone_name zone);
          [apply orElse_not_empty |]; discriminate.
      + unfold JS.orDefault, JS.orElse.
        destruct (zone_name zone) as [[| c s] |] eqn:En; simpl;
          [left; reflexivity | | left; reflexivity].
        right. left. exists z, zone. split; [apply lookup_In, E | exact En].
    - destruct (JS.inherited z) as [[name |] |] eqn:Ei;
        try (split; [discriminate | left; reflexivity]).
      pose proof (inherited_named z name Ei) as Hname.
      destruct name as [| c s]; [congruence |].
      split; [discriminate |].
      right. right. exists z. split; [exact E | exact Ei]. }
  split; [| split; [| split]].
  - destruct deviceZone as [ | [| c s] | [[| c s] |] ]; simpl;
      try discriminate; apply Hresolve.
  - destruct deviceZone as [ | [| c s] | [[| c s] |] ]; simpl;
      try (left; reflexivity); apply Hresolve.
  - intros [| c s]; reflexivity.
  - reflexivity.
Qed.

(** The raw [value] of a [control_device] call is what the provider is
    given, whatever it is, provided it can be written to the log. *)
Lemma controlDevice_forwards_raw_value {W : Type} (P : Provider W) w this api
      (deviceId capability : string) (raw : value) :
  deviceId <> "" -> capability <> "" ->
  HomeyTools.homeyApi this = Some api ->
  printable raw ->
  exists rest,
    calls (run P (HomeyTools.controlDevice this (VStr deviceId) (VStr capability) raw) w)
    = SetCapabilityValue deviceId capability raw :: rest.
Proof.
  intros Hd Hc Hapi [text Htext].
  unfold HomeyTools.controlDevice, tryCatch, bindAsync, lift, await,
    HomeyTools.ensureInitialized, JS.interpolate.
  rewrite Hapi.
  destruct deviceId as [| c1 s1]; [congruence |].
  destruct capability as [| c2 s2]; [congruence |].
  cbn [ValidationHelper.validateDeviceId ValidationHelper.validateCapability
       JSString.isEmpty bind]. cbn [JS.ToString]. rewrite Htext. simpl.
  destruct (settle P _ w) as [r w1].
  destruct (run P _ w1) as [[a w2] log].
  exists log. reflexivity.
Qed.

(** ** Which operations a tool can await *)

Lemma listDevices_invokes host this zone o :
  invokes (HomeyTools.listDevices host this zone) o ->
  o = GetDevices \/ o = GetZones.
Proof.
  unfold HomeyTools.listDevices, tryCatch, bindAsync, lift,
    HomeyTools.getDevicesAndZones.
  destruct (HomeyTools.ensureInitialized this); intros H; simpl in H;
    [| contradiction].
  destruct H as [H | [devices [H | [zones H]]]]; [left; auto | right; auto |].
  exfalso.
  destruct devices as [d | e], zones as [z | e']; simpl in H; try contradiction.
  destruct (HomeyTools.collectDevices host zone z (JS.entries d)); simpl in H;
    contradiction.
Qed.

Lemma controlDevice_invokes this deviceId capability raw o :
  invokes (HomeyTools.controlDevice this deviceId capability raw) o ->
  exists id cap,
    deviceId = VStr id /\ capability = VStr cap
    /\ (o = SetCapabilityValue id cap raw \/ o = GetDevice id).
Proof.
  unfold HomeyTools.controlDevice, tryCatch, bindAsync, lift, await,
    JS.interpolate.
  destruct deviceId as [ | | ? | ? | [| c1 s1] | ? | ? ]; simpl;
    try contradiction.
  destruct capability as [ | | ? | ? | [| c2 s2] | ? | ? ]; simpl;
    try contradiction.
  destruct (JS.ToString raw) as [text | conversion]; simpl; [| contradiction].
  destruct (HomeyTools.ensureInitialized this); simpl; [| contradiction].
  intros H. exists (String c1 s1), (String c2 s2).
  split; [reflexivity |]. split; [reflexivity |].
  destruct H as [H | [r H]]; [left; auto |].
  destruct r as [[] | e]; simpl in H; [| contradiction].
  destruct H as [H | [r H]]; [right; auto |].
  destruct r as [[d | |] | e]; simpl in H; contradiction.
Qed.

Lemma readCapabilities_invokes deviceId capabilities : forall acc o,
  invokes (HomeyTools.readCapabilities deviceId capabilities acc) o ->
  exists capability, o = GetCapabilityValue deviceId capability.
Proof.
  induction capabilities as [| c rest IH]; intros acc o H; simpl in H;
    [contradiction |].
  destruct H as [H | [r H]]; [exists c; auto |].
  destruct r as [v | e]; apply (IH _ _ H).
Qed.

Lemma getDeviceInfo_invokes this deviceId o :
  invokes (HomeyTools.getDeviceInfo this deviceId) o ->
  exists id, o = GetDevice id \/ exists capability, o = GetCapabilityValue id capability.
Proof.
  unfold HomeyTools.getDeviceInfo, tryCatch, bindAsync, lift, await.
  destruct (ValidationHelper.validateDeviceId deviceId) as [id | e]; simpl;
    [| contradiction].
  destruct (HomeyTools.ensureInitialized this); simpl; [| contradiction].
  intros H. exists id.
  destruct H as [H | [r H]]; [left; auto |].
  right.
  destruct r as [[device | |] | e]; simpl in H; try contradiction.
  apply invokes_bind in H. destruct H as [H | [x H]].
  - apply invokes_bind in H. destruct H as [H | [x H]].
    + apply (readCapabilities_invokes _ _ _ _ H).
    + destruct x as [values | e]; simpl in H; [| contradiction].
      destruct (HomeyTools.appOf device); simpl in H; contradiction.
  - destruct x; simpl in H; contradiction.
Qed.

Lemma listZones_invokes host this o :
  invokes (HomeyTools.listZones host this) o -> o = GetZones.
Proof.
  unfold HomeyTools.listZones, tryCatch, bindAsync, lift, await.
  destruct (HomeyTools.ensureInitialized this); simpl; [| contradiction].
  intros [H | [r H]]; [auto |].
  destruct r; simpl in H; contradiction.
Qed.

Lemma listFlows_invokes this enabledOnly o :
  invokes (HomeyTools.listFlows this enabledOnly) o -> o = GetFlows.
Proof.
  unfold HomeyTools.listFlows, tryCatch, bindAsync, lift, await,
    JS.interpolate.
  destruct (JS.ToString _) as [text | conversion]; simpl; [| contradiction].
  destruct (HomeyTools.ensureInitialized this); simpl; [| contradiction].
  intros [H | [r H]]; [auto |].
  destruct r; simpl in H; contradiction.
Qed.

Lemma getFlowInfo_invokes this flowId o :
  invokes (HomeyTools.getFlowInfo this flowId) o -> exists id, o = GetFlow id.
Proof.
  unfold HomeyTools.getFlowInfo, tryCatch, bindAsync, lift, await.
  destruct (ValidationHelper.validateFlowId flowId) as [id | e]; simpl;
    [| contradiction].
  destruct (HomeyTools.ensureInitialized this); simpl; [| contradiction].
  intros [H | [r H]]; [eauto |].
  destruct r as [[f | |] | e]; simpl in H; contradiction.
Qed.

Section Reach.

Variable host : Host.

Lemma named_tool (name : value) (tool : string) :
  match name with VStr n => String.eqb n tool | _ => false end = true ->
  name = VStr tool.
Proof.
  destruct name; try discriminate.
  intros E. apply String.eqb_eq in E. subst. reflexivity.
Qed.

(** No request makes the server create the provider handle again, and
    the one way to change the platform is a [tools/call] of
    [control_device]: a capability is set only by such a call, and then
    for the device, the capability and the value of its arguments. *)
Theorem only_control_device_changes_the_platform this request o :
  invokes (HomeyMCPServer.handleMCPRequest host this request) o ->
  o <> CreateAppAPI
  /\ forall deviceId capability v,
      o = SetCapabilityValue deviceId capability v ->
      req_method request = VStr "tools/call"
      /\ HomeyMCPServer.toolName request = VStr "control_device"
      /\ JS.get (HomeyMCPServer.toolArgs request) "device_id" = VStr deviceId
      /\ JS.get (HomeyMCPServer.toolArgs request) "capability" = VStr capability
      /\ JS.get (HomeyMCPServer.toolArgs request) "value" = v.
Proof.
  destruct (value_eq_tools_call (req_method request)) as [Emethod | Hother].
  - rewrite (handleMCPRequest_tools_call host this request Emethod).
    intros H. apply invokes_handleToolCall in H.
    unfold HomeyMCPServer.executeTool in H.
    destruct (match HomeyMCPServer.toolName request with
              | VStr n => String.eqb n "list_devices" | _ => false end).
    { apply listDevices_invokes in H.
      destruct H as [-> | ->]; split; discriminate. }
    destruct (match HomeyMCPServer.toolName request with
              | VStr n => String.eqb n "control_device" | _ => false end) eqn:Ename.
    { apply named_tool in Ename.
      apply controlDevice_invokes in H.
      destruct H as [id [cap [Eid [Ecap [-> | ->]]]]]; split; try discriminate.
      intros deviceId capability v [= <- <- <-]. tauto. }
    destruct (match HomeyMCPServer.toolName request with
              | VStr n => String.eqb n "get_device_info" | _ => false end).
    { apply getDeviceInfo_invokes in H.
      destruct H as [id [-> | [capability ->]]]; split; discriminate. }
    destruct (match HomeyMCPServer.toolName request with
              | VStr n => String.eqb n "list_zones" | _ => false end).
    { apply listZones_invokes in H. subst o. split; discriminate. }
    destruct (match HomeyMCPServer.toolName request with
              | VStr n => String.eqb n "list_flows" | _ => false end).
    { apply listFlows_invokes in H. subst o. split; discriminate. }
    destruct (match HomeyMCPServer.toolName request with
              | VStr n => String.eqb n "trigger_flow" | _ => false end).
    { apply triggerFlow_invokes in H. destruct H as [id ->]. split; discriminate. }
    destruct (match HomeyMCPServer.toolName request with
              | VStr n => String.eqb n "get_flow_info" | _ => false end).
    { apply getFlowInfo_invokes in H. destruct H as [id ->]. split; discriminate. }
    unfold JS.interpolate in H.
    destruct (JS.ToString (HomeyMCPServer.toolName request));
      simpl in H; contradiction.
  - destruct (handleMCPRequest_other_methods host this request Hother)
      as [settled [E _]].
    rewrite E. simpl. contradiction.
Qed.

(** A method other than [initialize], [tools/list] and [tools/call] -
    a missing method, a number - that has a text form is answered with the
    error -32601 "Method not found: <method>", without data and without
    any provider operation; a method that has none makes the handler
    reject, with the failure of the conversion. *)
Theorem unknown_method_is_not_found this request :
  (forall method, In method ["initialize"; "tools/list"; "tools/call"] ->
     req_method request <> VStr method) ->
  HomeyMCPServer.handleMCPRequest host this request
  = Ret match JS.ToString (req_method request) with
        | Returns method =>
            Returns (JSONRPCError (req_id request) (-32601)
                       ("Method not found: " ++ method) None)
        | Throws conversion => Throws conversion
        end.
Proof.
  intros Hmethod.
  assert (Hno : forall method, In method ["initialize"; "tools/list"; "tools/call"] ->
                  match req_method request with
                  | VStr m => String.eqb m method
                  | _ => false
                  end = false).
  { intros method Hin. specialize (Hmethod method Hin).
    destruct (req_method request); try reflexivity.
    apply String.eqb_neq. intros ->. apply Hmethod. reflexivity. }
  unfold HomeyMCPServer.handleMCPRequest, HomeyMCPServer.methodNotFound,
    JS.interpolate.
  rewrite !Hno by (simpl; tauto).
  destruct (JS.ToString (req_method request)) as [method | conversion];
    simpl; rewrite ?append_empty_r; reflexivity.
Qed.

(** [initialize] and [tools/list] are answered from the server alone:
    without any provider operation, and with the same result whatever the
    [params] and whether or not the tools hold a provider handle; for
    [tools/list] the result is the whole registry. *)
Theorem protocol_methods_need_no_provider id method :
  method = VStr "initialize" \/ method = VStr "tools/list" ->
  exists payload,
    (forall this params,
        HomeyMCPServer.handleMCPRequest host this
          (mkRequest id method params)
        = Ret (Returns (JSONRPCResponse id payload)))
    /\ (method = VStr "tools/list" ->
        payload = ToolsListResult HomeyMCPServer.getToolDefinitions)
    /\ (method = VStr "initialize" ->
        payload = InitializeResult "2024-11-05" "homey-mcp-server" "1.0.0").
Proof.
  intros [-> | ->]; eexists; split; try (intros this params; reflexivity);
    split; intros E; try discriminate E; reflexivity.
Qed.

End Reach.

(** ** Initialisation and the entry point *)

(** Initialising the server never throws and leaves a singleton behind;
    it asks the provider for the handle once, and for the devices only
    once the handle is there; and initialising again returns the same
    server without any provider operation. *)
Theorem server_initialize_is_idempotent {W : Type} (P : Provider W) (w : W) :
  exists server w1 log,
    run P (HomeyMCPServer.initialize None) w = ((server, Some server), w1, log)
    /\ (log = [CreateAppAPI] \/ log = [CreateAppAPI; GetDevices])
    /\ forall w2,
        run P (HomeyMCPServer.initialize (Some server)) w2
        = ((server, Some server), w2, []).
Proof.
  simpl.
  destruct (settle P CreateAppAPI w) as [[api | e] w1]; simpl.
  - destruct (settle P GetDevices w1) as [[devices | e] w2]; simpl;
      do 3 eexists; (split; [reflexivity |]); (split; [right; reflexivity |]);
      intros w3; reflexivity.
  - do 3 eexists. split; [reflexivity |]. split; [left; reflexivity |].
    intros w3. reflexivity.
Qed.

(** [HomeyTools.initialize] keeps the provider handle exactly when its
    creation succeeded: a failed creation leaves the instance as it was
    and the devices are not asked for; after a successful one the handle
    stays whether or not the listing of the devices that follows fails,
    and that listing decides how the call ends. *)
Theorem tools_initialize_keeps_the_handle_it_created
    {W : Type} (P : Provider W) (w w1 : W) this created :
  settle P CreateAppAPI w = (created, w1) ->
  match created with
  | Throws cause =>
      run P (HomeyTools.initialize this) w = ((Throws cause, this), w1, [CreateAppAPI])
  | Returns api =>
      exists ended w2,
        run P (HomeyTools.initialize this) w
        = ((ended, HomeyTools.mk (Some api)), w2, [CreateAppAPI; GetDevices])
        /\ match fst (settle P GetDevices w1) with
           | Returns _ => ended = Returns tt
           | Throws cause => ended = Throws cause
           end
  end.
Proof.
  intros Hcreate. simpl. rewrite Hcreate.
  destruct created as [api | cause]; simpl; [| reflexivity].
  destruct (settle P GetDevices w1) as [[devices | cause] w2]; simpl;
    do 2 eexists; split; reflexivity.
Qed.

Section EntryPoint.

Variable host : Host.

(** The HTTP entry point never throws: whatever the body and whether or
    not the singleton exists, it resolves with a response or an error
    envelope.  Without a singleton the envelope is the internal error
    "MCP Server not initialized" and the provider is not used; with one,
    a body that is [undefined] or [null] is answered by an internal error
    with a [null] id, again without using the provider. *)
Theorem mcp_always_answers
    {W : Type} (P : Provider W) (w : W) instance body :
  (exists r, result (run P (Api.mcp host instance body) w) = Returns r)
  /\ (instance = None ->
      run P (Api.mcp host instance body) w
      = (Returns (JSONRPCError (Api.fallbackId body) (-32603) "Internal error"
                    (Some "MCP Server not initialized")), w, []))
  /\ (body = VUndefined \/ body = VNull ->
      exists diagnostic,
        run P (Api.mcp host instance body) w
        = (Returns (JSONRPCError VNull (-32603) "Internal error" (Some diagnostic)),
           w, [])).
Proof.
  split; [| split].
  - destruct instance as [server |]; [| eexists; reflexivity].
    destruct (Api.requestOf body) as [request | e] eqn:E.
    + unfold Api.mcp, tryCatch, bindAsync, lift. rewrite E. simpl.
      rewrite run_bind.
      destruct (run_handleMCPRequest host P w server request)
        as [settled [w' [log [Hrun _]]]].
      rewrite Hrun. destruct settled as [r | failure]; simpl;
        eexists; reflexivity.
    + unfold Api.mcp, tryCatch, bindAsync, lift. rewrite E.
      eexists. reflexivity.
  - intros ->. reflexivity.
  - intros [-> | ->]; destruct instance; eexists; reflexivity.
Qed.


(** Through the HTTP entry point, once the singleton exists, a body that
    is neither [undefined] nor [null] is always answered, with the body's
    [id] or with [null]: with the body's [id] whenever that id is truthy
    and whenever the method and, for a [tools/call], the name of the tool
    have a text form. *)
Theorem mcp_answers_with_the_body_id
    {W : Type} (P : Provider W) (w : W) server body :
  body <> VUndefined -> body <> VNull ->
  exists r,
    result (run P (Api.mcp host (Some server) body) w) = Returns r
    /\ (response_id r = JS.get body "id" \/ response_id r = VNull)
    /\ (JS.truthy (JS.get body "id") = true -> response_id r = JS.get body "id")
    /\ (wellNamed (mkRequest (JS.get body "id") (JS.get body "method")
                             (JS.get body "params")) ->
        response_id r = JS.get body "id").
Proof.
  intros Hu Hn.
  assert (E : Api.requestOf body
              = Returns (mkRequest (JS.get body "id") (JS.get body "method")
                                   (JS.get body "params"))).
  { destruct body; try congruence; reflexivity. }
  assert (Hid : Api.fallbackId body = JS.or (JS.get body "id") VNull).
  { destruct body; try congruence; reflexivity. }
  unfold Api.mcp, tryCatch, bindAsync, lift. rewrite E. simpl.
  rewrite run_bind.
  destruct (run_handleMCPRequest host P w server
              (mkRequest (JS.get body "id") (JS.get body "method")
                         (JS.get body "params")))
    as [settled [w' [log [Hrun Hsettled]]]].
  rewrite Hrun. destruct settled as [r | failure]; simpl.
  - exists r. simpl in Hsettled. repeat split; auto.
  - eexists. split; [reflexivity |]. simpl. rewrite Hid. unfold JS.or.
    destruct (JS.truthy (JS.get body "id")); repeat split; auto;
      try discriminate; intros Hnamed; contradiction.
Qed.

End EntryPoint.

(** ** The validators *)

(** What [validateCapabilityValue] returns is a boolean, a number that is
    not NaN, or the non-empty text it was given; and it returns unchanged
    every value it has returned, the two infinities apart - those it
    yields for the texts "Infinity" and "-Infinity" and rejects as
    numbers. *)
Theorem validateCapabilityValue_results raw coerced :
  ValidationHelper.validateCapabilityValue raw = Returns coerced ->
  match coerced with
  | VBool _ => True
  | VNum x => JSNumber.isNaN x = false
  | VStr s => s <> "" /\ raw = VStr s
  | _ => False
  end
  /\ (notInfinite coerced ->
      ValidationHelper.validateCapabilityValue coerced = Returns coerced).
Proof.
  destruct raw as [ | | b | x | s | items | props ];
    unfold ValidationHelper.validateCapabilityValue, throwError;
    try discriminate.
  - intros [= <-]. split; [exact I | reflexivity].
  - destruct (JSNumber.isFinite x) eqn:Ex; simpl; [| discriminate].
    intros [= <-]. split.
    + destruct x; try reflexivity; discriminate.
    + intros _. rewrite Ex. reflexivity.
  - destruct (JSString.isEmpty s) eqn:Eempty; [discriminate |].
    destruct (String.eqb s "true") eqn:Etrue;
      [intros [= <-]; split; [exact I | reflexivity] |].
    destruct (String.eqb s "false") eqn:Efalse;
      [intros [= <-]; split; [exact I | reflexivity] |].
    destruct (negb (JSString.isEmpty (JSString.trim s))
              && negb (JSNumber.isNaN
                         (JSNumber.StringToNumber (JSString.trim s))))%bool
      eqn:Enumber.
    + intros [= <-].
      apply andb_prop in Enumber. destruct Enumber as [_ Enan].
      apply negb_true_iff in Enan. split; [exact Enan |].
      destruct (JSNumber.StringToNumber (JSString.trim s));
        simpl; intros Hfinite; try reflexivity; try contradiction; discriminate.
    + intros [= <-]. split.
      * split; [intros ->; discriminate | reflexivity].
      * intros _. rewrite Eempty, Etrue, Efalse, Enumber. reflexivity.
Qed.

(** ** The list formatters *)

(** Each list formatter renders an empty list as its "No ... found."
    notice and any other as the count line "Found <n> <kind>(s):", an
    empty line, and one block per entry in the order of the list, numbered
    from 1: name (or its placeholder), id (or "N/A") and, for a device,
    zone, class, availability and the capabilities, if any, joined by
    ", "; for a flow, "Yes" or "No" for its being enabled. *)
Theorem list_formatters_render_every_entry :
  (forall devices,
      MCPHelper.formatDeviceList devices = deviceListing (map deviceShown devices))
  /\ (forall zones,
         MCPHelper.formatZoneList zones = zoneListing (map zoneShown zones))
  /\ (forall flows,
         MCPHelper.formatFlowList flows = flowListing (map flowShown flows))
  /\ MCPHelper.formatZoneList [mkZoneInfo "z1" "Kitchen"; mkZoneInfo "" ""]
     = "Found 2 zone(s):" ++ nl ++ nl
       ++ "1. Kitchen" ++ nl ++ "   ID: z1" ++ nl ++ nl
       ++ "2. Unknown Zone" ++ nl ++ "   ID: N/A" ++ nl ++ nl
  /\ MCPHelper.formatFlowList [] = "No flows found.".
Proof.
  split; [exact formatDeviceList_listing |].
  split; [exact formatZoneList_listing |].
  split; [exact formatFlowList_listing |].
  split; reflexivity.
Qed.

(** ** Capability values of a listed device *)

Lemma lookup_extracted (entries : obj value) : forall acc k,
  NoDup (map fst entries) ->
  k <> "__proto__" ->
  JS.lookup
    (fold_left
       (fun capabilityValues entry =>
          match snd entry with
          | VObj props =>
              match JS.lookup props "value" with
              | Some v => JS.assign capabilityValues (fst entry) v
              | None => capabilityValues
              end
          | _ => capabilityValues
          end) entries acc) k
  = match JS.lookup entries k with
    | Some (VObj props) =>
        match JS.lookup props "value" with
        | Some v => Some v
        | None => JS.lookup acc k
        end
    | _ => JS.lookup acc k
    end.
Proof.
  induction entries as [| [k' x] rest IH]; intros acc k Hnodup Hproto;
    [reflexivity |].
  inversion Hnodup as [| ? ? Hfresh Hrest]; subst.
  cbn [fold_left fst snd JS.lookup].
  rewrite (IH _ k Hrest Hproto).
  destruct (String.eqb k' k) eqn:E.
  - apply String.eqb_eq in E. subst k'.
    rewrite (lookup_absent rest k Hfresh).
    destruct x as [ | | | | | | props]; try reflexivity.
    destruct (JS.lookup props "value") as [v |]; [| reflexivity].
    rewrite (lookup_assign acc k v k Hproto), String.eqb_refl. reflexivity.
  - assert (Hacc :
      JS.lookup
        match x with
        | VObj props =>
            match JS.lookup props "value" with
            | Some v => JS.assign acc k' v
            | None => acc
            end
        | _ => acc
        end k = JS.lookup acc k).
    { destruct x as [ | | | | | | props]; try reflexivity.
      destruct (JS.lookup props "value") as [v |]; [| reflexivity].
      rewrite (lookup_assign acc k' v k Hproto), E. reflexivity. }
    rewrite Hacc. reflexivity.
Qed.

(** The capability values of a listed device are the [value] fields of
    its capability objects, one by one: under every capability name other
    than [__proto__] the extracted object holds the [value] of that
    capability's object, and nothing where the capability is no object or
    its object has no [value]. *)
Theorem extractCapabilityValues_reads_the_value_fields capabilitiesObj capability :
  NoDup (map fst capabilitiesObj) ->
  capability <> "__proto__" ->
  JS.lookup (HomeyTools.extractCapabilityValues (Some capabilitiesObj)) capability
  = match JS.lookup capabilitiesObj capability with
    | Some (VObj props) => JS.lookup props "value"
    | _ => None
    end.
Proof.
  intros Hnodup Hproto.
  unfold HomeyTools.extractCapabilityValues.
  assert (Hperm := entries_Permutation capabilitiesObj).
  assert (Hentries : NoDup (map fst (JS.entries capabilitiesObj))).
  { eapply Permutation_NoDup;
      [apply Permutation_map, Permutation_sym, Hperm | exact Hnodup]. }
  rewrite (lookup_extracted _ [] capability Hentries Hproto).
  rewrite (lookup_Permutation _ _ capability Hentries Hperm).
  destruct (JS.lookup capabilitiesObj capability) as [[ | | | | | | props] |];
    try reflexivity.
  destruct (JS.lookup props "value"); reflexivity.
Qed.


(** ** The description of a flow *)





(** ** White space *)

Lemma string_length_ind (P : string -> Prop) :
  (forall s, (forall t, (String.length t < String.length s)%nat -> P t) -> P s) ->
  forall s, P s.
Proof.
  intros step s.
  assert (H : forall n t, (String.length t < n)%nat -> P t).
  { induction n as [| n IH]; intros t Hlt; [lia |].
    apply step. intros u Hu. apply IH. lia. }
  apply (H (S (String.length s))). lia.
Qed.

Lemma length_append (a b : string) :
  String.length (a ++ b) = (String.length a + String.length b)%nat.
Proof.
  induction a as [| c a IH]; simpl; [reflexivity | rewrite IH; reflexivity].
Qed.

Lemma reverseOnto_append s : forall acc,
  JSString.reverseOnto s acc = JSString.reverse s ++ acc.
Proof.
  unfold JSString.reverse.
  induction s as [| c s IH]; intros acc; simpl; [reflexivity |].
  rewrite (IH (String c acc)), (IH (String c "")), append_assoc. reflexivity.
Qed.

Lemma reverse_cons c s :
  JSString.reverse (String c s) = JSString.reverse s ++ String c "".
Proof. unfold JSString.reverse at 1. simpl. apply reverseOnto_append. Qed.

Lemma reverse_append (a b : string) :
  JSString.reverse (a ++ b) = JSString.reverse b ++ JSString.reverse a.
Proof.
  induction a as [| c a IH]; simpl.
  - rewrite append_empty_r. reflexivity.
  - rewrite !reverse_cons, IH, append_assoc. reflexivity.
Qed.

Lemma reverse_involutive s : JSString.reverse (JSString.reverse s) = s.
Proof.
  induction s as [| c s IH]; [reflexivity |].
  rewrite reverse_cons, reverse_append, IH. reflexivity.
Qed.

Lemma length_reverse s : String.length (JSString.reverse s) = String.length s.
Proof.
  induction s as [| c s IH]; [reflexivity |].
  rewrite reverse_cons, length_append, IH. simpl. lia.
Qed.

Lemma strip_eq backwards s :
  JSString.strip backwards s
  = match s with
    | EmptyString => EmptyString
    | String a r1 =>
        if JSString.isWhiteSpace a then JSString.strip backwards r1
        else
          match r1 with
          | EmptyString => s
          | String b r2 =>
              if (if backwards then JSString.isWhiteSpace2 b a
                  else JSString.isWhiteSpace2 a b)
              then JSString.strip backwards r2
              else
                match r2 with
                | EmptyString => s
                | String c r3 =>
                    if (if backwards then JSString.isWhiteSpace3 c b a
                        else JSString.isWhiteSpace3 a b c)
                    then JSString.strip backwards r3
                    else s
                end
          end
    end.
Proof. destruct s; reflexivity. Qed.

(** Case analysis along [strip]: the text is empty, starts with a white
    space character of one, two or three bytes, or with none. *)
Ltac strip_cases backwards s a b c r :=
  rewrite ?(strip_eq backwards s);
  destruct s as [| a r]; [| destruct (JSString.isWhiteSpace a) eqn:?;
    [| destruct r as [| b r];
       [| destruct (if backwards then JSString.isWhiteSpace2 b a
                    else JSString.isWhiteSpace2 a b) eqn:?;
          [| destruct r as [| c r];
             [| destruct (if backwards then JSString.isWhiteSpace3 c b a
                          else JSString.isWhiteSpace3 a b c) eqn:? ]]]]].

Lemma strip_length backwards : forall s,
  (String.length (JSString.strip backwards s) <= String.length s)%nat.
Proof.
  apply string_length_ind. intros s IH.
  strip_cases backwards s a b c r; simpl; try lia.
  - specialize (IH r). simpl in IH. lia.
  - specialize (IH r). simpl in IH. lia.
  - specialize (IH r). simpl in IH. lia.
Qed.

Lemma strip_idempotent backwards : forall s,
  JSString.strip backwards (JSString.strip backwards s)
  = JSString.strip backwards s.
Proof.
  apply string_length_ind. intros s IH.
  rewrite (strip_eq backwards s).
  destruct s as [| a r]; [reflexivity |].
  destruct (JSString.isWhiteSpace a) eqn:E1; [apply IH; simpl; lia |].
  destruct r as [| b r]; [rewrite strip_eq, E1; reflexivity |].
  destruct (if backwards then JSString.isWhiteSpace2 b a
            else JSString.isWhiteSpace2 a b) eqn:E2; [apply IH; simpl; lia |].
  destruct r as [| c r]; [rewrite strip_eq, E1, E2; reflexivity |].
  destruct (if backwards then JSString.isWhiteSpace3 c b a
            else JSString.isWhiteSpace3 a b c) eqn:E3; [apply IH; simpl; lia |].
  rewrite strip_eq, E1, E2, E3. reflexivity.
Qed.

Lemma Blank_character w : In w whiteSpaceCharacters -> Blank w.
Proof.
  intros Hin. rewrite <- (append_empty_r w).
  apply blank_more; [exact Hin | apply blank_none].
Qed.

Lemma Blank_append a b : Blank a -> Blank b -> Blank (a ++ b).
Proof.
  intros Ha Hb. induction Ha as [| w rest Hw Hrest IH]; [exact Hb |].
  rewrite append_assoc. apply blank_more; assumption.
Qed.

Ltac among_the_white_space :=
  unfold whiteSpaceCharacters; cbn [map utf8 fold_right];
  repeat (first [left; reflexivity | right]).

Lemma ascii_of_code (a : ascii) (n : nat) :
  nat_of_ascii a = n -> a = ascii_of_nat n.
Proof. intros <-. symmetry. apply ascii_nat_embedding. Qed.

Ltac codes H :=
  repeat rewrite ?orb_true_iff, ?andb_true_iff, ?Nat.eqb_eq, ?Nat.leb_le in H.

Lemma isWhiteSpace_character a :
  JSString.isWhiteSpace a = true -> In (String a "") whiteSpaceCharacters.
Proof.
  unfold JSString.isWhiteSpace. intros H. codes H.
  assert (Hn : nat_of_ascii a = 9 \/ nat_of_ascii a = 10 \/ nat_of_ascii a = 11
               \/ nat_of_ascii a = 12 \/ nat_of_ascii a = 13
               \/ nat_of_ascii a = 32) by lia.
  clear H.
  repeat (destruct Hn as [Hn | Hn]);
    apply ascii_of_code in Hn; subst a; among_the_white_space.
Qed.

Lemma isWhiteSpace2_character a b :
  JSString.isWhiteSpace2 a b = true ->
  In (String a (String b "")) whiteSpaceCharacters.
Proof.
  unfold JSString.isWhiteSpace2. intros H. codes H.
  destruct H as [Ha Hb].
  apply ascii_of_code in Ha, Hb. subst a b. among_the_white_space.
Qed.

Lemma isWhiteSpace3_character a b c :
  JSString.isWhiteSpace3 a b c = true ->
  In (String a (String b (String c ""))) whiteSpaceCharacters.
Proof.
  unfold JSString.isWhiteSpace3. intros H. codes H.
  assert (Hn :
    (nat_of_ascii a = 225 /\ nat_of_ascii b = 154 /\ nat_of_ascii c = 128)
    \/ (nat_of_ascii a = 226 /\ nat_of_ascii b = 128
        /\ (nat_of_ascii c = 128 \/ nat_of_ascii c = 129 \/ nat_of_ascii c = 130
            \/ nat_of_ascii c = 131 \/ nat_of_ascii c = 132
            \/ nat_of_ascii c = 133 \/ nat_of_ascii c = 134
            \/ nat_of_ascii c = 135 \/ nat_of_ascii c = 136
            \/ nat_of_ascii c = 137 \/ nat_of_ascii c = 138
            \/ nat_of_ascii c = 168 \/ nat_of_ascii c = 169
            \/ nat_of_ascii c = 175))
    \/ (nat_of_ascii a = 226 /\ nat_of_ascii b = 129 /\ nat_of_ascii c = 159)
    \/ (nat_of_ascii a = 227 /\ nat_of_ascii b = 128 /\ nat_of_ascii c = 128)
    \/ (nat_of_ascii a = 239 /\ nat_of_ascii b = 187 /\ nat_of_ascii c = 191))
    by lia.
  clear H.
  destruct Hn as [[Ha [Hb Hc]] | [[Ha [Hb Hc]] | [[Ha [Hb Hc]]
                 | [[Ha [Hb Hc]] | [Ha [Hb Hc]]]]]];
    apply ascii_of_code in Ha, Hb; subst a b;
    repeat (destruct Hc as [Hc | Hc]);
    apply ascii_of_code in Hc; subst c; among_the_white_space.
Qed.

(** [strip] removes white space only: what it removes is a run of white
    space characters - read backwards when the text is. *)
Lemma strip_removes_blank (backwards : bool) : forall s,
  exists blank,
    Blank blank
    /\ s = (if backwards then JSString.reverse blank else blank)
           ++ JSString.strip backwards s.
Proof.
  apply string_length_ind. intros s IH.
  rewrite (strip_eq backwards s).
  destruct s as [| a r]; [exists ""; split; [apply blank_none | destruct backwards; reflexivity] |].
  destruct (JSString.isWhiteSpace a) eqn:E1.
  { destruct (IH r) as [blank [Hblank Er]]; [simpl; lia |].
    apply isWhiteSpace_character in E1.
    destruct backwards.
    - exists (blank ++ String a ""). split.
      + apply Blank_append; [exact Hblank | apply Blank_character, E1].
      + rewrite reverse_append. simpl. f_equal. exact Er.
    - exists (String a "" ++ blank). split.
      + apply blank_more; assumption.
      + simpl. f_equal. exact Er. }
  destruct r as [| b r];
    [exists ""; split; [apply blank_none | destruct backwards; reflexivity] |].
  destruct (if backwards then JSString.isWhiteSpace2 b a
            else JSString.isWhiteSpace2 a b) eqn:E2.
  { destruct (IH r) as [blank [Hblank Er]]; [simpl; lia |].
    destruct backwards.
    - apply isWhiteSpace2_character in E2.
      exists (blank ++ String b (String a "")). split.
      + apply Blank_append; [exact Hblank | apply Blank_character, E2].
      + rewrite reverse_append. simpl. do 2 f_equal. exact Er.
    - apply isWhiteSpace2_character in E2.
      exists (String a (String b "") ++ blank). split.
      + apply blank_more; assumption.
      + simpl. do 2 f_equal. exact Er. }
  destruct r as [| c r];
    [exists ""; split; [apply blank_none | destruct backwards; reflexivity] |].
  destruct (if backwards then JSString.isWhiteSpace3 c b a
            else JSString.isWhiteSpace3 a b c) eqn:E3.
  { destruct (IH r) as [blank [Hblank Er]]; [simpl; lia |].
    destruct backwards.
    - apply isWhiteSpace3_character in E3.
      exists (blank ++ String c (String b (String a ""))). split.
      + apply Blank_append; [exact Hblank | apply Blank_character, E3].
      + rewrite reverse_append. simpl. do 3 f_equal. exact Er.
    - apply isWhiteSpace3_character in E3.
      exists (String a (String b (String c "")) ++ blank). split.
      + apply blank_more; assumption.
      + simpl. do 3 f_equal. exact Er. }
  exists ""; split; [apply blank_none | destruct backwards; reflexivity].
Qed.

(** [strip] removes a white space character the text starts with. *)
Lemma strip_character w r :
  In w whiteSpaceCharacters ->
  JSString.strip false (w ++ r) = JSString.strip false r
  /\ JSString.strip true (JSString.reverse w ++ r) = JSString.strip true r.
Proof.
  unfold whiteSpaceCharacters. cbn [map utf8 fold_right]. intros Hin.
  repeat (destruct Hin as [<- | Hin]; [split; reflexivity |]).
  contradiction.
Qed.

Lemma strip_blank blank : Blank blank -> forall r,
  JSString.strip false (blank ++ r) = JSString.strip false r
  /\ JSString.strip true (JSString.reverse blank ++ r) = JSString.strip true r.
Proof.
  induction 1 as [| w rest Hw Hrest IH]; intros r; [split; reflexivity |].
  split.
  - rewrite append_assoc, (proj1 (strip_character w _ Hw)). apply IH.
  - rewrite reverse_append, append_assoc, (proj2 (IH _)).
    apply (strip_character w r Hw).
Qed.

Lemma visibleAscii_append a b :
  visibleAscii (a ++ b) = (visibleAscii a && visibleAscii b)%bool.
Proof.
  unfold visibleAscii.
  induction a as [| c a IH]; simpl; [reflexivity |].
  rewrite IH, andb_assoc. reflexivity.
Qed.

Lemma visibleAscii_reverse s : visibleAscii (JSString.reverse s) = visibleAscii s.
Proof.
  induction s as [| c s IH]; [reflexivity |].
  rewrite reverse_cons, visibleAscii_append, IH.
  change (String c s) with (String c "" ++ s).
  rewrite visibleAscii_append. apply andb_comm.
Qed.

Lemma reverse_not_empty s : s <> "" -> JSString.reverse s <> "".
Proof.
  intros Hs E. apply Hs.
  rewrite <- (reverse_involutive s), E. reflexivity.
Qed.

(** A text that starts with a visible ASCII character starts with no
    white space, read forwards or backwards. *)
Lemma strip_visible backwards s :
  visibleAscii s = true -> s <> "" -> JSString.strip backwards s = s.
Proof.
  intros Hvisible Hs.
  destruct s as [| a r]; [congruence |].
  unfold visibleAscii in Hvisible. simpl in Hvisible.
  apply andb_prop in Hvisible. destruct Hvisible as [Ha _].
  apply andb_prop in Ha. destruct Ha as [Hlow Hhigh].
  apply Nat.ltb_lt in Hlow, Hhigh.
  rewrite strip_eq.
  destruct (JSString.isWhiteSpace a) eqn:E1.
  { unfold JSString.isWhiteSpace in E1. codes E1. lia. }
  destruct r as [| b r]; [reflexivity |].
  destruct (if backwards then JSString.isWhiteSpace2 b a
            else JSString.isWhiteSpace2 a b) eqn:E2.
  { destruct backwards; unfold JSString.isWhiteSpace2 in E2; codes E2; lia. }
  destruct r as [| c r]; [reflexivity |].
  destruct (if backwards then JSString.isWhiteSpace3 c b a
            else JSString.isWhiteSpace3 a b c) eqn:E3; [| reflexivity].
  destruct backwards; unfold JSString.isWhiteSpace3 in E3; codes E3; lia.
Qed.

Lemma strip_visible_append s rest :
  visibleAscii s = true -> s <> "" ->
  JSString.strip false (s ++ rest) = s ++ rest.
Proof.
  intros Hvisible Hs.
  destruct s as [| a r]; [congruence |].
  assert (Ha : JSString.strip false (String a "") = String a "").
  { apply strip_visible; [| discriminate].
    change (String a r) with (String a "" ++ r) in Hvisible.
    rewrite visibleAscii_append in Hvisible.
    apply andb_prop in Hvisible. tauto. }
  rewrite strip_eq in Ha.
  destruct (JSString.isWhiteSpace a) eqn:E1; [discriminate Ha |].
  unfold visibleAscii in Hvisible. simpl in Hvisible.
  apply andb_prop in Hvisible. destruct Hvisible as [Hcode _].
  apply andb_prop in Hcode. destruct Hcode as [Hlow Hhigh].
  apply Nat.ltb_lt in Hlow, Hhigh.
  simpl. rewrite (strip_eq false), E1.
  destruct (r ++ rest) as [| b r2]; [reflexivity |].
  destruct (JSString.isWhiteSpace2 a b) eqn:E2.
  { unfold JSString.isWhiteSpace2 in E2; codes E2; lia. }
  destruct r2 as [| c r3]; [reflexivity |].
  destruct (JSString.isWhiteSpace3 a b c) eqn:E3; [| reflexivity].
  unfold JSString.isWhiteSpace3 in E3; codes E3; lia.
Qed.

(** ** [trim] *)

Lemma trimEnd_removes_blank s :
  exists blank, Blank blank /\ s = JSString.trimEnd s ++ blank.
Proof.
  destruct (strip_removes_blank true (JSString.reverse s)) as [blank [Hblank E]].
  exists blank. split; [exact Hblank |].
  unfold JSString.trimEnd.
  rewrite <- (reverse_involutive s) at 1.
  rewrite E at 1. rewrite reverse_append, reverse_involutive. reflexivity.
Qed.

Lemma trim_removes_blank s :
  exists before after,
    Blank before /\ Blank after /\ s = before ++ JSString.trim s ++ after.
Proof.
  destruct (strip_removes_blank false s) as [before [Hbefore E]].
  destruct (trimEnd_removes_blank (JSString.trimStart s)) as [after [Hafter E']].
  exists before, after. repeat split; try assumption.
  unfold JSString.trim. rewrite <- E'. exact E.
Qed.

Lemma trimEnd_blank s blank :
  Blank blank -> JSString.trimEnd (s ++ blank) = JSString.trimEnd s.
Proof.
  intros Hblank. unfold JSString.trimEnd.
  rewrite reverse_append, (proj2 (strip_blank blank Hblank _)). reflexivity.
Qed.

(** A text of visible ASCII characters between two runs of white space
    is what [trim] leaves. *)
Lemma trim_visible before s after :
  Blank before -> Blank after -> visibleAscii s = true -> s <> "" ->
  JSString.trim (before ++ s ++ after) = s.
Proof.
  intros Hbefore Hafter Hvisible Hs.
  unfold JSString.trim, JSString.trimStart.
  rewrite (proj1 (strip_blank before Hbefore _)).
  rewrite (strip_visible_append s after Hvisible Hs).
  rewrite (trimEnd_blank s after Hafter).
  unfold JSString.trimEnd.
  rewrite strip_visible.
  - apply reverse_involutive.
  - rewrite visibleAscii_reverse. exact Hvisible.
  - apply reverse_not_empty, Hs.
Qed.

Lemma length_trimEnd s :
  (String.length (JSString.trimEnd s) <= String.length s)%nat.
Proof.
  unfold JSString.trimEnd. rewrite length_reverse.
  rewrite <- (length_reverse s). apply strip_length.
Qed.

Lemma length_trim s :
  (String.length (JSString.trim s) <= String.length s)%nat.
Proof.
  unfold JSString.trim, JSString.trimStart.
  pose proof (length_trimEnd (JSString.strip false s)).
  pose proof (strip_length false s). lia.
Qed.

Lemma trimEnd_idempotent s :
  JSString.trimEnd (JSString.trimEnd s) = JSString.trimEnd s.
Proof.
  unfold JSString.trimEnd.
  rewrite reverse_involutive, strip_idempotent. reflexivity.
Qed.

Lemma append_eq_length (a b : string) :
  String.length b = String.length (a ++ b) -> a = "".
Proof.
  rewrite length_append. destruct a; [reflexivity | simpl; lia].
Qed.

(** What starts with no white space has no prefix that does. *)
Lemma strip_prefix p : forall q,
  JSString.strip false (p ++ q) = p ++ q -> JSString.strip false p = p.
Proof.
  intros q H.
  assert (Hlen : forall r : string,
             JSString.strip false r = p ++ q ->
             (String.length r < String.length (p ++ q))%nat -> False).
  { intros r E Hr. pose proof (strip_length false r) as Hle.
    rewrite E in Hle. lia. }
  rewrite strip_eq in H. rewrite strip_eq.
  destruct p as [| a p]; [reflexivity |].
  cbn [append] in H, Hlen.
  destruct (JSString.isWhiteSpace a) eqn:E1.
  { exfalso. apply (Hlen _ H). simpl. lia. }
  destruct p as [| b p]; [reflexivity |].
  cbn [append] in H, Hlen.
  destruct (JSString.isWhiteSpace2 a b) eqn:E2.
  { exfalso. apply (Hlen _ H). simpl. lia. }
  destruct p as [| c p]; [reflexivity |].
  cbn [append] in H, Hlen.
  destruct (JSString.isWhiteSpace3 a b c) eqn:E3; [| reflexivity].
  exfalso. apply (Hlen _ H). simpl. lia.
Qed.

Lemma trim_idempotent s : JSString.trim (JSString.trim s) = JSString.trim s.
Proof.
  unfold JSString.trim at 1.
  assert (E : JSString.trimStart (JSString.trim s) = JSString.trim s).
  { unfold JSString.trim.
    destruct (trimEnd_removes_blank (JSString.trimStart s)) as [after [_ E]].
    apply (strip_prefix _ after). rewrite <- E.
    apply strip_idempotent. }
  rewrite E. unfold JSString.trim. apply trimEnd_idempotent.
Qed.

(** ** Numeric literals: the parser against the grammar *)

Lemma digitValue_digit radix c d :
  JSNumber.digitValue radix c = Some d -> digit radix c d.
Proof.
  unfold JSNumber.digitValue, digit, digitTable. intros H.
  destruct c as [[] [] [] [] [] [] [] []]; cbv -[N.ltb] in H;
    try discriminate H;
    match type of H with
    | (if (?v <? radix)%N then _ else _) = _ =>
        destruct (N.ltb_spec v radix) as [Hlt | Hge];
        [injection H as <-; split; [| exact Hlt] | discriminate H]
    end;
    repeat (first [left; reflexivity | right]).
Qed.

Lemma digit_digitValue radix c d :
  digit radix c d -> JSNumber.digitValue radix c = Some d.
Proof.
  unfold digit, digitTable. intros [Hin Hlt].
  apply N.ltb_lt in Hlt.
  repeat (destruct Hin as [[= <- <-] | Hin];
          [unfold JSNumber.digitValue; cbv -[N.ltb]; cbv -[N.ltb] in Hlt;
           rewrite Hlt; reflexivity |]).
  contradiction.
Qed.

(** Nothing more to read as a digit. *)
Lemma readDigits_stops radix rest acc cnt :
  match rest with
  | EmptyString => True
  | String c _ => JSNumber.digitValue radix c = None
  end ->
  JSNumber.readDigits radix rest acc cnt = (acc, cnt, rest).
Proof.
  destruct rest as [| c r]; simpl; [reflexivity |].
  intros ->. reflexivity.
Qed.

Lemma readDigits_Numeral radix s n :
  Numeral radix s n -> forall rest acc cnt,
  JSNumber.readDigits radix (s ++ rest) acc cnt
  = JSNumber.readDigits radix rest
      (acc * radix ^ N.of_nat (String.length s) + n)%N
      (cnt + String.length s)%nat.
Proof.
  induction 1 as [c d Hd | c d s n Hd Hs IH]; intros rest acc cnt.
  - simpl append. cbn [JSNumber.readDigits].
    rewrite (digit_digitValue _ _ _ Hd).
    f_equal; [| simpl; lia].
    change (N.of_nat (String.length (String c ""))) with 1%N.
    rewrite N.pow_1_r. reflexivity.
  - simpl append. cbn [JSNumber.readDigits].
    rewrite (digit_digitValue _ _ _ Hd), IH.
    f_equal; [| simpl; lia].
    cbn [String.length]. rewrite Nat2N.inj_succ, N.pow_succ_r'.
    set (p := (radix ^ N.of_nat (String.length s))%N). nia.
Qed.

Lemma Numeral_length radix s n :
  Numeral radix s n -> exists k, String.length s = S k.
Proof. destruct 1; simpl; eexists; reflexivity. Qed.

Lemma readDigits_inv radix : forall s acc cnt n cnt' r,
  JSNumber.readDigits radix s acc cnt = (n, cnt', r) ->
  match r with
  | EmptyString => True
  | String c _ => JSNumber.digitValue radix c = None
  end
  /\ ((s = r /\ n = acc /\ cnt' = cnt)
      \/ exists p m,
          s = p ++ r /\ Numeral radix p m
          /\ n = (acc * radix ^ N.of_nat (String.length p) + m)%N
          /\ cnt' = (cnt + String.length p)%nat).
Proof.
  induction s as [| c s IH]; intros acc cnt n cnt' r H; simpl in H.
  - injection H as <- <- <-. split; [exact I | left; auto].
  - destruct (JSNumber.digitValue radix c) as [d |] eqn:Ed.
    + apply digitValue_digit in Ed.
      destruct (IH _ _ _ _ _ H) as [Hr [[-> [-> ->]] | [p [m [-> [Hp [-> ->]]]]]]];
        (split; [exact Hr |]); right.
      * exists (String c ""), d. split; [reflexivity |].
        split; [apply numeral_digit, Ed |].
        split; [| simpl; lia].
        change (N.of_nat (String.length (String c ""))) with 1%N.
        rewrite N.pow_1_r. reflexivity.
      * exists (String c p), (d * radix ^ N.of_nat (String.length p) + m)%N.
        split; [reflexivity |].
        split; [apply numeral_more; assumption |].
        split; [| simpl; lia].
        cbn [String.length]. rewrite Nat2N.inj_succ, N.pow_succ_r'.
        set (q := (radix ^ N.of_nat (String.length p))%N). nia.
    + injection H as <- <- <-. split; [exact Ed | left; auto].
Qed.

Lemma parseWholeDigits_Numeral radix s n :
  JSNumber.parseWholeDigits radix s = Some n <-> Numeral radix s n.
Proof.
  unfold JSNumber.parseWholeDigits. split.
  - destruct (JSNumber.readDigits radix s 0 0) as [[m cnt] r] eqn:E.
    destruct cnt as [| k]; [discriminate |].
    destruct r; [| discriminate]. intros [= ->].
    destruct (readDigits_inv _ _ _ _ _ _ _ E)
      as [_ [[_ [_ Hcnt]] | [p [m [-> [Hp [-> _]]]]]]]; [discriminate Hcnt |].
    rewrite append_empty_r, N.mul_0_l, N.add_0_l. exact Hp.
  - intros Hs.
    rewrite <- (append_empty_r s), (readDigits_Numeral _ _ _ Hs).
    destruct (Numeral_length _ _ _ Hs) as [k ->].
    cbn [JSNumber.readDigits Nat.add]. rewrite N.mul_0_l, N.add_0_l.
    reflexivity.
Qed.

(** The parser's tests on a character, as comparisons. *)
Lemma parseNonDecimal_eq s :
  JSNumber.parseNonDecimal s
  = match s with
    | String z (String c rest) =>
        if Ascii.eqb z "0" then
          match
            (if (Ascii.eqb c "x" || Ascii.eqb c "X")%bool then Some 16%N
             else if (Ascii.eqb c "o" || Ascii.eqb c "O")%bool then Some 8%N
             else if (Ascii.eqb c "b" || Ascii.eqb c "B")%bool then Some 2%N
             else None)
          with
          | Some r => option_map JSNumber.LitInteger (JSNumber.parseWholeDigits r rest)
          | None => None
          end
        else None
    | _ => None
    end.
Proof.
  destruct s as [| z [| c rest]]; [reflexivity | |];
    destruct z as [[] [] [] [] [] [] [] []]; reflexivity.
Qed.

Lemma parseExponent_eq s :
  JSNumber.parseExponent s
  = match s with
    | String c r =>
        if Ascii.eqb c "+"
        then option_map Z.of_N (JSNumber.parseWholeDigits 10 r)
        else if Ascii.eqb c "-"
        then option_map (fun n => (- Z.of_N n)%Z) (JSNumber.parseWholeDigits 10 r)
        else option_map Z.of_N (JSNumber.parseWholeDigits 10 s)
    | EmptyString => option_map Z.of_N (JSNumber.parseWholeDigits 10 s)
    end.
Proof.
  destruct s as [| c r]; [reflexivity |].
  destruct c as [[] [] [] [] [] [] [] []]; reflexivity.
Qed.

Lemma parseStrNumericLiteral_eq s :
  JSNumber.parseStrNumericLiteral s
  = match JSNumber.parseNonDecimal s with
    | Some l => Some l
    | None =>
        match s with
        | String c r =>
            if Ascii.eqb c "+" then JSNumber.parseUnsignedDecimal false r
            else if Ascii.eqb c "-" then JSNumber.parseUnsignedDecimal true r
            else JSNumber.parseUnsignedDecimal false s
        | EmptyString => JSNumber.parseUnsignedDecimal false s
        end
    end.
Proof.
  unfold JSNumber.parseStrNumericLiteral.
  destruct (JSNumber.parseNonDecimal s); [reflexivity |].
  destruct s as [| c r]; [reflexivity |].
  destruct c as [[] [] [] [] [] [] [] []]; reflexivity.
Qed.

Lemma parseUnsignedDecimal_eq neg s :
  JSNumber.parseUnsignedDecimal neg s
  = if String.eqb s "Infinity" then Some (JSNumber.LitInfinity neg) else
    let '(ip, ni, r1) := JSNumber.readDigits 10 s 0%N 0%nat in
    let '(mant, nf, r2) :=
      match r1 with
      | String c r1' =>
          if Ascii.eqb c "." then JSNumber.readDigits 10 r1' ip 0%nat
          else (ip, 0%nat, r1)
      | EmptyString => (ip, 0%nat, r1)
      end in
    match (ni + nf)%nat with
    | O => None
    | S _ =>
        match r2 with
        | EmptyString => Some (JSNumber.LitDecimal neg mant (- Z.of_nat nf))
        | String c r3 =>
            if (Ascii.eqb c "e" || Ascii.eqb c "E")%bool
            then option_map (fun x => JSNumber.LitDecimal neg mant (x - Z.of_nat nf))
                            (JSNumber.parseExponent r3)
            else None
        end
    end.
Proof.
  unfold JSNumber.parseUnsignedDecimal.
  destruct (String.eqb s "Infinity"); [reflexivity |].
  destruct (JSNumber.readDigits 10 s 0 0) as [[ip ni] r1].
  destruct r1 as [| c r1']; [reflexivity |].
  destruct c as [[] [] [] [] [] [] [] []]; reflexivity.
Qed.

(** *** The exponent part *)

Ltac each_digit Hd :=
  let Hin := fresh "Hin" in
  destruct Hd as [Hin _]; unfold digitTable in Hin;
  repeat (destruct Hin as [[= <- <-] | Hin]; [reflexivity |]);
  contradiction.

(** A digit is none of the other characters the parser looks for. *)
Lemma digit_is_no_mark radix c d :
  digit radix c d ->
  Ascii.eqb c "+" = false /\ Ascii.eqb c "-" = false
  /\ Ascii.eqb c "." = false /\ Ascii.eqb c "I" = false.
Proof. intros Hd. repeat split; each_digit Hd. Qed.

Lemma Numeral_head radix s n :
  Numeral radix s n ->
  exists c r d, s = String c r /\ digit radix c d.
Proof. destruct 1; do 3 eexists; split; try reflexivity; eassumption. Qed.

Lemma signed_exponent sign negative digits n :
  In (sign, negative) signs ->
  Numeral 10 digits n ->
  JSNumber.parseExponent (sign ++ digits)
  = Some (if negative then - Z.of_N n else Z.of_N n)%Z.
Proof.
  intros Hsign Hdigits.
  assert (Hparse := proj2 (parseWholeDigits_Numeral 10 digits n) Hdigits).
  rewrite parseExponent_eq.
  destruct Hsign as [[= <- <-] | [[= <- <-] | [[= <- <-] | []]]]; simpl.
  - destruct (Numeral_head _ _ _ Hdigits) as [c [r [d [-> Hd]]]].
    destruct (digit_is_no_mark _ _ _ Hd) as [-> [-> _]].
    rewrite Hparse. reflexivity.
  - rewrite Hparse. reflexivity.
  - rewrite Hparse. reflexivity.
Qed.

Lemma parseExponent_signed s x :
  JSNumber.parseExponent s = Some x ->
  exists sign negative digits n,
    s = sign ++ digits /\ In (sign, negative) signs /\ Numeral 10 digits n
    /\ x = (if negative then - Z.of_N n else Z.of_N n)%Z.
Proof.
  rewrite parseExponent_eq.
  assert (Hplain : option_map Z.of_N (JSNumber.parseWholeDigits 10 s) = Some x ->
                   exists sign negative digits n,
                     s = sign ++ digits /\ In (sign, negative) signs
                     /\ Numeral 10 digits n
                     /\ x = (if negative then - Z.of_N n else Z.of_N n)%Z).
  { destruct (JSNumber.parseWholeDigits 10 s) as [n |] eqn:E; [| discriminate].
    intros [= <-]. apply parseWholeDigits_Numeral in E.
    exists "", false, s, n. simpl. tauto. }
  destruct s as [| c r]; [exact Hplain |].
  destruct (Ascii.eqb_spec c "+") as [-> | _].
  { destruct (JSNumber.parseWholeDigits 10 r) as [n |] eqn:E; [| discriminate].
    intros [= <-]. apply parseWholeDigits_Numeral in E.
    exists "+", false, r, n. simpl. tauto. }
  destruct (Ascii.eqb_spec c "-") as [-> | _]; [| exact Hplain].
  destruct (JSNumber.parseWholeDigits 10 r) as [n |] eqn:E; [| discriminate].
  intros [= <-]. apply parseWholeDigits_Numeral in E.
  exists "-", true, r, n. simpl. tauto.
Qed.

(** What follows the digits of a decimal: nothing, or an exponent. *)
Lemma exponent_part neg mant nf text e :
  Exponent text e ->
  match text with
  | EmptyString => Some (JSNumber.LitDecimal neg mant (- Z.of_nat nf))
  | String c r3 =>
      if (Ascii.eqb c "e" || Ascii.eqb c "E")%bool
      then option_map (fun x => JSNumber.LitDecimal neg mant (x - Z.of_nat nf))
                      (JSNumber.parseExponent r3)
      else None
  end = Some (JSNumber.LitDecimal neg mant (e - Z.of_nat nf)).
Proof.
  destruct 1 as [| marker sign negative digits n Hmarker Hsign Hdigits].
  - reflexivity.
  - destruct Hmarker as [<- | [<- | []]]; simpl;
      rewrite (signed_exponent _ _ _ _ Hsign Hdigits); reflexivity.
Qed.

Lemma exponent_part_inv neg mant nf text l :
  match text with
  | EmptyString => Some (JSNumber.LitDecimal neg mant (- Z.of_nat nf))
  | String c r3 =>
      if (Ascii.eqb c "e" || Ascii.eqb c "E")%bool
      then option_map (fun x => JSNumber.LitDecimal neg mant (x - Z.of_nat nf))
                      (JSNumber.parseExponent r3)
      else None
  end = Some l ->
  exists e, Exponent text e /\ l = JSNumber.LitDecimal neg mant (e - Z.of_nat nf).
Proof.
  destruct text as [| c r3].
  - intros [= <-]. exists 0%Z. split; [apply no_exponent | reflexivity].
  - destruct (Ascii.eqb_spec c "e") as [-> | _];
      [| destruct (Ascii.eqb_spec c "E") as [-> | _]; [| discriminate]];
      simpl;
      (destruct (JSNumber.parseExponent r3) as [x |] eqn:E; [| discriminate]);
      intros [= <-];
      destruct (parseExponent_signed _ _ E)
        as [sign [negative [digits [n [-> [Hsign [Hdigits ->]]]]]]];
      eexists; (split; [| reflexivity]).
    + apply (some_exponent "e" sign negative digits n); simpl; tauto.
    + apply (some_exponent "E" sign negative digits n); simpl; tauto.
Qed.

Lemma Exponent_stops text e :
  Exponent text e ->
  match text with
  | EmptyString => True
  | String c _ => JSNumber.digitValue 10 c = None
  end.
Proof.
  destruct 1 as [| marker sign negative digits n Hmarker Hsign Hdigits];
    [exact I |].
  destruct Hmarker as [<- | [<- | []]]; reflexivity.
Qed.

(** *** Decimals *)

Lemma readDigits_DigitsOrNone s n rest acc cnt :
  DigitsOrNone s n ->
  match rest with
  | EmptyString => True
  | String c _ => JSNumber.digitValue 10 c = None
  end ->
  JSNumber.readDigits 10 (s ++ rest) acc cnt
  = ((acc * 10 ^ N.of_nat (String.length s) + n)%N,
     (cnt + String.length s)%nat, rest).
Proof.
  intros [| text m Hs] Hrest.
  - simpl append. rewrite (readDigits_stops _ _ _ _ Hrest).
    cbn [String.length N.of_nat].
    rewrite N.pow_0_r, N.mul_1_r, N.add_0_r, Nat.add_0_r. reflexivity.
  - rewrite (readDigits_Numeral _ _ _ Hs). apply readDigits_stops, Hrest.
Qed.

Lemma readDigits_DigitsOrNone_inv s acc cnt n cnt' r :
  JSNumber.readDigits 10 s acc cnt = (n, cnt', r) ->
  match r with
  | EmptyString => True
  | String c _ => JSNumber.digitValue 10 c = None
  end
  /\ exists p m,
      s = p ++ r /\ DigitsOrNone p m
      /\ n = (acc * 10 ^ N.of_nat (String.length p) + m)%N
      /\ cnt' = (cnt + String.length p)%nat.
Proof.
  intros H. apply readDigits_inv in H.
  destruct H as [Hr [[-> [-> ->]] | [p [m [-> [Hp [-> ->]]]]]]];
    (split; [exact Hr |]).
  - exists "", 0%N. split; [reflexivity |]. split; [apply no_digits |].
    cbn [String.length N.of_nat].
    rewrite N.pow_0_r, N.mul_1_r, N.add_0_r, Nat.add_0_r. auto.
  - exists p, m. split; [reflexivity |]. split; [apply some_digits, Hp | auto].
Qed.

Lemma DigitsOrNone_not_Infinity whole rest i :
  DigitsOrNone whole i ->
  String.eqb (whole ++ String "." rest) "Infinity" = false.
Proof.
  intros [| text m Hs]; [reflexivity |].
  destruct (Numeral_head _ _ _ Hs) as [c [r [d [-> Hd]]]].
  simpl. destruct (digit_is_no_mark _ _ _ Hd) as [_ [_ [_ ->]]]. reflexivity.
Qed.

Lemma Numeral_not_Infinity whole rest i :
  Numeral 10 whole i -> String.eqb (whole ++ rest) "Infinity" = false.
Proof.
  intros Hs.
  destruct (Numeral_head _ _ _ Hs) as [c [r [d [-> Hd]]]].
  simpl. destruct (digit_is_no_mark _ _ _ Hd) as [_ [_ [_ ->]]]. reflexivity.
Qed.

Lemma empty_append (a b : string) : a ++ b = "" -> a = "" /\ b = "".
Proof. destruct a; [simpl; auto | discriminate]. Qed.

Lemma UnsignedDecimal_parsed neg s m e :
  UnsignedDecimal s m e ->
  JSNumber.parseUnsignedDecimal neg s = Some (JSNumber.LitDecimal neg m e).
Proof.
  intros H. rewrite parseUnsignedDecimal_eq.
  destruct H as [whole fraction exponent i f e Hw Hf Hne He
                | whole exponent i e Hw He].
  - change ("." ++ fraction ++ exponent) with (String "." (fraction ++ exponent)).
    rewrite (DigitsOrNone_not_Infinity _ _ _ Hw).
    rewrite (readDigits_DigitsOrNone whole i _ 0 0 Hw) by reflexivity.
    cbv beta iota. change (Ascii.eqb "." ".") with true. cbv iota.
    rewrite (readDigits_DigitsOrNone fraction f exponent _ 0 Hf
               (Exponent_stops _ _ He)).
    cbv beta iota.
    destruct (0 + String.length whole + (0 + String.length fraction))%nat
      as [| k] eqn:Ek.
    { exfalso. apply Hne.
      destruct whole; [| discriminate Ek]. destruct fraction; [| discriminate Ek].
      reflexivity. }
    rewrite (exponent_part neg _ _ _ _ He).
    rewrite N.mul_0_l, N.add_0_l. reflexivity.
  - rewrite (Numeral_not_Infinity _ _ _ Hw).
    rewrite (readDigits_DigitsOrNone whole i exponent 0 0 (some_digits _ _ Hw)
               (Exponent_stops _ _ He)).
    cbv beta iota.
    assert (Hnext :
      match exponent with
      | String c r1' =>
          if Ascii.eqb c "." then JSNumber.readDigits 10 r1' (0 * 10 ^ N.of_nat (String.length whole) + i)%N 0%nat
          else ((0 * 10 ^ N.of_nat (String.length whole) + i)%N, 0%nat, exponent)
      | EmptyString => ((0 * 10 ^ N.of_nat (String.length whole) + i)%N, 0%nat, exponent)
      end = ((0 * 10 ^ N.of_nat (String.length whole) + i)%N, 0%nat, exponent)).
    { destruct He as [| marker sign negative digits n Hmarker Hsign Hdigits];
        [reflexivity |].
      destruct Hmarker as [<- | [<- | []]]; reflexivity. }
    rewrite Hnext. cbv beta iota.
    destruct (Numeral_length _ _ _ Hw) as [k ->].
    cbn [Nat.add].
    rewrite (exponent_part neg _ _ _ _ He).
    rewrite N.mul_0_l, N.add_0_l, Z.sub_0_r. reflexivity.
Qed.

Lemma parseUnsignedDecimal_inv neg s l :
  JSNumber.parseUnsignedDecimal neg s = Some l ->
  (s = "Infinity" /\ l = JSNumber.LitInfinity neg)
  \/ exists m e, l = JSNumber.LitDecimal neg m e /\ UnsignedDecimal s m e.
Proof.
  rewrite parseUnsignedDecimal_eq.
  destruct (String.eqb_spec s "Infinity") as [-> | _];
    [intros [= <-]; left; auto |].
  destruct (JSNumber.readDigits 10 s 0 0) as [[ip ni] r1] eqn:E1.
  apply readDigits_DigitsOrNone_inv in E1.
  destruct E1 as [Hstop1 [whole [i [-> [Hwhole [-> ->]]]]]].
  rewrite N.mul_0_l, N.add_0_l. cbn [Nat.add].
  assert (Hplain :
    match (String.length whole + 0)%nat with
    | O => None
    | S _ =>
        match r1 with
        | EmptyString => Some (JSNumber.LitDecimal neg i (- Z.of_nat 0))
        | String c r3 =>
            if (Ascii.eqb c "e" || Ascii.eqb c "E")%bool
            then option_map (fun x => JSNumber.LitDecimal neg i (x - Z.of_nat 0))
                            (JSNumber.parseExponent r3)
            else None
        end
    end = Some l ->
    exists m e, l = JSNumber.LitDecimal neg m e /\ UnsignedDecimal (whole ++ r1) m e).
  { destruct Hwhole as [| whole i Hwhole]; [discriminate |].
    destruct (Numeral_length _ _ _ Hwhole) as [k ->]. cbn [Nat.add].
    intros Htail. apply exponent_part_inv in Htail.
    destruct Htail as [e [He ->]].
    exists i, e. split; [rewrite Z.sub_0_r; reflexivity |].
    apply decimal_whole; assumption. }
  destruct r1 as [| c r1']; [intros H; right; apply Hplain, H |].
  destruct (Ascii.eqb_spec c ".") as [-> | _];
    [| intros H; right; apply Hplain, H].
  clear Hplain.
  destruct (JSNumber.readDigits 10 r1' i 0) as [[mant nf] r2] eqn:E2.
  apply readDigits_DigitsOrNone_inv in E2.
  destruct E2 as [Hstop2 [fraction [f [-> [Hfraction [-> ->]]]]]].
  cbn [Nat.add].
  destruct (String.length whole + String.length fraction)%nat as [| k] eqn:Ek;
    [discriminate |].
  intros Htail. apply exponent_part_inv in Htail.
  destruct Htail as [e [He ->]].
  right. do 2 eexists. split; [reflexivity |].
  apply (decimal_point whole fraction r2 i f e); try assumption.
  intros Hempty. apply empty_append in Hempty. destruct Hempty as [-> ->].
  discriminate Ek.
Qed.

Lemma UnsignedDecimal_head s m e :
  UnsignedDecimal s m e ->
  exists c r,
    s = String c r /\ Ascii.eqb c "+" = false /\ Ascii.eqb c "-" = false.
Proof.
  assert (Hnumeral : forall whole i rest,
             Numeral 10 whole i ->
             exists c r, whole ++ rest = String c r
                         /\ Ascii.eqb c "+" = false /\ Ascii.eqb c "-" = false).
  { intros whole i rest Hw.
    destruct (Numeral_head _ _ _ Hw) as [c [r [d [-> Hd]]]].
    destruct (digit_is_no_mark _ _ _ Hd) as [Hplus [Hminus _]].
    exists c, (r ++ rest). auto. }
  destruct 1 as [whole fraction exponent i f e Hw Hf Hne He
                | whole exponent i e Hw He].
  - destruct Hw as [| whole i Hw]; [| apply (Hnumeral _ _ _ Hw)].
    do 2 eexists. split; [reflexivity | split; reflexivity].
  - apply (Hnumeral _ _ _ Hw).
Qed.

(** A decimal literal is no literal in another base. *)
Lemma decimal_is_no_radix_literal neg s l :
  JSNumber.parseUnsignedDecimal neg s = Some l ->
  JSNumber.parseNonDecimal s = None.
Proof.
  intros H. rewrite parseNonDecimal_eq.
  destruct s as [| z [| c rest]]; try reflexivity.
  destruct (Ascii.eqb_spec z "0") as [-> | _]; [| reflexivity].
  destruct (Ascii.eqb_spec c "x") as [-> | _]; [simpl in H; discriminate H |].
  destruct (Ascii.eqb_spec c "X") as [-> | _]; [simpl in H; discriminate H |].
  destruct (Ascii.eqb_spec c "o") as [-> | _]; [simpl in H; discriminate H |].
  destruct (Ascii.eqb_spec c "O") as [-> | _]; [simpl in H; discriminate H |].
  destruct (Ascii.eqb_spec c "b") as [-> | _]; [simpl in H; discriminate H |].
  destruct (Ascii.eqb_spec c "B") as [-> | _]; [simpl in H; discriminate H |].
  reflexivity.
Qed.

(** *** Literals *)

Lemma literalValue_integer n :
  JSNumber.literalValue (JSNumber.LitInteger n) = nearest false n 0.
Proof.
  unfold nearest, JSNumber.literalValue.
  change (10 ^ Z.max 0 0)%Z with 1%Z. change (10 ^ Z.max (- 0) 0)%Z with 1%Z.
  rewrite Z.mul_1_r. reflexivity.
Qed.

(** The parser accepts every literal of the grammar, with its value. *)
Lemma NumericLiteral_parsed t x :
  NumericLiteral t x ->
  exists l, JSNumber.parseStrNumericLiteral t = Some l
            /\ JSNumber.literalValue l = x.
Proof.
  intros [sign negative Hsign
         | sign negative text m e Hsign Htext
         | prefix radix digits n Hprefix Hdigits].
  - destruct Hsign as [[= <- <-] | [[= <- <-] | [[= <- <-] | []]]];
      eexists; split; reflexivity.
  - exists (JSNumber.LitDecimal negative m e). split; [| reflexivity].
    rewrite parseStrNumericLiteral_eq.
    destruct Hsign as [[= <- <-] | [[= <- <-] | [[= <- <-] | []]]].
    + simpl append.
      assert (Hparsed := UnsignedDecimal_parsed false _ _ _ Htext).
      rewrite (decimal_is_no_radix_literal false text _ Hparsed).
      destruct (UnsignedDecimal_head _ _ _ Htext) as [c [r [E [Hplus Hminus]]]].
      subst text. cbv iota. rewrite Hplus, Hminus. exact Hparsed.
    + assert (Hparsed := UnsignedDecimal_parsed false _ _ _ Htext).
      rewrite parseNonDecimal_eq.
      destruct text as [| c r]; [discriminate Hparsed |].
      simpl append. cbv iota.
      change (Ascii.eqb "+" "0") with false.
      change (Ascii.eqb "+" "+") with true.
      cbv iota. exact Hparsed.
    + assert (Hparsed := UnsignedDecimal_parsed true _ _ _ Htext).
      rewrite parseNonDecimal_eq.
      destruct text as [| c r]; [discriminate Hparsed |].
      simpl append. cbv iota.
      change (Ascii.eqb "-" "0") with false.
      change (Ascii.eqb "-" "+") with false.
      change (Ascii.eqb "-" "-") with true.
      cbv iota. exact Hparsed.
  - exists (JSNumber.LitInteger n). split; [| apply literalValue_integer].
    rewrite parseStrNumericLiteral_eq, parseNonDecimal_eq.
    apply parseWholeDigits_Numeral in Hdigits.
    unfold radixPrefixes in Hprefix.
    repeat (destruct Hprefix as [[= <- <-] | Hprefix];
            [simpl; rewrite Hdigits; reflexivity |]).
    contradiction.
Qed.

(** What the parser accepts is a literal of the grammar. *)
Lemma parsed_NumericLiteral t l :
  JSNumber.parseStrNumericLiteral t = Some l ->
  NumericLiteral t (JSNumber.literalValue l).
Proof.
  rewrite parseStrNumericLiteral_eq.
  destruct (JSNumber.parseNonDecimal t) as [l' |] eqn:E.
  - intros [= <-]. rewrite parseNonDecimal_eq in E.
    destruct t as [| z [| c rest]]; try discriminate E.
    destruct (Ascii.eqb_spec z "0") as [-> | _]; [| discriminate E].
    assert (Hradix : forall (mark : ascii) (radix : N),
               In (String "0" (String mark ""), radix) radixPrefixes ->
               option_map JSNumber.LitInteger
                 (JSNumber.parseWholeDigits radix rest) = Some l' ->
               NumericLiteral (String "0" (String mark rest))
                              (JSNumber.literalValue l')).
    { intros mark radix Hin Hparse.
      destruct (JSNumber.parseWholeDigits radix rest) as [n |] eqn:En;
        [| discriminate Hparse].
      injection Hparse as <-. apply parseWholeDigits_Numeral in En.
      rewrite literalValue_integer.
      apply (literal_radix (String "0" (String mark "")) radix rest n Hin En). }
    destruct (Ascii.eqb_spec c "x") as [-> | _];
      [apply (Hradix _ 16%N); [simpl; tauto | exact E] |].
    destruct (Ascii.eqb_spec c "X") as [-> | _];
      [apply (Hradix _ 16%N); [simpl; tauto | exact E] |].
    destruct (Ascii.eqb_spec c "o") as [-> | _];
      [apply (Hradix _ 8%N); [simpl; tauto | exact E] |].
    destruct (Ascii.eqb_spec c "O") as [-> | _];
      [apply (Hradix _ 8%N); [simpl; tauto | exact E] |].
    destruct (Ascii.eqb_spec c "b") as [-> | _];
      [apply (Hradix _ 2%N); [simpl; tauto | exact E] |].
    destruct (Ascii.eqb_spec c "B") as [-> | _];
      [apply (Hradix _ 2%N); [simpl; tauto | exact E] |].
    discriminate E.
  - clear E.
    assert (Hsigned : forall sign negative text,
               In (sign, negative) signs ->
               JSNumber.parseUnsignedDecimal negative text = Some l ->
               NumericLiteral (sign ++ text) (JSNumber.literalValue l)).
    { intros sign negative text Hsign Hparse.
      apply parseUnsignedDecimal_inv in Hparse.
      destruct Hparse as [[-> ->] | [m [e [-> Htext]]]].
      - apply literal_infinity, Hsign.
      - apply (literal_decimal sign negative text m e Hsign Htext). }
    destruct t as [| c r]; [apply (Hsigned "" false ""); simpl; tauto |].
    destruct (Ascii.eqb_spec c "+") as [-> | _];
      [apply (Hsigned "+" false r); simpl; tauto |].
    destruct (Ascii.eqb_spec c "-") as [-> | _];
      [apply (Hsigned "-" true r); simpl; tauto |].
    apply (Hsigned "" false (String c r)); simpl; tauto.
Qed.

(** A literal is made of visible ASCII characters, one at least. *)
Lemma Numeral_visible radix s n : Numeral radix s n -> visibleAscii s = true.
Proof.
  assert (Hdigit : forall c d, digit radix c d ->
                     visibleAscii (String c "") = true).
  { intros c d Hd. each_digit Hd. }
  induction 1 as [c d Hd | c d s n Hd Hs IH].
  - apply (Hdigit _ _ Hd).
  - change (String c s) with (String c "" ++ s).
    rewrite visibleAscii_append, (Hdigit _ _ Hd), IH. reflexivity.
Qed.

Lemma DigitsOrNone_visible s n : DigitsOrNone s n -> visibleAscii s = true.
Proof. intros [| text m Hs]; [reflexivity | apply (Numeral_visible _ _ _ Hs)]. Qed.

Lemma sign_visible sign negative :
  In (sign, negative) signs -> visibleAscii sign = true.
Proof. intros [[= <- <-] | [[= <- <-] | [[= <- <-] | []]]]; reflexivity. Qed.

Lemma Exponent_visible text e : Exponent text e -> visibleAscii text = true.
Proof.
  destruct 1 as [| marker sign negative digits n Hmarker Hsign Hdigits];
    [reflexivity |].
  rewrite !visibleAscii_append, (sign_visible _ _ Hsign),
    (Numeral_visible _ _ _ Hdigits).
  destruct Hmarker as [<- | [<- | []]]; reflexivity.
Qed.

Lemma UnsignedDecimal_visible s m e :
  UnsignedDecimal s m e -> visibleAscii s = true /\ s <> "".
Proof.
  destruct 1 as [whole fraction exponent i f e Hw Hf Hne He
                | whole exponent i e Hw He].
  - split.
    + rewrite !visibleAscii_append, (DigitsOrNone_visible _ _ Hw),
        (DigitsOrNone_visible _ _ Hf), (Exponent_visible _ _ He). reflexivity.
    + intros E. apply empty_append in E. destruct E as [_ E]. discriminate E.
  - split.
    + rewrite visibleAscii_append, (Numeral_visible _ _ _ Hw),
        (Exponent_visible _ _ He). reflexivity.
    + intros E. apply empty_append in E. destruct E as [-> _].
      destruct (Numeral_length _ _ _ Hw) as [k Hk]. discriminate Hk.
Qed.

Lemma NumericLiteral_visible t x :
  NumericLiteral t x -> visibleAscii t = true /\ t <> "".
Proof.
  intros [sign negative Hsign
         | sign negative text m e Hsign Htext
         | prefix radix digits n Hprefix Hdigits].
  - split.
    + rewrite visibleAscii_append, (sign_visible _ _ Hsign). reflexivity.
    + intros E. apply empty_append in E. destruct E as [_ E]. discriminate E.
  - destruct (UnsignedDecimal_visible _ _ _ Htext) as [Hvisible Hne]. split.
    + rewrite visibleAscii_append, (sign_visible _ _ Hsign), Hvisible.
      reflexivity.
    + intros E. apply empty_append in E. tauto.
  - split.
    + rewrite visibleAscii_append, (Numeral_visible _ _ _ Hdigits).
      unfold radixPrefixes in Hprefix.
      repeat (destruct Hprefix as [[= <- <-] | Hprefix]; [reflexivity |]).
      contradiction.
    + intros E. apply empty_append in E. destruct E as [_ ->].
      destruct (Numeral_length _ _ _ Hdigits) as [k Hk]. discriminate Hk.
Qed.

Lemma roundToBinary64_is_a_number neg p q :
  JSNumber.isNaN (JSNumber.roundToBinary64 neg p q) = false.
Proof.
  unfold JSNumber.roundToBinary64. lazy zeta.
  match goal with
  | |- JSNumber.isNaN (match ?m with _ => _ end) = false => destruct m
  end; try reflexivity.
  match goal with
  | |- JSNumber.isNaN (if ?b then _ else _) = false => destruct b
  end; reflexivity.
Qed.

Lemma literalValue_is_a_number l :
  JSNumber.isNaN (JSNumber.literalValue l) = false.
Proof. destruct l; [reflexivity | |]; apply roundToBinary64_is_a_number. Qed.

(** [Number] of a text that is a literal between runs of white space. *)
Lemma StringToNumber_parsesFullyAs text x :
  parsesFullyAs text x ->
  JSString.isEmpty (JSString.trim text) = false
  /\ JSNumber.StringToNumber (JSString.trim text) = x
  /\ JSNumber.isNaN x = false.
Proof.
  intros [before [literal [after [-> [Hbefore [Hafter Hliteral]]]]]].
  destruct (NumericLiteral_visible _ _ Hliteral) as [Hvisible Hne].
  destruct (NumericLiteral_parsed _ _ Hliteral) as [l [Hparse <-]].
  rewrite (trim_visible _ _ _ Hbefore Hafter Hvisible Hne).
  assert (Htrim : JSString.trim literal = literal).
  { pose proof (trim_visible "" literal "" blank_none blank_none Hvisible Hne)
      as H.
    change ("" ++ literal ++ "") with (literal ++ "") in H.
    rewrite append_empty_r in H. exact H. }
  unfold JSNumber.StringToNumber. rewrite Htrim.
  destruct literal as [| c r]; [congruence |].
  rewrite Hparse.
  split; [reflexivity |]. split; [reflexivity | apply literalValue_is_a_number].
Qed.

(** A text that [trim] leaves non-empty and [Number] makes a number of
    parses fully as that number. *)
Lemma parsesFullyAs_StringToNumber text :
  JSString.isEmpty (JSString.trim text) = false ->
  JSNumber.isNaN (JSNumber.StringToNumber (JSString.trim text)) = false ->
  parsesFullyAs text (JSNumber.StringToNumber (JSString.trim text)).
Proof.
  intros Hne Hnumber.
  destruct (trim_removes_blank text) as [before [after [Hbefore [Hafter E]]]].
  exists before, (JSString.trim text), after.
  split; [exact E |]. split; [exact Hbefore |]. split; [exact Hafter |].
  unfold JSNumber.StringToNumber in *.
  rewrite trim_idempotent in *.
  destruct (JSString.trim text) as [| c r]; [discriminate Hne |].
  destruct (JSNumber.parseStrNumericLiteral (String c r)) as [l |] eqn:Hparse;
    [| discriminate Hnumber].
  apply parsed_NumericLiteral, Hparse.
Qed.

(** ** Trimming and coercion *)

Lemma whiteSpaceCharacter_length w :
  In w whiteSpaceCharacters -> (0 < String.length w)%nat.
Proof.
  unfold whiteSpaceCharacters. cbn [map utf8 fold_right]. intros Hin.
  repeat (destruct Hin as [<- | Hin]; [simpl; lia |]).
  contradiction.
Qed.

(** What [trim] leaves neither starts nor ends with white space. *)
Lemma trimmed_has_no_blank_end t w rest :
  JSString.trim t = t ->
  In w whiteSpaceCharacters ->
  t <> w ++ rest /\ t <> rest ++ w.
Proof.
  intros Htrim Hw.
  pose proof (whiteSpaceCharacter_length w Hw) as Hlen.
  split; intros ->.
  - unfold JSString.trim, JSString.trimStart in Htrim.
    rewrite (proj1 (strip_character w rest Hw)) in Htrim.
    apply (f_equal String.length) in Htrim.
    pose proof (length_trimEnd (JSString.strip false rest)).
    pose proof (strip_length false rest).
    rewrite length_append in Htrim. lia.
  - assert (Hstart : JSString.trimStart (rest ++ w) = rest ++ w).
    { destruct (strip_removes_blank false (rest ++ w)) as [blank [_ E]].
      unfold JSString.trimStart.
      assert (Hblank : blank = "").
      { apply (append_eq_length blank (JSString.strip false (rest ++ w))).
        rewrite <- E.
        apply (f_equal String.length) in Htrim.
        unfold JSString.trim, JSString.trimStart in Htrim.
        pose proof (length_trimEnd (JSString.strip false (rest ++ w))).
        pose proof (strip_length false (rest ++ w)). lia. }
      rewrite Hblank in E. symmetry. exact E. }
    unfold JSString.trim in Htrim. rewrite Hstart in Htrim.
    rewrite (trimEnd_blank rest w (Blank_character w Hw)) in Htrim.
    apply (f_equal String.length) in Htrim.
    pose proof (length_trimEnd rest).
    rewrite length_append in Htrim. lia.
Qed.

(** [sanitizeZoneName] rejects what is neither a text nor nullish, maps
    [null] and [undefined] to [undefined], and returns of a text what is
    left once the white space it starts and ends with is removed: a text
    that neither starts nor ends with a white space character, and that
    it maps to itself. *)
Theorem sanitizeZoneName_returns_a_trimmed_text zoneName :
  match ValidationHelper.sanitizeZoneName zoneName with
  | Returns None => zoneName = VNull \/ zoneName = VUndefined
  | Returns (Some trimmed) =>
      (exists before after,
          zoneName = VStr (before ++ trimmed ++ after)
          /\ Blank before /\ Blank after)
      /\ (forall character rest,
             In character whiteSpaceCharacters ->
             trimmed <> character ++ rest /\ trimmed <> rest ++ character)
      /\ ValidationHelper.sanitizeZoneName (VStr trimmed) = Returns (Some trimmed)
  | Throws failure =>
      message failure = "Zone name must be a string"
      /\ JS.typeof zoneName <> "string"
      /\ zoneName <> VNull /\ zoneName <> VUndefined
  end.
Proof.
  destruct zoneName as [ | | b | x | s | items | props ]; simpl; try tauto;
    try (repeat split; discriminate).
  split; [| split].
  - destruct (trim_removes_blank s) as [before [after [Hbefore [Hafter E]]]].
    exists before, after. rewrite <- E. auto.
  - intros character rest Hin.
    apply trimmed_has_no_blank_end; [apply trim_idempotent | exact Hin].
  - rewrite trim_idempotent. reflexivity.
Qed.

(** C2.  The coercion of a capability value follows the rules one by
    one.  [null] and an absent value are validation errors; a boolean and
    a finite number are returned unchanged; NaN and the infinities are
    validation errors; the texts "true" and "false" give the booleans; the
    empty text is a validation error; any other text that parses fully as
    a number - one numeric literal, white space around it aside - gives
    that number, and one that does not is returned unchanged; an array or
    an object is a validation error that names the type [object].  So
    "42", " 42 " and "0x2A" give the number 42, "-4.2e1" gives -42,
    "Infinity" the number Infinity, and "42px", "4 2" and " " are
    returned as they are. *)
Theorem validateCapabilityValue_follows_rules :
  (forall raw,
      coercionRules raw (ValidationHelper.validateCapabilityValue raw))
  /\ ValidationHelper.validateCapabilityValue (VStr "42")
     = Returns (binary64 false 5910974510923776 (-47))
  /\ ValidationHelper.validateCapabilityValue
       (VStr (utf8 [194; 160] ++ " 42" ++ utf8 [9; 226; 128; 137]))
     = Returns (binary64 false 5910974510923776 (-47))
  /\ ValidationHelper.validateCapabilityValue (VStr "0x2A")
     = Returns (binary64 false 5910974510923776 (-47))
  /\ ValidationHelper.validateCapabilityValue (VStr "-4.2e1")
     = Returns (binary64 true 5910974510923776 (-47))
  /\ ValidationHelper.validateCapabilityValue (VStr "Infinity")
     = Returns (VNum (S754_infinity false))
  /\ ValidationHelper.validateCapabilityValue (VStr "42px")
     = Returns (VStr "42px")
  /\ ValidationHelper.validateCapabilityValue (VStr "4 2")
     = Returns (VStr "4 2")
  /\ ValidationHelper.validateCapabilityValue (VStr " ")
     = Returns (VStr " ").
Proof.
  split; [| repeat split; vm_compute; reflexivity].
  intros [ | | b | x | s | items | props ].
  - eexists. reflexivity.
  - eexists. reflexivity.
  - reflexivity.
  - destruct x; simpl; try reflexivity; eexists; reflexivity.
  - unfold coercionRules, ValidationHelper.validateCapabilityValue.
    destruct s as [| c r]; [eexists; reflexivity |].
    set (s := String c r).
    change (String.eqb s "") with false.
    change (JSString.isEmpty s) with false.
    cbv iota.
    destruct (String.eqb s "true"); [reflexivity |].
    destruct (String.eqb s "false"); [reflexivity |].
    destruct (negb (JSString.isEmpty (JSString.trim s))
              && negb (JSNumber.isNaN
                         (JSNumber.StringToNumber (JSString.trim s))))%bool
      eqn:Enumber.
    + apply andb_prop in Enumber. destruct Enumber as [Hne Hnumber].
      apply negb_true_iff in Hne, Hnumber.
      pose proof (parsesFullyAs_StringToNumber s Hne Hnumber) as Hparses.
      split; [| split].
      * intros x Hx.
        destruct (StringToNumber_parsesFullyAs s x Hx) as [_ [<- _]].
        reflexivity.
      * intros Hnone. destruct (Hnone _ Hparses).
      * left. eexists. exact Hparses.
    + assert (Hnone : forall x, ~ parsesFullyAs s x).
      { intros x Hx.
        destruct (StringToNumber_parsesFullyAs s x Hx) as [Hne [Hvalue Hnumber]].
        rewrite Hne, Hvalue, Hnumber in Enumber. discriminate Enumber. }
      split; [| split].
      * intros x Hx. destruct (Hnone x Hx).
      * reflexivity.
      * right. exact Hnone.
  - eexists. split; [reflexivity |].
    exists "Invalid capability value type: expected string, number, or boolean, ",
      "". reflexivity.
  - eexists. split; [reflexivity |].
    exists "Invalid capability value type: expected string, number, or boolean, ",
      "". reflexivity.
Qed.

(* ================================================================== *)
(** * Instances *)

Lemma accentedHost_consistent : consistentCollation accentedHost.
Proof.
  destruct asciiHost_consistent as [Htrans Htotal]. split.
  - intros a b c. exact (Htrans (unaccented a) (unaccented b) (unaccented c)).
  - intros a b. exact (Htotal (unaccented a) (unaccented b)).
Qed.

Lemma unknown_tool_is_rejected_before_the_provider_witness :
  (forall o,
      ~ invokes (HomeyMCPServer.handleMCPRequest asciiHost notReady
                   setSceneRequest) o)
  /\ HomeyMCPServer.handleMCPRequest asciiHost notReady setSceneRequest
     = Ret (Returns (JSONRPCError (VStr "r-1") (-32603) "Tool failed: set_scene"
                       (Some "Unknown tool: set_scene"))).
Proof.
  destruct (unknown_tool_is_rejected_before_the_provider asciiHost
              notReady setSceneRequest) as [Hnone Hanswer].
  - reflexivity.
  - intros tool Hin. simpl in Hin.
    repeat (destruct Hin as [<- | Hin]; [discriminate |]).
    contradiction.
  - split; [exact Hnone | apply (Hanswer "set_scene"); reflexivity].
Defined.

Lemma response_id_echoes_request_id_witness :
  answeredWithItsId home tt asciiHost ready (toolCall "list_zones" []).
Proof.
  destruct (response_id_echoes_request_id asciiHost home tt ready
              (toolCall "list_zones" [])) as [_ Hanswered].
  apply Hanswered.
  split; [exists "tools/call"; reflexivity |].
  intros _. exists "list_zones". reflexivity.
Defined.

Lemma trigger_flow_reports_the_flow_and_never_mutates_witness :
  (exists text,
      run home (HomeyMCPServer.handleMCPRequest asciiHost ready
                  (toolCall "trigger_flow" [("flow_id", VStr "flow-1")])) tt
      = (Returns (JSONRPCResponse (VStr "r-1") (ToolCallResult text)),
         tt, [GetFlow "flow-1"])
      /\ describesUntriggeredFlow text "flow-1" morning)
  /\ (exists text,
         run busyHome (HomeyMCPServer.handleMCPRequest asciiHost ready
                         (toolCall "trigger_flow" [("flow_id", VStr "flow-2")])) tt
         = (Returns (JSONRPCResponse (VStr "r-1") (ToolCallResult text)),
            tt, [GetFlow "flow-2"])
         /\ describesUntriggeredFlow text "flow-2" evening).
Proof.
  split.
  - destruct (trigger_flow_reports_the_flow_and_never_mutates asciiHost
                home tt tt ready AppAPI
                (toolCall "trigger_flow" [("flow_id", VStr "flow-1")])
                "flow-1" morning
                eq_refl eq_refl eq_refl ltac:(discriminate) eq_refl eq_refl)
      as [_ Htext].
    exact Htext.
  - destruct (trigger_flow_reports_the_flow_and_never_mutates asciiHost
                busyHome tt tt ready AppAPI
                (toolCall "trigger_flow" [("flow_id", VStr "flow-2")])
                "flow-2" evening
                eq_refl eq_refl eq_refl ltac:(discriminate) eq_refl eq_refl)
      as [_ Htext].
    exact Htext.
Defined.

Lemma list_zones_orders_names_by_the_host_collation_witness :
  result (run home (HomeyTools.listZones asciiHost (HomeyTools.mk (Some AppAPI))) tt)
  = Returns ("Found 3 zone(s):" ++ nl ++ nl
             ++ "1. attic" ++ nl ++ "   ID: z-attic" ++ nl ++ nl
             ++ "2. Bedroom" ++ nl ++ "   ID: z-bedroom" ++ nl ++ nl
             ++ "3. Kitchen" ++ nl ++ "   ID: z-kitchen" ++ nl ++ nl)
  /\ exists listed,
      run farm (HomeyTools.listZones accentedHost (HomeyTools.mk (Some AppAPI))) tt
      = (Returns (zoneListing listed), tt, [GetZones])
      /\ Permutation listed (zonesOf stables)
      /\ StronglySorted (collatesBefore accentedHost) (map snd listed).
Proof.
  split.
  - destruct (list_zones_orders_names_by_the_host_collation asciiHost
                home tt tt (HomeyTools.mk (Some AppAPI)) AppAPI rooms
                asciiHost_consistent eq_refl eq_refl) as [_ Hrooms].
    apply Hrooms; [reflexivity | |];
      unfold collatesBefore; vm_compute; intros H; apply H; reflexivity.
  - destruct (list_zones_orders_names_by_the_host_collation accentedHost
                farm tt tt (HomeyTools.mk (Some AppAPI)) AppAPI stables
                accentedHost_consistent eq_refl eq_refl)
      as [[listed [E [Hperm [Hsorted _]]]] _].
    exists listed. auto.
Defined.

Lemma list_devices_filters_by_non_empty_zone_witness :
  listDevicesFiltersBy home tt asciiHost (HomeyTools.mk (Some AppAPI)) "kitchen"
  /\ result (run home (HomeyTools.listDevices asciiHost
                         (HomeyTools.mk (Some AppAPI)) (VStr "")) tt)
     = Returns (deviceListing (map (entryOf rooms) (JS.entries [("lamp-1", lamp)]))).
Proof.
  split.
  - destruct (list_devices_filters_by_non_empty_zone asciiHost home tt
                (HomeyTools.mk (Some AppAPI)) AppAPI "kitchen" eq_refl)
      as [Hfilter _].
    apply Hfilter. discriminate.
  - destruct (list_devices_filters_by_non_empty_zone asciiHost home tt
                (HomeyTools.mk (Some AppAPI)) AppAPI "" eq_refl)
      as [_ Hall].
    apply (Hall eq_refl [("lamp-1", lamp)] rooms tt tt); reflexivity.
Defined.


Lemma list_devices_compares_the_untrimmed_filter_witness :
  ValidationHelper.sanitizeZoneName (VStr " Kitchen ") = Returns (Some "Kitchen")
  /\ result (run home
               (HomeyMCPServer.handleMCPRequest asciiHost ready
                  (toolCall "list_devices" [("zone", VStr " Kitchen ")])) tt)
     = Returns (JSONRPCResponse (VStr "r-1") (ToolCallResult "No devices found.")).
Proof.
  destruct (list_devices_compares_the_untrimmed_filter asciiHost)
    as [Htrimmed [Hnone _]].
  - intros s _. reflexivity.
  - split; [exact Htrimmed | exact Hnone].
Defined.

Lemma failed_handle_creation_leaves_the_tools_uninitialized_witness :
  (run unreachable (HomeyMCPServer.initialize None) tt
   = ((notReady, Some notReady), tt, [CreateAppAPI])
   /\ exists diagnostic,
       HomeyMCPServer.handleMCPRequest asciiHost notReady
         (toolCall "control_device"
            [("device_id", VStr "lamp-1"); ("capability", VStr "onoff");
             ("value", VBool true)])
       = Ret (Returns (JSONRPCError (VStr "r-1") (-32603)
                         "Tool failed: control_device" (Some diagnostic)))
       /\ contains diagnostic "HomeyAPI not initialized")
  /\ (run probeFails (HomeyMCPServer.initialize None) tt
      = ((ready, Some ready), tt, [CreateAppAPI; GetDevices])
      /\ calls (run probeFails
                  (HomeyMCPServer.handleMCPRequest asciiHost ready
                     (toolCall "list_zones" [])) tt)
         <> []).
Proof.
  split.
  - destruct (failed_handle_creation_leaves_the_tools_uninitialized asciiHost
                unreachable tt tt (Throws (mkError "connect ECONNREFUSED"))
                eq_refl)
      as [Hpublished [_ Hcalls]].
    split; [exact Hpublished |].
    destruct (Hcalls
                (toolCall "control_device"
                   [("device_id", VStr "lamp-1"); ("capability", VStr "onoff");
                    ("value", VBool true)])
                "control_device" eq_refl eq_refl)
      as [diagnostic [Hanswer Hreads]].
    + unfold toolNames; simpl; tauto.
    + exists diagnostic. split; [exact Hanswer |]. apply Hreads.
      split; [reflexivity | eexists; reflexivity].
  - destruct (failed_handle_creation_leaves_the_tools_uninitialized asciiHost
                probeFails tt tt (Returns AppAPI) eq_refl
                (mkError "socket hang up") tt eq_refl)
      as [Hpublished Hcalls].
    split; [exact Hpublished |].
    apply (Hcalls (toolCall "list_zones" []) "list_zones" tt eq_refl eq_refl).
    + unfold toolNames; simpl; tauto.
    + split; [reflexivity | eexists; reflexivity].
Defined.

(** ** Instances for the tools and the entry point *)

Lemma tool_failures_name_their_context_witness :
  exists cause,
    message (mkError
               "Failed to list zones: HomeyAPI not initialized. Call initialize() first.")
    = "Failed to " ++ failureContext "list_zones" ++ ": " ++ cause.
Proof.
  apply (tool_failures_name_their_context asciiHost home tt notReady
           "list_zones" (VObj [])).
  - reflexivity.
  - do 3 right. left. reflexivity.
  - reflexivity.
Defined.

Lemma invalid_identifier_fails_before_the_provider_witness :
  exists reason,
    HomeyMCPServer.executeTool asciiHost ready (VStr "control_device")
      (VObj [("device_id", VStr "")])
    = Ret (Throws (mkError ("Failed to " ++ failureContext "control_device"
                              ++ ": " ++ reason)))
    /\ contains reason "must be a non-empty string".
Proof.
  apply (invalid_identifier_fails_before_the_provider asciiHost ready
           "control_device" (VObj [("device_id", VStr "")])).
  - reflexivity.
  - right. left. reflexivity.
  - reflexivity.
Defined.

Lemma non_object_arguments_read_as_empty_witness :
  HomeyMCPServer.executeTool asciiHost ready (VStr "list_devices") (VStr "all")
  = HomeyMCPServer.executeTool asciiHost ready (VStr "list_devices") (VObj []).
Proof.
  apply (non_object_arguments_read_as_empty asciiHost ready
           (VStr "list_devices") (VStr "all")).
  - reflexivity.
  - intros props. discriminate.
Defined.

Lemma params_that_are_no_object_name_no_tool_witness :
  HomeyMCPServer.handleMCPRequest asciiHost ready
    (mkRequest (VStr "r-2") (VStr "tools/call") VUndefined)
  = Ret (Returns (JSONRPCError (VStr "r-2") (-32603)
                    "Tool failed: undefined" (Some "Unknown tool: undefined"))).
Proof.
  apply (params_that_are_no_object_name_no_tool asciiHost ready
           (mkRequest (VStr "r-2") (VStr "tools/call") VUndefined)).
  - reflexivity.
  - intros props. discriminate.
Defined.

Lemma nullish_lookups_are_reported_as_not_found_witness :
  run busyHome (HomeyTools.getDeviceInfo (HomeyTools.mk (Some AppAPI)) (VStr "ghost")) tt
  = (Throws (mkError "Failed to get device info: Device not found: ghost"),
     tt, [GetDevice "ghost"])
  /\ run busyHome (HomeyTools.triggerFlow (HomeyTools.mk (Some AppAPI)) (VStr "ghost")) tt
     = (Throws (mkError "Failed to get flow information: Flow not found: ghost"),
        tt, [GetFlow "ghost"])
  /\ run busyHome (HomeyTools.getFlowInfo (HomeyTools.mk (Some AppAPI)) (VStr "ghost")) tt
     = (Throws (mkError "Failed to get flow info: Flow not found: ghost"),
        tt, [GetFlow "ghost"]).
Proof.
  destruct (nullish_lookups_are_reported_as_not_found busyHome tt tt
              (HomeyTools.mk (Some AppAPI)) AppAPI "ghost")
    as [Hdevice Hflow].
  - reflexivity.
  - discriminate.
  - split.
    + apply (Hdevice Null); [intros device; discriminate | reflexivity].
    + apply (Hflow Undefined); [intros flow; discriminate | reflexivity].
Defined.

Lemma list_devices_asks_for_devices_and_zones_together_witness :
  run probeFails (HomeyTools.listDevices asciiHost (HomeyTools.mk (Some AppAPI))
                    VUndefined) tt
  = (Throws (mkError "Failed to list devices: socket hang up"), tt,
     [GetDevices; GetZones]).
Proof.
  apply (list_devices_asks_for_devices_and_zones_together asciiHost
           probeFails tt tt tt
           (HomeyTools.mk (Some AppAPI)) AppAPI VUndefined
           (Throws (mkError "socket hang up")) (Returns rooms)
           (mkError "socket hang up")).
  - reflexivity.
  - reflexivity.
  - reflexivity.
  - left. split; [reflexivity | exists rooms; reflexivity].
Defined.


Lemma only_control_device_changes_the_platform_witness :
  SetCapabilityValue "lamp-1" "onoff" (VBool true) <> CreateAppAPI
  /\ forall deviceId capability v,
      SetCapabilityValue "lamp-1" "onoff" (VBool true)
      = SetCapabilityValue deviceId capability v ->
      let request :=
        toolCall "control_device"
          [("device_id", VStr "lamp-1"); ("capability", VStr "onoff");
           ("value", VBool true)] in
      req_method request = VStr "tools/call"
      /\ HomeyMCPServer.toolName request = VStr "control_device"
      /\ JS.get (HomeyMCPServer.toolArgs request) "device_id" = VStr deviceId
      /\ JS.get (HomeyMCPServer.toolArgs request) "capability" = VStr capability
      /\ JS.get (HomeyMCPServer.toolArgs request) "value" = v.
Proof.
  apply (only_control_device_changes_the_platform asciiHost ready
           (toolCall "control_device"
              [("device_id", VStr "lamp-1"); ("capability", VStr "onoff");
               ("value", VBool true)])
           (SetCapabilityValue "lamp-1" "onoff" (VBool true))).
  simpl. left. reflexivity.
Defined.

Lemma protocol_methods_need_no_provider_witness :
  exists payload,
    (forall this params,
        HomeyMCPServer.handleMCPRequest asciiHost this
          (mkRequest (VStr "r-1") (VStr "tools/list") params)
        = Ret (Returns (JSONRPCResponse (VStr "r-1") payload)))
    /\ (VStr "tools/list" = VStr "tools/list" ->
        payload = ToolsListResult HomeyMCPServer.getToolDefinitions)
    /\ (VStr "tools/list" = VStr "initialize" ->
        payload = InitializeResult "2024-11-05" "homey-mcp-server" "1.0.0").
Proof.
  apply (protocol_methods_need_no_provider asciiHost (VStr "r-1")
           (VStr "tools/list")).
  right. reflexivity.
Defined.

Lemma mcp_always_answers_witness :
  (exists r, result (run home (Api.mcp asciiHost None VNull) tt) = Returns r)
  /\ run home (Api.mcp asciiHost None VNull) tt
     = (Returns (JSONRPCError VNull (-32603) "Internal error"
                   (Some "MCP Server not initialized")), tt, [])
  /\ exists diagnostic,
      run home (Api.mcp asciiHost None VNull) tt
      = (Returns (JSONRPCError VNull (-32603) "Internal error" (Some diagnostic)),
         tt, []).
Proof.
  destruct (mcp_always_answers asciiHost home tt None VNull)
    as [Hanswer [Hnone Hnullish]].
  split; [exact Hanswer | split].
  - apply Hnone. reflexivity.
  - apply Hnullish. right. reflexivity.
Defined.

Lemma tools_initialize_keeps_the_handle_it_created_witness :
  exists ended w2,
    run probeFails (HomeyTools.initialize HomeyTools.create) tt
    = ((ended, HomeyTools.mk (Some AppAPI)), w2, [CreateAppAPI; GetDevices])
    /\ ended = Throws (mkError "socket hang up").
Proof.
  apply (tools_initialize_keeps_the_handle_it_created probeFails tt tt
           HomeyTools.create (Returns AppAPI)).
  reflexivity.
Defined.

Lemma validateCapabilityValue_results_witness :
  JSNumber.isNaN (S754_finite false 5910974510923776 (-47)) = false
  /\ (notInfinite (VNum (S754_finite false 5910974510923776 (-47))) ->
      ValidationHelper.validateCapabilityValue
        (VNum (S754_finite false 5910974510923776 (-47)))
      = Returns (VNum (S754_finite false 5910974510923776 (-47)))).
Proof.
  apply (validateCapabilityValue_results (VStr "42")
           (VNum (S754_finite false 5910974510923776 (-47)))).
  vm_compute. reflexivity.
Defined.

Lemma extractCapabilityValues_reads_the_value_fields_witness :
  JS.lookup
    (HomeyTools.extractCapabilityValues
       (Some [("onoff", VObj [("value", VBool true); ("title", VStr "On")]);
              ("dim", VObj [("title", VStr "Dim")])]))
    "onoff"
  = Some (VBool true).
Proof.
  apply (extractCapabilityValues_reads_the_value_fields
           [("onoff", VObj [("value", VBool true); ("title", VStr "On")]);
            ("dim", VObj [("title", VStr "Dim")])]
           "onoff").
  - simpl. constructor.
    + simpl. intros [H | []]. discriminate H.
    + constructor; [intros [] | constructor].
  - discriminate.
Defined.


Lemma control_device_sets_then_names_the_device_witness :
  run home (HomeyTools.controlDevice (HomeyTools.mk (Some AppAPI))
              (VStr "lamp-1") (VStr "onoff") (VStr "true")) tt
  = (Returns ("Successfully set onoff to true for device " ++ dquote ++ "Lamp"
              ++ dquote ++ " (lamp-1)"),
     tt,
     [SetCapabilityValue "lamp-1" "onoff" (VStr "true"); GetDevice "lamp-1"]).
Proof.
  apply (control_device_sets_then_names_the_device home tt tt tt
           (HomeyTools.mk (Some AppAPI)) AppAPI "lamp-1" "onoff" (VStr "true")
           "true" lamp).
  - reflexivity.
  - discriminate.
  - discriminate.
  - reflexivity.
  - reflexivity.
  - reflexivity.
Defined.

Lemma control_device_stops_when_the_set_fails_witness :
  run readOnlyHome (HomeyTools.controlDevice (HomeyTools.mk (Some AppAPI))
                      (VStr "lamp-1") (VStr "onoff") (VBool true)) tt
  = (Throws (mkError "Failed to control device: Missing Scopes"), tt,
     [SetCapabilityValue "lamp-1" "onoff" (VBool true)])
  /\ run readOnlyHome (HomeyTools.controlDevice (HomeyTools.mk (Some AppAPI))
                         (VStr "lamp-1") (VStr "onoff") unprintable) tt
     = (Throws (mkError
                  "Failed to control device: Cannot convert object to primitive value"),
        tt, []).
Proof.
  split.
  - apply (control_device_stops_when_the_set_fails readOnlyHome tt tt
             (HomeyTools.mk (Some AppAPI)) AppAPI "lamp-1" "onoff" (VBool true)
             (mkError "Missing Scopes")).
    + reflexivity.
    + discriminate.
    + discriminate.
    + reflexivity.
  - apply (control_device_stops_when_the_set_fails readOnlyHome tt tt
             (HomeyTools.mk (Some AppAPI)) AppAPI "lamp-1" "onoff" unprintable
             (mkError "Missing Scopes")).
    + reflexivity.
    + discriminate.
    + discriminate.
    + reflexivity.
Defined.

Lemma list_flows_keeps_enabled_flows_on_request_witness :
  run busyHome (HomeyTools.listFlows (HomeyTools.mk (Some AppAPI)) (VBool true)) tt
  = (Returns ("Found 1 flow(s):" ++ nl ++ nl
              ++ "1. Evening" ++ nl ++ "   ID: flow-2" ++ nl
              ++ "   Enabled: Yes" ++ nl ++ nl),
     tt, [GetFlows]).
Proof.
  apply (list_flows_keeps_enabled_flows_on_request busyHome tt tt
           (HomeyTools.mk (Some AppAPI)) AppAPI
           [("flow-1", morning); ("flow-2", evening); ("flow-3", unnamed)]
           (VBool true)).
  - reflexivity.
  - reflexivity.
Defined.

Lemma list_devices_without_a_text_filter_witness :
  run home (HomeyTools.listDevices asciiHost (HomeyTools.mk (Some AppAPI)) (VStr "")) tt
  = (Returns ("Found 1 device(s):" ++ nl ++ nl
              ++ "1. Lamp" ++ nl ++ "   ID: lamp-1" ++ nl
              ++ "   Zone: Kitchen" ++ nl ++ "   Class: light" ++ nl
              ++ "   Available: Yes" ++ nl
              ++ "   Capabilities: onoff, dim, measure_power" ++ nl ++ nl),
     tt, [GetDevices; GetZones])
  /\ run home (HomeyTools.listDevices asciiHost (HomeyTools.mk (Some AppAPI))
                 (VBool true)) tt
     = (Throws (mkError "Failed to list devices: zone.toLowerCase is not a function"),
        tt, [GetDevices; GetZones]).
Proof.
  split.
  - apply (list_devices_without_a_text_filter asciiHost home tt tt tt
             (HomeyTools.mk (Some AppAPI)) AppAPI (VStr "")
             [("lamp-1", lamp)] rooms); reflexivity.
  - apply (list_devices_without_a_text_filter asciiHost home tt tt tt
             (HomeyTools.mk (Some AppAPI)) AppAPI (VBool true)
             [("lamp-1", lamp)] rooms);
      try reflexivity.
    intros z. discriminate.
Defined.

Lemma unknown_method_is_not_found_witness :
  HomeyMCPServer.handleMCPRequest asciiHost ready
    (mkRequest (VStr "r-3") (VStr "ping") VUndefined)
  = Ret (Returns (JSONRPCError (VStr "r-3") (-32601) "Method not found: ping" None))
  /\ HomeyMCPServer.handleMCPRequest asciiHost ready
       (mkRequest (VStr "r-4") unprintable VUndefined)
     = Ret (Throws (mkError "Cannot convert object to primitive value")).
Proof.
  split.
  - apply (unknown_method_is_not_found asciiHost ready
             (mkRequest (VStr "r-3") (VStr "ping") VUndefined)).
    intros method Hin. simpl in Hin.
    repeat (destruct Hin as [<- | Hin]; [discriminate |]).
    contradiction.
  - apply (unknown_method_is_not_found asciiHost ready
             (mkRequest (VStr "r-4") unprintable VUndefined)).
    intros method Hin. discriminate.
Defined.

Lemma mcp_answers_with_the_body_id_witness :
  (exists r,
      result (run home (Api.mcp asciiHost (Some ready)
                          (VObj [("id", VStr "r-9"); ("method", VStr "tools/list")]))
                tt)
      = Returns r
      /\ response_id r = VStr "r-9")
  /\ (exists r,
         result (run home (Api.mcp asciiHost (Some ready) unprintableBody) tt)
         = Returns r
         /\ (response_id r = VNum (JSNumber.ofZ 0) \/ response_id r = VNull)).
Proof.
  split.
  - destruct (mcp_answers_with_the_body_id asciiHost home tt ready
                (VObj [("id", VStr "r-9"); ("method", VStr "tools/list")]))
      as [r [Hanswer [_ [Htruthy _]]]]; try discriminate.
    exists r. split; [exact Hanswer | apply Htruthy; reflexivity].
  - destruct (mcp_answers_with_the_body_id asciiHost home tt ready
                unprintableBody)
      as [r [Hanswer [Hid _]]]; try discriminate.
    exists r. split; [exact Hanswer | exact Hid].
Defined.

Lemma sanitizeZoneName_returns_a_trimmed_text_witness :
  ValidationHelper.sanitizeZoneName (VStr "Kitchen") = Returns (Some "Kitchen")
  /\ forall rest, "Kitchen" <> " " ++ rest /\ "Kitchen" <> rest ++ " ".
Proof.
  pose proof (sanitizeZoneName_returns_a_trimmed_text (VStr " Kitchen "))
    as [_ [Hends Hfixed]].
  split; [exact Hfixed |].
  intros rest. apply Hends. vm_compute. tauto.
Defined.
